(** * Signature pool, SSE stream processor and signature service of sub2api

    A shallow embedding of the Go sources of the signature feature:
      - package service: the stream processor ([SignatureStreamState],
        [ProcessSSELine]), the signature service ([Create], [BatchImport],
        [computeSignatureHash]), the pool ([GetRandomSignature],
        [reloadCache], [filterSignatures]) and the collector
        ([SignatureCollector]);
      - package repository: signature_repo.go, the persistence adapter;
      - package admin: signature_handler.go, the handlers of the
        administration;
      - migration 042_create_signatures_table.sql and the schema of the
        entity: the constraints of the table.

    Go strings are byte strings: they are modelled by [string], whose
    characters are 8-bit [ascii] values.  Go [int] and [int64] values are
    modelled by [Z].  Calls through an interface (the pool, the repository),
    the clock, the random generator and spawned goroutines are events of a
    free monad; mutexes are elided (every method body runs atomically), and
    calls to [log.Printf] are left out. *)

From Stdlib Require Import ZArith NArith Ascii String List Bool Lia DecimalString.
From Stdlib Require Import Sorted.
From stdpp Require Import base option list gmap strings.

Set Warnings "-register-all".

Local Open Scope Z_scope.
Local Open Scope string_scope.

(** ** Bytes and strings of the Go runtime *)

Module Go.

Definition byte_of (c : ascii) : Z := Z.of_N (N_of_ascii c).

(** [len(s)] of a Go string: its number of bytes. *)
Definition len (s : string) : Z := Z.of_nat (String.length s).

(** [strconv.Itoa] / [strconv.AppendInt(_, i, 10)]. *)
Definition Itoa (i : Z) : string := NilZero.string_of_int (Z.to_int i).

(** [len(l)] of a slice. *)
Definition len' {A} (l : list A) : Z := Z.of_nat (List.length l).

Definition hexdigits : string := "0123456789abcdef".

Definition hexdigit (n : Z) : ascii :=
  match String.get (Z.to_nat n) hexdigits with
  | Some c => c
  | None => "0"%char
  end.

Fixpoint drop_while (p : ascii -> bool) (s : string) : string :=
  match s with
  | EmptyString => EmptyString
  | String c r => if p c then drop_while p r else s
  end.

(** Text with double quotes written as apostrophes, for examples. *)
Fixpoint dq (s : string) : string :=
  match s with
  | EmptyString => EmptyString
  | String c r => String (if Ascii.eqb c "'" then ascii_of_nat 34 else c) (dq r)
  end.

Fixpoint strip_prefix (p s : string) : option string :=
  match p, s with
  | EmptyString, _ => Some s
  | String a p', String b s' => if Ascii.eqb a b then strip_prefix p' s' else None
  | String _ _, EmptyString => None
  end.

End Go.

(** ** The regular expression [^data:\s*]

    [sseDataRegex = regexp.MustCompile(`^data:\s*`)].  The pattern is
    anchored at the start of the text (no multi-line flag), so it matches at
    most once, at offset 0, and the greedy [\s*] takes the longest run of the
    RE2 class [\s] = [\t\n\f\r ]. *)

Module Regexp.

Definition is_space (c : ascii) : bool :=
  let n := Go.byte_of c in
  (n =? 9)%Z || (n =? 10)%Z || (n =? 12)%Z || (n =? 13)%Z || (n =? 32)%Z.

(** [sseDataRegex.MatchString(line)]. *)
Definition MatchString (line : string) : bool :=
  match Go.strip_prefix "data:" line with
  | Some _ => true
  | None => false
  end.

(** [sseDataRegex.ReplaceAllString] of a line by the empty string. *)
Definition ReplaceAllString (line : string) : string :=
  match Go.strip_prefix "data:" line with
  | Some rest => Go.drop_while is_space rest
  | None => line
  end.

End Regexp.

(** ** [encoding/json]: marshalling of [map[string]any]

    [generateSignatureDeltaLine] marshals a [map[string]any] literal.  The
    encoder of the standard library writes the entries of a map sorted by
    key, strings with [escapeHTML] on, and integers in decimal. *)

Module Json.

Inductive any : Type :=
| AString (s : string)
| AInt (i : Z)
| AMap (m : list (string * any)).

(** [utf8.DecodeRuneInString]: the rune and its width in bytes; an invalid
    or short encoding decodes to [(RuneError, 1)]. *)
Definition RuneError : Z := 65533.

Definition cont (b : Z) : bool := ((128 <=? b) && (b <=? 191))%Z.

Definition DecodeRuneInString (s : string) : Z * nat :=
  let bad := (RuneError, 1%nat) in
  match s with
  | EmptyString => (RuneError, 0%nat)
  | String c0 r0 =>
    let b0 := Go.byte_of c0 in
    if (b0 <? 128)%Z then (b0, 1%nat)
    else if (b0 <? 194)%Z then bad
    else match r0 with
    | EmptyString => bad
    | String c1 r1 =>
      let b1 := Go.byte_of c1 in
      if (b0 <? 224)%Z then
        if cont b1 then ((b0 - 192) * 64 + (b1 - 128), 2%nat) else bad
      else
        let lo1 := if (b0 =? 224)%Z then 160
                   else if (b0 =? 240)%Z then 144 else 128 in
        let hi1 := if (b0 =? 237)%Z then 159
                   else if (b0 =? 244)%Z then 143 else 191 in
        if negb ((lo1 <=? b1)%Z && (b1 <=? hi1)%Z) then bad
        else match r1 with
        | EmptyString => bad
        | String c2 r2 =>
          let b2 := Go.byte_of c2 in
          if negb (cont b2) then bad
          else if (b0 <? 240)%Z then
            ((b0 - 224) * 4096 + (b1 - 128) * 64 + (b2 - 128), 3%nat)
          else if (244 <? b0)%Z then bad
          else match r2 with
          | EmptyString => bad
          | String c3 _ =>
            let b3 := Go.byte_of c3 in
            if cont b3
            then ((b0 - 240) * 262144 + (b1 - 128) * 4096
                  + (b2 - 128) * 64 + (b3 - 128), 4%nat)
            else bad
          end
        end
    end
  end.

(** The bytes [htmlSafeSet] lets through unescaped: the ASCII characters
    from the space on, other than the double quote, the backslash and the
    HTML characters. *)
Definition htmlSafe (b : Z) : bool :=
  ((32 <=? b) && (b <? 128)
   && negb ((b =? 34) || (b =? 92) || (b =? 60) || (b =? 62) || (b =? 38)))%Z.

(** The escape of an ASCII byte that is not safe; [\b] and [\f] are written
    so from Go 1.22 on. *)
Definition escape_ascii (c : ascii) : string :=
  let b := Go.byte_of c in
  if htmlSafe b then String c EmptyString
  else if ((b =? 92) || (b =? 34))%Z then String "\"%char (String c EmptyString)
  else if (b =? 8)%Z then "\b"
  else if (b =? 12)%Z then "\f"
  else if (b =? 10)%Z then "\n"
  else if (b =? 13)%Z then "\r"
  else if (b =? 9)%Z then "\t"
  else "\u00" ++ String (Go.hexdigit (b / 16)) (String (Go.hexdigit (b mod 16)) EmptyString).

(** The loop of [appendString].  [skip] counts the bytes of the rune decoded
    last that are still to be passed over; [raw] tells whether they are
    copied (a valid rune) or dropped (U+2028 and U+2029, already written as
    an escape). *)
Fixpoint appendString_loop (skip : nat) (raw : bool) (s : string) : string :=
  match s with
  | EmptyString => EmptyString
  | String c r =>
    match skip with
    | S k => (if raw then String c EmptyString else EmptyString) ++ appendString_loop k raw r
    | O =>
      if (Go.byte_of c <? 128)%Z then escape_ascii c ++ appendString_loop 0 true r
      else
        let '(rune, size) := DecodeRuneInString s in
        if (rune =? RuneError)%Z && (size =? 1)%nat then
          "\ufffd" ++ appendString_loop 0 true r
        else if ((rune =? 8232) || (rune =? 8233))%Z then
          "\u202" ++ String (Go.hexdigit (Z.land rune 15)) EmptyString
                  ++ appendString_loop (size - 1) false r
        else String c EmptyString ++ appendString_loop (size - 1) true r
    end
  end.

Definition dquote : string := String (ascii_of_nat 34) EmptyString.

(** [appendString(dst, src, escapeHTML = true)]. *)
Definition appendString (s : string) : string :=
  dquote ++ appendString_loop 0 true s ++ dquote.

(** Insertion of an entry into a list of entries sorted by key: the order
    [slices.SortFunc(sv, strings.Compare)] gives a map's entries. *)
Fixpoint insert_sorted {A} (kv : string * A) (l : list (string * A)) : list (string * A) :=
  match l with
  | [] => [kv]
  | kv' :: l' =>
    if String.leb (fst kv) (fst kv') then kv :: l else kv' :: insert_sorted kv l'
  end.

Definition sort_entries {A} (l : list (string * A)) : list (string * A) :=
  foldr insert_sorted [] l.

Fixpoint join (sep : string) (l : list string) : string :=
  match l with
  | [] => EmptyString
  | [x] => x
  | x :: r => x ++ sep ++ join sep r
  end.

(** [json.Marshal] on the values [generateSignatureDeltaLine] builds. *)
Fixpoint Marshal (v : any) : string :=
  match v with
  | AString s => appendString s
  | AInt i => Go.Itoa i
  | AMap m =>
    "{" ++ join "," (map (fun kv => appendString (fst kv) ++ ":" ++ snd kv)
                         (sort_entries (map (fun kv => (fst kv, Marshal (snd kv))) m)))
        ++ "}"
  end.

End Json.

(** ** Programs over the calls of an interface

    A method that calls through an interface, reads the clock or draws a
    random number is a tree of such calls: [Vis e k] performs the call [e]
    and continues with [k] applied to what the call returns. *)

Inductive prog (E : Type -> Type) (A : Type) : Type :=
| Ret (a : A)
| Vis {X : Type} (e : E X) (k : X -> prog E A).

Arguments Ret {E A} a.
Arguments Vis {E A X} e k.

Fixpoint bind {E A B} (m : prog E A) (f : A -> prog E B) : prog E B :=
  match m with
  | Ret a => f a
  | Vis e k => Vis e (fun x => bind (k x) f)
  end.

Definition call {E X} (e : E X) : prog E X := Vis e Ret.

#[global] Instance prog_bind {E} : MBind (prog E) := fun A B f m => bind m f.
#[global] Instance prog_ret {E} : MRet (prog E) := fun A a => Ret a.

(** An implementation of the interface [E] over a world [W]. *)
Definition handler (E : Type -> Type) (W : Type) : Type :=
  forall X, E X -> W -> X * W.

Fixpoint run {E W A} (h : handler E W) (p : prog E A) (w : W) : A * W :=
  match p with
  | Ret a => (a, w)
  | Vis e k => let '(x, w') := h _ e w in run h (k x) w'
  end.

(** A call with the answer it got. *)
Record answered (E : Type -> Type) : Type := Answered {
  ans_type : Type;
  ans_call : E ans_type;
  ans_value : ans_type
}.

Arguments Answered {E ans_type} ans_call ans_value.

(** The calls a program makes, in order, with their answers. *)
Fixpoint trace {E W A} (h : handler E W) (p : prog E A) (w : W) : list (answered E) :=
  match p with
  | Ret _ => []
  | Vis e k => let '(x, w') := h _ e w in Answered e x :: trace h (k x) w'
  end.

(** ** Domain types of package [service] *)

Inductive error : Type :=
| ErrSignatureNotFound
| ErrSignatureNilInput
| ErrSignatureDuplicate
| ErrSignaturePoolEmpty
| ErrPersistence (msg : string).

(** [err != nil]. *)
Definition notnil (err : option error) : bool :=
  match err with
  | Some _ => true
  | None => false
  end.

Record SignaturePoolFilter : Type := {
  Models : list string
}.

Record SignatureConfig : Type := {
  Enabled : bool;
  Strategy : string;
  PoolFilter : option SignaturePoolFilter;
  EnableCollection : bool;
  MinLength : Z
}.

(** ** The stream processor (package service) *)

Module Stream.

(** [json.RawMessage]: the bytes of a value, empty when the field is absent. *)
Definition RawMessage : Type := string.

(** The anonymous struct [ProcessSSELine] decodes a payload into. *)
Record event : Type := {
  Type_ : string;
  Index : Z;
  Delta : RawMessage;
  ContentBlock : RawMessage
}.

(** The anonymous struct of [handleContentBlockStart]. *)
Record contentBlock : Type := {
  cb_Type : string;
  cb_Thinking : string;
  cb_Signature : string
}.

(** The anonymous struct of [handleContentBlockDelta]. *)
Record delta : Type := {
  d_Type : string;
  d_Signature : string
}.

(** The JSON decoders and the JSON editor the processor calls:
    [json.Unmarshal] at the three struct types ([None] is a non-nil error)
    and [sjson.Set(json, path, value)]. The processor is written against
    any behaviour of these library functions. *)
Record JSONLib : Type := {
  Unmarshal_event : string -> option event;
  Unmarshal_contentBlock : RawMessage -> option contentBlock;
  Unmarshal_delta : RawMessage -> option delta;
  sjson_Set : string -> string -> string -> string * option error
}.

Record ThinkingBlockState : Type := {
  tb_Index : Z;
  Started : bool;
  HasSignatureDelta : bool;
  ReceivedSignature : string;
  Stopped : bool
}.

(** [SignatureStreamState].  [thinkingBlocks] maps an index to the block it
    points to; [collector] is the address of the attached collector, [None]
    for a nil pointer.  The pool and the collector are other objects: the
    processor reaches them by the calls of [StreamE]. *)
Record SignatureStreamState : Type := {
  thinkingBlocks : gmap Z ThinkingBlockState;
  config : SignatureConfig;
  collector : option nat;
  accountID : Z
}.

Inductive StreamE : Type -> Type :=
| GetRandomSignature (filter : option SignaturePoolFilter) : StreamE (string * option error)
| Collect (c : nat) (signature : string) : StreamE unit.

Definition with_blocks (s : SignatureStreamState) (m : gmap Z ThinkingBlockState)
  : SignatureStreamState :=
  {| thinkingBlocks := m; config := config s;
     collector := collector s; accountID := accountID s |}.

Definition NewSignatureStreamState (cfg : SignatureConfig) (acc : Z) (coll : option nat)
  : SignatureStreamState :=
  {| thinkingBlocks := ∅; config := cfg; collector := coll; accountID := acc |}.

Section Processor.

Variable J : JSONLib.

Definition handleContentBlockStart (s : SignatureStreamState)
    (line data : string) (index : Z) (contentBlockRaw : RawMessage)
  : string * SignatureStreamState :=
  match Unmarshal_contentBlock J contentBlockRaw with
  | None => (line, s)
  | Some cb =>
    if negb (String.eqb (cb_Type cb) "thinking") then (line, s)
    else
      (line,
       with_blocks s
         (<[index := {| tb_Index := index; Started := true;
                        HasSignatureDelta := false; ReceivedSignature := EmptyString;
                        Stopped := false |}]> (thinkingBlocks s)))
  end.

Definition replaceSignatureInLine (s : SignatureStreamState) (line : string) (index : Z)
  : prog StreamE string :=
  '(signature, err) ← call (GetRandomSignature (PoolFilter (config s)));
  if notnil err || String.eqb signature EmptyString then Ret line
  else
    let data := Regexp.ReplaceAllString line in
    let '(newData, err) := sjson_Set J data "delta.signature" signature in
    if notnil err then Ret line
    else Ret ("data: " ++ newData).

Definition generateSignatureDeltaLine (s : SignatureStreamState) (index : Z)
  : prog StreamE string :=
  '(signature, err) ← call (GetRandomSignature (PoolFilter (config s)));
  if notnil err || String.eqb signature EmptyString then Ret EmptyString
  else
    let event :=
      Json.AMap [("type", Json.AString "content_block_delta");
                 ("index", Json.AInt index);
                 ("delta", Json.AMap [("type", Json.AString "signature_delta");
                                      ("signature", Json.AString signature)])] in
    Ret ("data: " ++ Json.Marshal event).

Definition handleContentBlockDelta (s : SignatureStreamState)
    (line data : string) (index : Z) (deltaRaw : RawMessage)
  : prog StreamE (string * SignatureStreamState) :=
  match Unmarshal_delta J deltaRaw with
  | None => Ret (line, s)
  | Some d =>
    if negb (String.eqb (d_Type d) "signature_delta") then Ret (line, s)
    else
      s' ← match thinkingBlocks s !! index with
            | Some block =>
              let block' := {| tb_Index := tb_Index block; Started := Started block;
                               HasSignatureDelta := true;
                               ReceivedSignature := d_Signature d;
                               Stopped := Stopped block |} in
              let s' := with_blocks s (<[index := block']> (thinkingBlocks s)) in
              match collector s with
              | Some c =>
                if negb (String.eqb (d_Signature d) EmptyString)
                then _ ← call (Collect c (d_Signature d)); Ret s'
                else Ret s'
              | None => Ret s'
              end
            | None => Ret s
            end;
      if String.eqb (Strategy (config s')) "always_replace" then
        l ← replaceSignatureInLine s' line index; Ret (l, s')
      else if String.eqb (Strategy (config s')) "fill_missing" then Ret (line, s')
      else Ret (line, s')
  end.

Definition handleContentBlockStop (s : SignatureStreamState) (line : string) (index : Z)
  : prog StreamE (string * list string * SignatureStreamState) :=
  match thinkingBlocks s !! index with
  | None => Ret (line, [], s)
  | Some block =>
    let block' := {| tb_Index := tb_Index block; Started := Started block;
                     HasSignatureDelta := HasSignatureDelta block;
                     ReceivedSignature := ReceivedSignature block;
                     Stopped := true |} in
    let s' := with_blocks s (<[index := block']> (thinkingBlocks s)) in
    let needsInjection :=
      if String.eqb (Strategy (config s')) "always_replace"
      then negb (HasSignatureDelta block')
      else if String.eqb (Strategy (config s')) "fill_missing"
      then negb (HasSignatureDelta block')
      else false in
    if needsInjection then
      injectedLine ← generateSignatureDeltaLine s' index;
      if negb (String.eqb injectedLine EmptyString) then Ret (line, [injectedLine], s')
      else Ret (line, [], s')
    else Ret (line, [], s')
  end.

(** [ProcessSSELine]: the line to emit, the lines to emit before it, the
    error (always nil) and the state after the call. *)
Definition ProcessSSELine (s : SignatureStreamState) (line : string)
  : prog StreamE (string * list string * option error * SignatureStreamState) :=
  if negb (Regexp.MatchString line) then Ret (line, [], None, s)
  else
    let data := Regexp.ReplaceAllString line in
    if String.eqb data EmptyString || String.eqb data "[DONE]" then Ret (line, [], None, s)
    else
      match Unmarshal_event J data with
      | None => Ret (line, [], None, s)
      | Some ev =>
        if String.eqb (Type_ ev) "content_block_start" then
          let '(modifiedLine, s') :=
            handleContentBlockStart s line data (Index ev) (ContentBlock ev) in
          Ret (modifiedLine, [], None, s')
        else if String.eqb (Type_ ev) "content_block_delta" then
          '(modifiedLine, s') ← handleContentBlockDelta s line data (Index ev) (Delta ev);
          Ret (modifiedLine, [], None, s')
        else if String.eqb (Type_ ev) "content_block_stop" then
          '(modifiedLine, extraLines, s') ← handleContentBlockStop s line (Index ev);
          Ret (modifiedLine, extraLines, None, s')
        else Ret (line, [], None, s)
      end.

End Processor.

End Stream.

(** ** The signature entity and the repository interface (package service) *)

(** Instants ([time.Time]) are counted in nanoseconds from the zero
    [time.Time{}], which is instant [0]. *)
Definition Time : Type := Z.

Record Signature : Type := {
  ID : Z;
  Value : string;
  Hash : string;
  Model : option string;
  Source : string;
  Status : string;
  UseCount : Z;
  LastUsedAt : option Time;
  LastVerifiedAt : option Time;
  Notes : option string;
  CollectedFromAccountID : option Z;
  CreatedAt : Time;
  UpdatedAt : Time
}.

Record BatchImportResult : Type := {
  Total : Z;
  Imported : Z;
  Duplicated : Z;
  Failed : Z
}.

(** The methods of [SignatureRepository] the core calls.  [repo_Create]
    answers with the signature as the repository leaves it (ID and
    timestamps filled in on success). *)
Inductive RepoE : Type -> Type :=
| repo_Create (sig : Signature) : RepoE (Signature * option error)
| repo_BatchCreate (sigs : list Signature) : RepoE (Z * option error)
| repo_ExistsByHash (hash : string) : RepoE (bool * option error)
| repo_ExistsByHashes (hashes : list string) : RepoE (gmap string bool * option error)
| repo_ListActive (limit : Z) : RepoE (list Signature * option error)
| repo_IncrementUseCount (id : Z) : RepoE (option error).

(** ** The pool cache (package service) *)

Module Pool.

Record CachedSignature : Type := {
  cs_ID : Z;
  cs_Value : string;
  cs_Model : option string
}.

(** [signaturePoolService] without its lock; the repository and the random
    generator are reached by the calls of [PoolE]. *)
Record signaturePoolService : Type := {
  cachedSigs : list CachedSignature;
  cacheExpiry : Time;
  cacheTTL : Z
}.

Inductive PoolE : Type -> Type :=
| time_Now : PoolE Time
| repo {X} (e : RepoE X) : PoolE X
| rng_Intn (n : Z) : PoolE Z
| go_MarkUsed (signatureID : Z) : PoolE unit.

(** [5 * time.Minute] in nanoseconds. *)
Definition NewSignaturePoolService : signaturePoolService :=
  {| cachedSigs := []; cacheExpiry := 0; cacheTTL := 5 * 60 * 1000000000 |}.

(** [len(s.cachedSigs) > 0 && time.Now().Before(s.cacheExpiry)]: the clock
    is read only when the snapshot is not empty. *)
Definition cacheFresh (s : signaturePoolService) : prog PoolE bool :=
  if (0 <? Go.len' (cachedSigs s))%Z
  then now ← call time_Now; Ret (now <? cacheExpiry s)%Z
  else Ret false.

Definition toCached (sig : Signature) : CachedSignature :=
  {| cs_ID := ID sig; cs_Value := Value sig; cs_Model := Model sig |}.

Definition reloadCache (s : signaturePoolService)
  : prog PoolE (list CachedSignature * signaturePoolService) :=
  fresh ← cacheFresh s;
  if fresh : bool then Ret (cachedSigs s, s)
  else
    '(signatures, err) ← call (repo (repo_ListActive 1000));
    if notnil err then Ret (cachedSigs s, s)
    else
      let sigs := map toCached signatures in
      now ← call time_Now;
      let s' := {| cachedSigs := sigs; cacheExpiry := now + cacheTTL s;
                   cacheTTL := cacheTTL s |} in
      Ret (cachedSigs s', s').

Definition getCachedSignatures (s : signaturePoolService)
  : prog PoolE (list CachedSignature * signaturePoolService) :=
  fresh ← cacheFresh s;
  if fresh : bool then Ret (cachedSigs s, s)
  else reloadCache s.

Definition eligible (modelSet : gset string) (sig : CachedSignature) : bool :=
  match cs_Model sig with
  | None => true
  | Some m => bool_decide (m ∈ modelSet)
  end.

Definition filterSignatures (sigs : list CachedSignature)
    (filter : option SignaturePoolFilter) : list CachedSignature :=
  match filter with
  | None => sigs
  | Some f =>
    if (Go.len' (Models f) =? 0)%Z then sigs
    else
      let modelSet : gset string := list_to_set (Models f) in
      let result := List.filter (eligible modelSet) sigs in
      if (Go.len' result =? 0)%Z then sigs else result
  end.

(** [GetRandomSignature].  The answer is [None] when the method panics (an
    index out of range); otherwise the value and the error it returns. *)
Definition GetRandomSignature (s : signaturePoolService)
    (filter : option SignaturePoolFilter)
  : prog PoolE (option (string * option error) * signaturePoolService) :=
  '(sigs, s') ← getCachedSignatures s;
  if (Go.len' sigs =? 0)%Z then Ret (Some (EmptyString, Some ErrSignaturePoolEmpty), s')
  else
    let filtered := filterSignatures sigs filter in
    if (Go.len' filtered =? 0)%Z then Ret (Some (EmptyString, Some ErrSignaturePoolEmpty), s')
    else
      idx ← call (rng_Intn (Go.len' filtered));
      match (if (idx <? 0)%Z then None else filtered !! Z.to_nat idx) with
      | None => Ret (None, s')
      | Some selected =>
        _ ← call (go_MarkUsed (cs_ID selected));
        Ret (Some (cs_Value selected, None), s')
      end.


Definition InvalidateCache (s : signaturePoolService) : signaturePoolService :=
  {| cachedSigs := cachedSigs s; cacheExpiry := 0; cacheTTL := cacheTTL s |}.

Definition GetPoolSize (s : signaturePoolService) : Z := Go.len' (cachedSigs s).

End Pool.

(** ** The collector (package service)

    [GetCollected] copies a slice, so slices are modelled with their backing
    arrays: the heap maps an address to an array, a slice header holds the
    address, the length and the capacity. *)

Module Collector.

Record slice : Type := {
  ptr : nat;
  slen : nat;
  scap : nat
}.

Local Open Scope list_scope.

Abbreviation heap := (gmap nat (list string)).

Definition array (h : heap) (sl : slice) : list string :=
  match h !! ptr sl with
  | Some arr => arr
  | None => []
  end.

(** The elements [sl[0], ..., sl[len(sl)-1]]. *)
Definition contents (h : heap) (sl : slice) : list string :=
  take (slen sl) (array h sl).

Definition alloc (h : heap) : nat := fresh (dom h).

(** [make([]string, n)]: a new array of [n] empty strings.  An array of
    length 0 gets an address of its own too; it has no element to share. *)
Definition make (h : heap) (n : nat) : slice * heap :=
  let a := alloc h in
  ({| ptr := a; slen := n; scap := n |}, <[a := replicate n EmptyString]> h).

(** [copy(dst, src)]: the first [min(len(dst), len(src))] elements. *)
Definition copy (h : heap) (dst src : slice) : heap :=
  let n := Nat.min (slen dst) (slen src) in
  <[ptr dst := take n (contents h src) ++ drop n (array h dst)]> h.

(** [sl[i] = v]; [None] is the panic of an index out of range. *)
Definition store (h : heap) (sl : slice) (i : nat) (v : string) : option heap :=
  if (i <? slen sl)%nat then Some (<[ptr sl := <[i := v]> (array h sl)]> h) else None.

Section Append.

(** The capacity [growslice] picks for a slice of capacity [oldCap] that
    must hold [newLen] elements; it is at least [newLen]. *)
Variable growslice_cap : nat -> nat -> nat.

(** [append(sl, v)]: in place when the capacity allows, else into a new
    array. *)
Definition append (h : heap) (sl : slice) (v : string) : slice * heap :=
  if (slen sl <? scap sl)%nat then
    ({| ptr := ptr sl; slen := S (slen sl); scap := scap sl |},
     <[ptr sl := <[slen sl := v]> (array h sl)]> h)
  else
    let newLen := S (slen sl) in
    let newCap := Nat.max newLen (growslice_cap (scap sl) newLen) in
    let a := alloc h in
    ({| ptr := a; slen := newLen; scap := newCap |},
     <[a := contents h sl ++ v :: replicate (newCap - newLen) EmptyString]> h).

Record SignatureCollector : Type := {
  signatures : slice;
  minLength : Z;
  accountID : Z;
  model : option string
}.

Definition NewSignatureCollector (h : heap) (accountID : Z) (model : option string)
    (minLength : Z) : SignatureCollector * heap :=
  let minLength := if (minLength <=? 0)%Z then 350 else minLength in
  let '(sl, h') := make h 0 in
  ({| signatures := sl; minLength := minLength;
      accountID := accountID; model := model |}, h').

Definition Collect (c : SignatureCollector) (h : heap) (signature : string)
  : SignatureCollector * heap :=
  if (Go.len signature <=? minLength c)%Z then (c, h)
  else
    let '(sl, h') := append h (signatures c) signature in
    ({| signatures := sl; minLength := minLength c;
        accountID := accountID c; model := model c |}, h').

Definition GetCollected (c : SignatureCollector) (h : heap) : slice * heap :=
  let '(result, h') := make h (slen (signatures c)) in
  (result, copy h' result (signatures c)).

Definition Count (c : SignatureCollector) : Z := Z.of_nat (slen (signatures c)).

Definition GetAccountID (c : SignatureCollector) : Z := accountID c.

Definition GetModel (c : SignatureCollector) : option string := model c.

End Append.

(** A slice header that fits its array. *)
Definition slice_ok (h : heap) (sl : slice) : Prop :=
  ∃ arr, h !! ptr sl = Some arr ∧ length arr = scap sl ∧ (slen sl ≤ scap sl)%nat.

(** A capacity policy for the examples: doubling. *)
Definition double_cap (oldCap newLen : nat) : nat := Nat.max newLen (2 * oldCap).

End Collector.

(** ** [crypto/sha256] and [encoding/hex]

    SHA-256 as FIPS 180-4 defines it, on 32-bit words held in [Z]. *)

Module Sha256.

Local Open Scope list_scope.

Definition w32 (x : Z) : Z := x mod 4294967296.

Definition add32 (x y : Z) : Z := w32 (x + y).

Definition rotr (n x : Z) : Z :=
  Z.lor (Z.shiftr x n) (w32 (Z.shiftl x (32 - n))).

Definition not32 (x : Z) : Z := Z.lxor x 4294967295.

Definition Ch (x y z : Z) : Z := Z.lxor (Z.land x y) (Z.land (not32 x) z).
Definition Maj (x y z : Z) : Z :=
  Z.lxor (Z.lxor (Z.land x y) (Z.land x z)) (Z.land y z).
Definition Sigma0 (x : Z) : Z := Z.lxor (Z.lxor (rotr 2 x) (rotr 13 x)) (rotr 22 x).
Definition Sigma1 (x : Z) : Z := Z.lxor (Z.lxor (rotr 6 x) (rotr 11 x)) (rotr 25 x).
Definition sigma0 (x : Z) : Z := Z.lxor (Z.lxor (rotr 7 x) (rotr 18 x)) (Z.shiftr x 3).
Definition sigma1 (x : Z) : Z := Z.lxor (Z.lxor (rotr 17 x) (rotr 19 x)) (Z.shiftr x 10).

Definition primes : list Z :=
  [2; 3; 5; 7; 11; 13; 17; 19; 23; 29; 31; 37; 41; 43; 47; 53;
   59; 61; 67; 71; 73; 79; 83; 89; 97; 101; 103; 107; 109; 113; 127; 131;
   137; 139; 149; 151; 157; 163; 167; 173; 179; 181; 191; 193; 197; 199; 211; 223;
   227; 229; 233; 239; 241; 251; 257; 263; 269; 271; 277; 281; 283; 293; 307; 311].

(** The integer cube root, one bit at a time from bit [b - 1] down. *)
Fixpoint icbrt (b : nat) (n r : Z) : Z :=
  match b with
  | O => r
  | S b' =>
    let r' := r + Z.shiftl 1 (Z.of_nat b') in
    icbrt b' n (if (r' * r' * r' <=? n)%Z then r' else r)
  end.

(** The round constants: the first 32 bits of the fractional parts of the
    cube roots of the first 64 primes. *)
Definition K : list Z :=
  Eval vm_compute in map (fun p => w32 (icbrt 36 (p * Z.shiftl 1 96) 0)) primes.

(** The initial hash value: the first 32 bits of the fractional parts of the
    square roots of the first 8 primes. *)
Definition H0 : list Z :=
  Eval vm_compute in map (fun p => w32 (Z.sqrt (p * Z.shiftl 1 64))) (take 8 primes).

Definition bytes_of (s : string) : list Z := map Go.byte_of (list_ascii_of_string s).

Fixpoint be_bytes (n : nat) (x : Z) : list Z :=
  match n with
  | O => []
  | S n' => (Z.shiftr x (8 * Z.of_nat n')) mod 256 :: be_bytes n' x
  end.

(** The message, the byte 0x80, zeros up to 56 modulo 64, and the length in
    bits on 8 bytes. *)
Definition pad (msg : list Z) : list Z :=
  let l := Go.len' msg in
  let zeros := Z.to_nat ((55 - l) mod 64) in
  msg ++ 128 :: replicate zeros 0 ++ be_bytes 8 (8 * l).

Fixpoint be_words (n : nat) (bs : list Z) : list Z :=
  match n, bs with
  | S n', b0 :: b1 :: b2 :: b3 :: r =>
    (b0 * 16777216 + b1 * 65536 + b2 * 256 + b3) :: be_words n' r
  | _, _ => []
  end.

(** The message schedule, latest word first. *)
Fixpoint schedule (n : nat) (w : list Z) : list Z :=
  match n with
  | O => w
  | S n' =>
    let x := add32 (add32 (sigma1 (nth 1 w 0)) (nth 6 w 0))
                   (add32 (sigma0 (nth 14 w 0)) (nth 15 w 0)) in
    schedule n' (x :: w)
  end.

Definition round (st : list Z) (kw : Z * Z) : list Z :=
  match st with
  | [a; b; c; d; e; f; g; h] =>
    let t1 := add32 (add32 (add32 h (Sigma1 e)) (add32 (Ch e f g) (fst kw))) (snd kw) in
    let t2 := add32 (Sigma0 a) (Maj a b c) in
    [add32 t1 t2; a; b; c; add32 d t1; e; f; g]
  | _ => st
  end.

Definition block (st : list Z) (bs : list Z) : list Z :=
  let w := rev (schedule 48 (rev (be_words 16 bs))) in
  zip_with add32 st (foldl round st (zip K w)).

Fixpoint blocks (n : nat) (st : list Z) (bs : list Z) : list Z :=
  match n with
  | O => st
  | S n' =>
    match bs with
    | [] => st
    | _ => blocks n' (block st (take 64 bs)) (drop 64 bs)
    end
  end.

(** [sha256.Sum256]: the 32 bytes of the digest. *)
Definition Sum256 (s : string) : list Z :=
  let bs := pad (bytes_of s) in
  flat_map (be_bytes 4) (blocks (length bs) H0 bs).

End Sha256.

Module Hex.

(** [hex.EncodeToString]. *)
Fixpoint EncodeToString (bs : list Z) : string :=
  match bs with
  | [] => EmptyString
  | b :: r => String (Go.hexdigit (b / 16)) (String (Go.hexdigit (b mod 16)) (EncodeToString r))
  end.

End Hex.

(** ** The signature service (package service) *)

Module Service.

Local Open Scope list_scope.

Definition computeSignatureHash (value : string) : string :=
  Hex.EncodeToString (Sha256.Sum256 value).

Definition newSignature (value hash : string) (model : option string)
    (source : string) (notes : option string) (account : option Z) : Signature :=
  {| ID := 0; Value := value; Hash := hash; Model := model; Source := source;
     Status := "active"; UseCount := 0; LastUsedAt := None; LastVerifiedAt := None;
     Notes := notes; CollectedFromAccountID := account;
     CreatedAt := 0; UpdatedAt := 0 |}.

(** [Create]: the signature ([None] for nil) and the error. *)
Definition Create (value : string) (model notes : option string)
  : prog RepoE (option Signature * option error) :=
  let hash := computeSignatureHash value in
  '(exists_, err) ← call (repo_ExistsByHash hash);
  if notnil err then Ret (None, err)
  else if exists_ : bool then Ret (None, Some ErrSignatureDuplicate)
  else
    let sig := newSignature value hash model "manual" notes None in
    '(sig', err) ← call (repo_Create sig);
    if notnil err then Ret (None, err)
    else Ret (Some sig', None).

(** The first loop of [BatchImport]: [hashes] and [valueToHash]. *)
Definition hashesOf (values : list string) : list string :=
  map computeSignatureHash values.

Definition valueToHashOf (values : list string) : gmap string string :=
  foldl (fun m v => <[v := computeSignatureHash v]> m) ∅ values.

(** The second loop: the values whose hash is not known to exist become new
    signatures, the others are counted as duplicated. *)
Fixpoint filterNew (valueToHash : gmap string string) (existingHashes : gmap string bool)
    (mk : string -> string -> Signature) (values : list string)
    (duplicated : Z) (newSigs : list Signature) : Z * list Signature :=
  match values with
  | [] => (duplicated, newSigs)
  | v :: rest =>
    let hash := default EmptyString (valueToHash !! v) in
    if default false (existingHashes !! hash)
    then filterNew valueToHash existingHashes mk rest (duplicated + 1) newSigs
    else filterNew valueToHash existingHashes mk rest duplicated (newSigs ++ [mk v hash])
  end.

Definition emptyResult : BatchImportResult :=
  {| Total := 0; Imported := 0; Duplicated := 0; Failed := 0 |}.

(** The body [BatchImport] and [BatchImportWithAccountID] share, up to the
    default source and the account the new signatures are tagged with. *)
Definition batchImport (defaultSource : string) (account : option Z)
    (values : list string) (model : option string) (source : string)
  : prog RepoE (option BatchImportResult * option error) :=
  if (Go.len' values =? 0)%Z then Ret (Some emptyResult, None)
  else
    let source := if String.eqb source EmptyString then defaultSource else source in
    let hashes := hashesOf values in
    let valueToHash := valueToHashOf values in
    '(existingHashes, err) ← call (repo_ExistsByHashes hashes);
    if notnil err then Ret (None, err)
    else
      let '(duplicated, newSigs) :=
        filterNew valueToHash existingHashes
          (fun v hash => newSignature v hash model source None account) values 0 [] in
      let result := {| Total := Go.len' values; Imported := 0;
                       Duplicated := duplicated; Failed := 0 |} in
      if (0 <? Go.len' newSigs)%Z then
        '(imported, err) ← call (repo_BatchCreate newSigs);
        if notnil err then
          Ret (Some {| Total := Total result; Imported := Imported result;
                       Duplicated := Duplicated result; Failed := Go.len' newSigs |}, err)
        else
          Ret (Some {| Total := Total result; Imported := imported;
                       Duplicated := Duplicated result; Failed := Failed result |}, None)
      else Ret (Some result, None).

Definition BatchImport (values : list string) (model : option string) (source : string)
  : prog RepoE (option BatchImportResult * option error) :=
  batchImport "imported" None values model source.

Definition BatchImportWithAccountID (values : list string) (model : option string)
    (source : string) (accountID : Z)
  : prog RepoE (option BatchImportResult * option error) :=
  batchImport "collected" (Some accountID) values model source.

End Service.

(** ** The persistence adapter (signature_repo.go) over the signatures table

    The table is the one migration 042 creates, written through the schema
    of the entity: [value] is not empty, [hash] is not empty, at most 64
    bytes long and UNIQUE over all the rows, [model] is at most 100 bytes
    long, [source] and [status] are checked against their enumerations,
    [use_count] is an INTEGER of 32 bits, and [deleted_at] marks a
    soft-deleted row.  A round trip to the backend may fail for reasons of
    its own (connection, deadline): [faults] lists the verdicts of the
    coming round trips, [None] for one that is answered. *)

Module Repo.

Local Open Scope list_scope.

Record row : Type := {
  sig : Signature;
  deleted_at : option Time
}.

Record Store : Type := {
  rows : list row;
  next_id : Z;
  clock : Time;
  faults : list (option error)
}.

Definition with_rows (st : Store) (rs : list row) (next : Z) : Store :=
  {| rows := rs; next_id := next; clock := clock st; faults := faults st |}.

(** One round trip: the verdict of the backend and the store after it. *)
Definition roundtrip (st : Store) : option error * Store :=
  match faults st with
  | [] => (None, st)
  | f :: fs =>
    (f, {| rows := rows st; next_id := next_id st; clock := clock st; faults := fs |})
  end.

Definition live (r : row) : bool :=
  match deleted_at r with
  | None => true
  | Some _ => false
  end.

Definition mem (x : string) (l : list string) : bool := existsb (String.eqb x) l.

Definition source_ok (s : string) : bool := mem s ["collected"; "imported"; "manual"].
Definition status_ok (s : string) : bool := mem s ["active"; "disabled"; "expired"].

(** [value TEXT NOT NULL] with the validator [NotEmpty] of the schema. *)
Definition value_ok (v : string) : bool := negb (String.eqb v EmptyString).

(** [hash VARCHAR(64) NOT NULL], [MaxLen(64)] and [NotEmpty] in the schema. *)
Definition hash_ok (h : string) : bool :=
  negb (String.eqb h EmptyString) && (Go.len h <=? 64)%Z.

(** [model VARCHAR(100)], [MaxLen(100)] in the schema; the column may be
    NULL. *)
Definition model_ok (m : option string) : bool :=
  match m with
  | Some m => (Go.len m <=? 100)%Z
  | None => true
  end.

(** [use_count INTEGER]. *)
Definition use_count_ok (n : Z) : bool :=
  (- 2147483648 <=? n)%Z && (n <=? 2147483647)%Z.

(** The constraints of the table on the columns of one row. *)
Definition row_ok (s : Signature) : bool :=
  value_ok (Value s) && hash_ok (Hash s) && model_ok (Model s)
  && source_ok (Source s) && status_ok (Status s) && use_count_ok (UseCount s).

(** The constraints of the table on a batch of rows to insert: those on the
    columns of each row, and [hash] unique among all the rows of the table
    and within the batch. *)
Fixpoint insertable (present : list string) (sigs : list Signature) : bool :=
  match sigs with
  | [] => true
  | s :: rest =>
    row_ok s && negb (mem (Hash s) present) && insertable (Hash s :: present) rest
  end.

(** The error of a write the table refuses. *)
Definition constraint_violation : error := ErrPersistence "constraint violation".

(** The row a builder saves: the fields the builder sets, the ID and the
    timestamps the backend assigns. *)
Definition created (st : Store) (id : Z) (s : Signature)
    (lastUsed lastVerified : option Time) (account : option Z) : row :=
  {| sig := {| ID := id; Value := Value s; Hash := Hash s; Model := Model s;
               Source := Source s; Status := Status s; UseCount := UseCount s;
               LastUsedAt := lastUsed; LastVerifiedAt := lastVerified;
               Notes := Notes s; CollectedFromAccountID := account;
               CreatedAt := clock st; UpdatedAt := clock st |};
     deleted_at := None |}.

(** [Create] on a non-nil signature: the signature with [ID], [CreatedAt]
    and [UpdatedAt] written back on success. *)
Definition Create (st : Store) (s : Signature) : (Signature * option error) * Store :=
  let '(fault, st) := roundtrip st in
  match fault with
  | Some e => ((s, Some e), st)
  | None =>
    if insertable (map (fun r => Hash (sig r)) (rows st)) [s] then
      let r := created st (next_id st) s (LastUsedAt s) (LastVerifiedAt s) None in
      (({| ID := next_id st; Value := Value s; Hash := Hash s; Model := Model s;
           Source := Source s; Status := Status s; UseCount := UseCount s;
           LastUsedAt := LastUsedAt s; LastVerifiedAt := LastVerifiedAt s;
           Notes := Notes s; CollectedFromAccountID := CollectedFromAccountID s;
           CreatedAt := clock st; UpdatedAt := clock st |}, None),
       with_rows st (rows st ++ [r]) (next_id st + 1))
    else ((s, Some constraint_violation), st)
  end.

Fixpoint createBulk (st : Store) (id : Z) (sigs : list Signature) : list row :=
  match sigs with
  | [] => []
  | s :: rest =>
    created st id s None None (CollectedFromAccountID s) :: createBulk st (id + 1) rest
  end.

(** [BatchCreate]: all the rows or none. *)
Definition BatchCreate (st : Store) (sigs : list Signature) : (Z * option error) * Store :=
  if (Go.len' sigs =? 0)%Z then ((0, None), st)
  else
    let '(fault, st) := roundtrip st in
    match fault with
    | Some e => ((0, Some e), st)
    | None =>
      if insertable (map (fun r => Hash (sig r)) (rows st)) sigs then
        let rs := createBulk st (next_id st) sigs in
        ((Go.len' rs, None), with_rows st (rows st ++ rs) (next_id st + Go.len' rs))
      else ((0, Some constraint_violation), st)
    end.

Definition ExistsByHash (st : Store) (hash : string) : (bool * option error) * Store :=
  let '(fault, st) := roundtrip st in
  match fault with
  | Some e => ((false, Some e), st)
  | None => ((existsb (fun r => String.eqb (Hash (sig r)) hash && live r) (rows st), None), st)
  end.

Definition ExistsByHashes (st : Store) (hashes : list string)
  : (gmap string bool * option error) * Store :=
  if (Go.len' hashes =? 0)%Z then ((∅, None), st)
  else
    let '(fault, st) := roundtrip st in
    match fault with
    | Some e => ((∅, Some e), st)
    | None =>
      let existing :=
        map (fun r => Hash (sig r))
            (List.filter (fun r => mem (Hash (sig r)) hashes && live r) (rows st)) in
      ((foldl (fun m h => <[h := true]> m) ∅ existing, None), st)
    end.

(** [ORDER BY use_count DESC], ties in the order of the table. *)
Fixpoint insert_desc (r : row) (l : list row) : list row :=
  match l with
  | [] => [r]
  | r' :: l' =>
    if (UseCount (sig r') <? UseCount (sig r))%Z then r :: l else r' :: insert_desc r l'
  end.

Definition ListActive (st : Store) (limit : Z) : (list Signature * option error) * Store :=
  let '(fault, st) := roundtrip st in
  match fault with
  | Some e => (([], Some e), st)
  | None =>
    let active :=
      List.filter (fun r => String.eqb (Status (sig r)) "active" && live r) (rows st) in
    let ordered := foldr insert_desc [] active in
    let limited := if (0 <? limit)%Z then take (Z.to_nat limit) ordered else ordered in
    ((map sig limited, None), st)
  end.

Definition bump (now : Time) (id : Z) (r : row) : row :=
  if (ID (sig r) =? id)%Z then
    {| sig := {| ID := ID (sig r); Value := Value (sig r); Hash := Hash (sig r);
                 Model := Model (sig r); Source := Source (sig r);
                 Status := Status (sig r); UseCount := UseCount (sig r) + 1;
                 LastUsedAt := Some now; LastVerifiedAt := LastVerifiedAt (sig r);
                 Notes := Notes (sig r);
                 CollectedFromAccountID := CollectedFromAccountID (sig r);
                 CreatedAt := CreatedAt (sig r); UpdatedAt := UpdatedAt (sig r) |};
       deleted_at := deleted_at r |}
  else r.

(** [AddUseCount(1)] on the row with the ID: the write is refused when the
    count leaves the range of the column. *)
Definition IncrementUseCount (st : Store) (id : Z) : option error * Store :=
  let '(fault, st) := roundtrip st in
  match fault with
  | Some e => (Some e, st)
  | None =>
    if existsb (fun r => (ID (sig r) =? id)%Z) (rows st) then
      if forallb (fun r => negb (ID (sig r) =? id)%Z || use_count_ok (UseCount (sig r) + 1))
                 (rows st)
      then (None, with_rows st (map (bump (clock st) id) (rows st)) (next_id st))
      else (Some constraint_violation, st)
    else (Some ErrSignatureNotFound, st)
  end.

(** [Delete]: the soft delete of one row. *)
Definition Delete (st : Store) (id : Z) : option error * Store :=
  let '(fault, st) := roundtrip st in
  match fault with
  | Some e => (Some e, st)
  | None =>
    if existsb (fun r => (ID (sig r) =? id)%Z) (rows st)
    then (None,
          with_rows st
            (map (fun r => if (ID (sig r) =? id)%Z
                           then {| sig := sig r; deleted_at := Some (clock st) |} else r)
                 (rows st)) (next_id st))
    else (Some ErrSignatureNotFound, st)
  end.

(** The repository as an implementation of the interface. *)
Definition handle : handler RepoE Store :=
  fun X e =>
    match e in RepoE X return Store -> X * Store with
    | repo_Create s => fun st => Create st s
    | repo_BatchCreate sigs => fun st => BatchCreate st sigs
    | repo_ExistsByHash h => fun st => ExistsByHash st h
    | repo_ExistsByHashes hs => fun st => ExistsByHashes st hs
    | repo_ListActive limit => fun st => ListActive st limit
    | repo_IncrementUseCount id => fun st => IncrementUseCount st id
    end.

Definition empty : Store := {| rows := []; next_id := 1; clock := 1; faults := [] |}.

End Repo.

(** ** A JSON library for the examples

    A decoder and an editor to run the processor on concrete lines.  The
    decoder reads RFC 8259 texts the way [encoding/json] decodes into the
    three structs of the processor: keys match field names up to ASCII case,
    the last of several equal keys wins, [null] leaves a field alone, a
    value of the wrong type is an error.  The editor replaces the value at a
    path of two keys that exists; sjson would create a missing path, which
    [Set] here reports as an error instead.  The theorems on the processor
    hold for every [JSONLib]; this one only instantiates them. *)

Module RefJSON.

Local Open Scope list_scope.
Local Open Scope char_scope.

Inductive json : Type :=
| JNull
| JBool (b : bool)
| JNumber (lit : string)
| JString (s : string)
| JArray (l : list json)
| JObject (m : list (string * (string * nat * json))).

Definition is_ws (c : ascii) : bool :=
  let n := Go.byte_of c in ((n =? 32) || (n =? 9) || (n =? 10) || (n =? 13))%Z.

Definition skip_ws (s : string) : string := Go.drop_while is_ws s.

Definition is_digit (c : ascii) : bool :=
  let n := Go.byte_of c in ((48 <=? n) && (n <=? 57))%Z.

Definition hexval (c : ascii) : option Z :=
  let n := Go.byte_of c in
  if ((48 <=? n) && (n <=? 57))%Z then Some (n - 48)
  else if ((97 <=? n) && (n <=? 102))%Z then Some (n - 87)
  else if ((65 <=? n) && (n <=? 70))%Z then Some (n - 55)
  else None.

(** A piece of a string literal: a byte, or a UTF-16 unit of a [\u] escape. *)
Inductive unit16 : Type :=
| UByte (c : ascii)
| UCode (u : Z).

(** The units of a string literal up to its closing quote, and the rest. *)
Fixpoint scan_string (s : string) : option (list unit16 * string) :=
  match s with
  | EmptyString => None
  | String c r =>
    if (Go.byte_of c =? 34)%Z then Some ([], r)
    else if (Go.byte_of c <? 32)%Z then None
    else if (Go.byte_of c =? 92)%Z then
      match r with
      | String "u" (String h1 (String h2 (String h3 (String h4 r')))) =>
        match hexval h1, hexval h2, hexval h3, hexval h4, scan_string r' with
        | Some a, Some b, Some c', Some d, Some (us, rest) =>
          Some (UCode (a * 4096 + b * 256 + c' * 16 + d) :: us, rest)
        | _, _, _, _, _ => None
        end
      | String e r' =>
        let out :=
          if (Go.byte_of e =? 34)%Z then Some e
          else if (Go.byte_of e =? 92)%Z then Some e
          else if Ascii.eqb e "/" then Some e
          else if Ascii.eqb e "b" then Some (ascii_of_nat 8)
          else if Ascii.eqb e "f" then Some (ascii_of_nat 12)
          else if Ascii.eqb e "n" then Some (ascii_of_nat 10)
          else if Ascii.eqb e "r" then Some (ascii_of_nat 13)
          else if Ascii.eqb e "t" then Some (ascii_of_nat 9)
          else None in
        match out, scan_string r' with
        | Some b, Some (us, rest) => Some (UByte b :: us, rest)
        | _, _ => None
        end
      | EmptyString => None
      end
    else
      match scan_string r with
      | Some (us, rest) => Some (UByte c :: us, rest)
      | None => None
      end
  end.

Definition chr (n : Z) : ascii := ascii_of_N (Z.to_N n).

(** [utf8.AppendRune]. *)
Definition encode_rune (u : Z) : string :=
  if (u <? 128)%Z then String (chr u) EmptyString
  else if (u <? 2048)%Z then
    String (chr (192 + u / 64)) (String (chr (128 + u mod 64)) EmptyString)
  else if (u <? 65536)%Z then
    String (chr (224 + u / 4096))
      (String (chr (128 + (u / 64) mod 64)) (String (chr (128 + u mod 64)) EmptyString))
  else
    String (chr (240 + u / 262144))
      (String (chr (128 + (u / 4096) mod 64))
         (String (chr (128 + (u / 64) mod 64)) (String (chr (128 + u mod 64)) EmptyString))).

Definition is_surrogate (u : Z) : bool := ((55296 <=? u) && (u <? 57344))%Z.

(** The bytes of the units: a surrogate pair is one rune, a lone surrogate
    is U+FFFD. *)
Fixpoint units_to_string (us : list unit16) : string :=
  match us with
  | [] => EmptyString
  | UByte c :: r => String c (units_to_string r)
  | UCode u :: r =>
    if is_surrogate u then
      match r with
      | UCode v :: r' =>
        if ((u <? 56320) && (56320 <=? v) && (v <? 57344))%Z
        then (encode_rune (65536 + (u - 55296) * 1024 + (v - 56320))
              ++ units_to_string r')%string
        else (encode_rune Json.RuneError ++ units_to_string r)%string
      | _ => (encode_rune Json.RuneError ++ units_to_string r)%string
      end
    else (encode_rune u ++ units_to_string r)%string
  end.

(** Bytes that are not UTF-8 become U+FFFD, as [unquote] does. *)
Fixpoint valid_utf8 (skip : nat) (s : string) : string :=
  match s with
  | EmptyString => EmptyString
  | String c r =>
    match skip with
    | S k => String c (valid_utf8 k r)
    | O =>
      let '(rune, size) := Json.DecodeRuneInString s in
      if (rune =? Json.RuneError)%Z && (size =? 1)%nat
      then (encode_rune Json.RuneError ++ valid_utf8 0 r)%string
      else String c (valid_utf8 (size - 1) r)
    end
  end.

Definition parse_string (s : string) : option (string * string) :=
  match scan_string s with
  | Some (us, rest) => Some (valid_utf8 0 (units_to_string us), rest)
  | None => None
  end.

Definition is_numchar (c : ascii) : bool :=
  is_digit c || Ascii.eqb c "-" || Ascii.eqb c "+" || Ascii.eqb c "."
  || Ascii.eqb c "e" || Ascii.eqb c "E".

Fixpoint span (p : ascii -> bool) (s : string) : string * string :=
  match s with
  | EmptyString => (EmptyString, EmptyString)
  | String c r =>
    if p c then let '(a, b) := span p r in (String c a, b) else (EmptyString, s)
  end.

(** The grammar of a number: an optional minus sign, an integer part
    without leading zeros, an optional fraction, an optional exponent. *)
Definition digits1 (s : string) : option string :=
  match span is_digit s with
  | (EmptyString, _) => None
  | (_, r) => Some r
  end.

Definition number_ok (s : string) : bool :=
  let s := match s with String "-" r => r | _ => s end in
  let after_int :=
    match s with
    | String "0" r => Some r
    | _ => digits1 s
    end in
  let after_frac :=
    match after_int with
    | Some (String "." r) => digits1 r
    | x => x
    end in
  let after_exp :=
    match after_frac with
    | Some (String e r) =>
      if Ascii.eqb e "e" || Ascii.eqb e "E" then
        match r with
        | String sg r' => if Ascii.eqb sg "+" || Ascii.eqb sg "-" then digits1 r' else digits1 r
        | EmptyString => None
        end
      else Some (String e r)
    | x => x
    end in
  match after_exp with
  | Some EmptyString => true
  | _ => false
  end.

Definition prefix_to (s rest : string) : string :=
  String.substring 0 (String.length s - String.length rest) s.

(** A value at the head of [s], and the rest. *)
Fixpoint parse_value (fuel : nat) (s : string) : option (json * string) :=
  match fuel with
  | O => None
  | S f =>
    match s with
    | String "{" r =>
      match skip_ws r with
      | String "}" r' => Some (JObject [], r')
      | r0 =>
        (fix members (n : nat) (s : string) (acc : list (string * (string * nat * json)))
           : option (json * string) :=
           match n with
           | O => None
           | S n' =>
             match s with
             | String q r1 =>
               if negb (Go.byte_of q =? 34)%Z then None else
               match parse_string r1 with
               | Some (k, r2) =>
                 match skip_ws r2 with
                 | String ":" r3 =>
                   let r3 := skip_ws r3 in
                   match parse_value f r3 with
                   | Some (v, r4) =>
                     let acc := acc ++ [(k, (prefix_to r3 r4, String.length r4, v))] in
                     match skip_ws r4 with
                     | String "," r5 => members n' (skip_ws r5) acc
                     | String "}" r5 => Some (JObject acc, r5)
                     | _ => None
                     end
                   | None => None
                   end
                 | _ => None
                 end
               | None => None
               end
             | EmptyString => None
             end
           end) f r0 []
      end
    | String "[" r =>
      match skip_ws r with
      | String "]" r' => Some (JArray [], r')
      | r0 =>
        (fix elems (n : nat) (s : string) (acc : list json) : option (json * string) :=
           match n with
           | O => None
           | S n' =>
             match parse_value f s with
             | Some (v, r1) =>
               match skip_ws r1 with
               | String "," r2 => elems n' (skip_ws r2) (acc ++ [v])
               | String "]" r2 => Some (JArray (acc ++ [v]), r2)
               | _ => None
               end
             | None => None
             end
           end) f r0 []
      end
    | String "t" (String "r" (String "u" (String "e" r))) => Some (JBool true, r)
    | String "f" (String "a" (String "l" (String "s" (String "e" r)))) => Some (JBool false, r)
    | String "n" (String "u" (String "l" (String "l" r))) => Some (JNull, r)
    | String q r =>
      if (Go.byte_of q =? 34)%Z then
        match parse_string r with
        | Some (str, r') => Some (JString str, r')
        | None => None
        end
      else
        let '(lit, r') := span is_numchar s in
        if number_ok lit then Some (JNumber lit, r') else None
    | EmptyString => None
    end
  end.

(** A whole text: one value between white space. *)
Definition parse (s : string) : option json :=
  match parse_value (S (String.length s)) (skip_ws s) with
  | Some (v, r) => match skip_ws r with EmptyString => Some v | _ => None end
  | None => None
  end.

Definition lower (c : ascii) : ascii :=
  let n := Go.byte_of c in
  if ((65 <=? n) && (n <=? 90))%Z then chr (n + 32) else c.

Fixpoint fold_name (s : string) : string :=
  match s with
  | EmptyString => EmptyString
  | String c r => String (lower c) (fold_name r)
  end.

(** [strconv.ParseInt(lit, 10, 64)] on the literal of a number. *)
Definition parse_int (lit : string) : option Z :=
  let '(neg, ds) := match lit with String "-" r => (true, r) | _ => (false, lit) end in
  if negb (forallb is_digit (list_ascii_of_string ds)) then None
  else
    let n := fold_left (fun a c => 10 * a + (Go.byte_of c - 48))%Z (list_ascii_of_string ds) 0%Z in
    let v := if neg : bool then (- n)%Z else n in
    if ((-9223372036854775808 <=? v) && (v <=? 9223372036854775807))%Z then Some v else None.

(** Decoding an object into a struct: [set] stores one entry into the
    struct and fails on a value of the wrong type. *)
Definition decode_struct {A} (zero : A)
    (set : A -> string -> string * nat * json -> option A) (text : string) : option A :=
  match parse text with
  | Some JNull => Some zero
  | Some (JObject m) =>
    fold_left (fun acc kv =>
                 match acc with
                 | Some a => set a (fold_name (fst kv)) (snd kv)
                 | None => None
                 end) m (Some zero)
  | _ => None
  end.

Definition as_string (old : string) (v : json) : option string :=
  match v with
  | JString s => Some s
  | JNull => Some old
  | _ => None
  end.

Definition set_event (e : Stream.event) (k : string) (rv : string * nat * json)
  : option Stream.event :=
  let '(raw, _, v) := rv in
  if String.eqb k "type" then
    match as_string (Stream.Type_ e) v with
    | Some s => Some {| Stream.Type_ := s; Stream.Index := Stream.Index e;
                        Stream.Delta := Stream.Delta e;
                        Stream.ContentBlock := Stream.ContentBlock e |}
    | None => None
    end
  else if String.eqb k "index" then
    match v with
    | JNull => Some e
    | JNumber lit =>
      match parse_int lit with
      | Some i => Some {| Stream.Type_ := Stream.Type_ e; Stream.Index := i;
                          Stream.Delta := Stream.Delta e;
                          Stream.ContentBlock := Stream.ContentBlock e |}
      | None => None
      end
    | _ => None
    end
  else if String.eqb k "delta" then
    Some {| Stream.Type_ := Stream.Type_ e; Stream.Index := Stream.Index e;
            Stream.Delta := raw; Stream.ContentBlock := Stream.ContentBlock e |}
  else if String.eqb k "content_block" then
    Some {| Stream.Type_ := Stream.Type_ e; Stream.Index := Stream.Index e;
            Stream.Delta := Stream.Delta e; Stream.ContentBlock := raw |}
  else Some e.

Definition set_contentBlock (b : Stream.contentBlock) (k : string)
    (rv : string * nat * json) : option Stream.contentBlock :=
  let '(_, _, v) := rv in
  if String.eqb k "type" then
    match as_string (Stream.cb_Type b) v with
    | Some s => Some {| Stream.cb_Type := s; Stream.cb_Thinking := Stream.cb_Thinking b;
                        Stream.cb_Signature := Stream.cb_Signature b |}
    | None => None
    end
  else if String.eqb k "thinking" then
    match as_string (Stream.cb_Thinking b) v with
    | Some s => Some {| Stream.cb_Type := Stream.cb_Type b; Stream.cb_Thinking := s;
                        Stream.cb_Signature := Stream.cb_Signature b |}
    | None => None
    end
  else if String.eqb k "signature" then
    match as_string (Stream.cb_Signature b) v with
    | Some s => Some {| Stream.cb_Type := Stream.cb_Type b;
                        Stream.cb_Thinking := Stream.cb_Thinking b;
                        Stream.cb_Signature := s |}
    | None => None
    end
  else Some b.

Definition set_delta (d : Stream.delta) (k : string) (rv : string * nat * json)
  : option Stream.delta :=
  let '(_, _, v) := rv in
  if String.eqb k "type" then
    match as_string (Stream.d_Type d) v with
    | Some s => Some {| Stream.d_Type := s; Stream.d_Signature := Stream.d_Signature d |}
    | None => None
    end
  else if String.eqb k "signature" then
    match as_string (Stream.d_Signature d) v with
    | Some s => Some {| Stream.d_Type := Stream.d_Type d; Stream.d_Signature := s |}
    | None => None
    end
  else Some d.

(** sjson writes a string as it is between quotes unless it holds a byte
    that needs an escape, and through [json.Marshal] otherwise. *)
Definition mustMarshalString (s : string) : bool :=
  existsb (fun c => let n := Go.byte_of c in
                    ((n <? 32) || (127 <? n) || (n =? 34) || (n =? 92))%Z)
          (list_ascii_of_string s).

Definition stringify (s : string) : string :=
  if mustMarshalString s then Json.appendString s
  else (Json.dquote ++ s ++ Json.dquote)%string.

Definition field (k : string) (v : json) : option (string * nat * json) :=
  match v with
  | JObject m => snd <$> List.find (fun kv => String.eqb (fst kv) k) m
  | _ => None
  end.

(** [Set(json, "k1.k2", value)] for a path that exists. *)
Definition Set_ (text k1 k2 value : string) : string * option error :=
  match parse text with
  | Some top =>
    match field k1 top with
    | Some (_, _, inner) =>
      match field k2 inner with
      | Some (raw, after, _) =>
        let stop := (String.length text - after)%nat in
        let start := (stop - String.length raw)%nat in
        ((String.substring 0 start text ++ stringify value
          ++ String.substring stop after text)%string, None)
      | None => (EmptyString, Some (ErrPersistence "path not found"))
      end
    | None => (EmptyString, Some (ErrPersistence "path not found"))
    end
  | None => (EmptyString, Some (ErrPersistence "invalid json"))
  end.

Definition lib : Stream.JSONLib :=
  {| Stream.Unmarshal_event :=
       decode_struct {| Stream.Type_ := EmptyString; Stream.Index := 0;
                        Stream.Delta := EmptyString; Stream.ContentBlock := EmptyString |}%string set_event;
     Stream.Unmarshal_contentBlock :=
       decode_struct {| Stream.cb_Type := EmptyString; Stream.cb_Thinking := EmptyString;
                        Stream.cb_Signature := EmptyString |}%string set_contentBlock;
     Stream.Unmarshal_delta :=
       decode_struct {| Stream.d_Type := EmptyString; Stream.d_Signature := EmptyString |}%string set_delta;
     Stream.sjson_Set := fun text path value =>
       if String.eqb path "delta.signature"%string
       then Set_ text "delta" "signature" value
       else (EmptyString, Some (ErrPersistence "unsupported path")) |}.

End RefJSON.

(** ** The claims of the specification in its own words *)

Module Spec.

(** The synthesised line as the specification writes it: keys in the order
    type, index, delta, and in delta type, signature. *)
Definition synthesised_line (i : Z) (value : string) : string :=
  "data: " ++ Go.dq "{'type':'content_block_delta','index':" ++ Go.Itoa i
  ++ Go.dq ",'delta':{'type':'signature_delta','signature':"
  ++ Json.appendString value ++ "}}".

End Spec.

(** ** Worlds for the examples *)

Module Example.

Local Open Scope list_scope.

(** A pool that always gives the same answer, and a collector that keeps
    what it is given. *)
Definition fixed_pool (answer : string * option error) : handler Stream.StreamE (list string) :=
  fun X e =>
    match e in Stream.StreamE X return list string -> X * list string with
    | Stream.GetRandomSignature _ => fun w => (answer, w)
    | Stream.Collect _ s => fun w => (tt, w ++ [s])
    end.

Definition cfg (strategy : string) : SignatureConfig :=
  {| Enabled := true; Strategy := strategy; PoolFilter := None;
     EnableCollection := true; MinLength := 5 |}.

Definition start0 : string :=
  Go.dq "data: {'type':'content_block_start','index':0,'content_block':{'type':'thinking','thinking':'x','signature':''}}".

Definition delta0 : string :=
  Go.dq "data: {'type':'content_block_delta','index':0,'delta':{'type':'signature_delta','signature':'UPSTREAM'}}".

Definition stop0 : string :=
  Go.dq "data: {'type':'content_block_stop','index':0}".

(** The state of a processor at the start of a response, and after the
    thinking block 0 has started. *)
Definition fresh (strategy : string) : Stream.SignatureStreamState :=
  Stream.NewSignatureStreamState (cfg strategy) 7 (Some 1%nat).

Definition tracked (strategy : string) : Stream.SignatureStreamState :=
  snd (fst (run (fixed_pool ("SIG-A", None))
                (Stream.ProcessSSELine RefJSON.lib (fresh strategy) start0) [])).

Definition block0 : Stream.ThinkingBlockState :=
  {| Stream.tb_Index := 0; Stream.Started := true; Stream.HasSignatureDelta := false;
     Stream.ReceivedSignature := EmptyString; Stream.Stopped := false |}.

Definition stop_event : Stream.event :=
  {| Stream.Type_ := "content_block_stop"; Stream.Index := 0;
     Stream.Delta := EmptyString; Stream.ContentBlock := EmptyString |}.

Definition delta_event : Stream.event :=
  {| Stream.Type_ := "content_block_delta"; Stream.Index := 0;
     Stream.Delta := Go.dq "{'type':'signature_delta','signature':'UPSTREAM'}";
     Stream.ContentBlock := EmptyString |}.

Definition upstream_delta : Stream.delta :=
  {| Stream.d_Type := "signature_delta"; Stream.d_Signature := "UPSTREAM" |}.

(** The world of a pool: the store behind the repository, the clock, the
    next draw of the generator and the goroutines started. *)
Record PoolWorld : Type := {
  pw_store : Repo.Store;
  pw_now : Time;
  pw_draw : Z;
  pw_spawned : list Z
}.

Definition pool_handler : handler Pool.PoolE PoolWorld :=
  fun X e =>
    match e in Pool.PoolE X return PoolWorld -> X * PoolWorld with
    | Pool.time_Now => fun w =>
        (pw_now w, {| pw_store := pw_store w; pw_now := pw_now w + 1;
                      pw_draw := pw_draw w; pw_spawned := pw_spawned w |})
    | Pool.repo e' => fun w =>
        let '(x, st) := Repo.handle _ e' (pw_store w) in
        (x, {| pw_store := st; pw_now := pw_now w;
               pw_draw := pw_draw w; pw_spawned := pw_spawned w |})
    | Pool.rng_Intn n => fun w => (pw_draw w mod n, w)
    | Pool.go_MarkUsed id => fun w =>
        (tt, {| pw_store := pw_store w; pw_now := pw_now w;
                pw_draw := pw_draw w; pw_spawned := pw_spawned w ++ [id] |})
    end.

(** The collector of scenario 4: minimum length 5, on an empty heap. *)
Definition collector0 : Collector.SignatureCollector * Collector.heap :=
  Collector.NewSignatureCollector ∅ 7 None 5.

(** A store with the one active signature S1 of model m1. *)
Definition sig_S1 : Signature :=
  {| ID := 1; Value := "S1"; Hash := Service.computeSignatureHash "S1";
     Model := Some "m1"; Source := "manual"; Status := "active"; UseCount := 0;
     LastUsedAt := None; LastVerifiedAt := None; Notes := None;
     CollectedFromAccountID := None; CreatedAt := 1; UpdatedAt := 1 |}.

Definition store_S1 (faults : list (option error)) : Repo.Store :=
  {| Repo.rows := [{| Repo.sig := sig_S1; Repo.deleted_at := None |}];
     Repo.next_id := 2; Repo.clock := 1; Repo.faults := faults |}.

Definition world_S1 (faults : list (option error)) : PoolWorld :=
  {| pw_store := store_S1 faults; pw_now := 1000; pw_draw := 41; pw_spawned := [] |}.

(** A pool whose snapshot holds S1 and has expired. *)
Definition stale_pool : Pool.signaturePoolService :=
  {| Pool.cachedSigs := [Pool.toCached sig_S1]; Pool.cacheExpiry := 0;
     Pool.cacheTTL := Pool.cacheTTL Pool.NewSignaturePoolService |}.

End Example.

(** ** What the statements observe *)

(** What the pool answers to the processor in the world [w]. *)
Definition pool_answer {W} (h : handler Stream.StreamE W) (s : Stream.SignatureStreamState)
    (w : W) : string * option error :=
  fst (h _ (Stream.GetRandomSignature (PoolFilter (Stream.config s))) w).

(** The pool yields a signature: no error and a value that is not empty. *)
Definition yields (a : string * option error) : bool :=
  negb (notnil (snd a) || String.eqb (fst a) EmptyString).

(** The line [json.Marshal] produces for the synthetic event: the keys of
    each object in sorted order. *)
Definition synthetic_line (i : Z) (v : string) : string :=
  "data: " ++ Go.dq "{'delta':{'signature':" ++ Json.appendString v
  ++ Go.dq ",'type':'signature_delta'},'index':" ++ Go.Itoa i
  ++ Go.dq ",'type':'content_block_delta'}".

(** The strategies under which a stop may inject. *)
Definition strategy_injects (strategy : string) : bool :=
  String.eqb strategy "always_replace" || String.eqb strategy "fill_missing".

(** The answers the pool gave in a trace, and the signatures handed to the
    collector. *)
Definition pool_answers (t : list (answered Stream.StreamE)) : list (string * option error) :=
  omap (fun a =>
          match ans_call _ a in Stream.StreamE X return X -> option (string * option error) with
          | Stream.GetRandomSignature _ => fun x => Some x
          | Stream.Collect _ _ => fun _ => None
          end (ans_value _ a)) t.

Definition collect_calls (t : list (answered Stream.StreamE)) : list string :=
  omap (fun a =>
          match ans_call _ a with
          | Stream.GetRandomSignature _ => None
          | Stream.Collect _ sg => Some sg
          end) t.

(** The payload of a line, when the line has one the processor decodes. *)
Definition payload (line : string) : option string :=
  if negb (Regexp.MatchString line) then None
  else
    let data := Regexp.ReplaceAllString line in
    if String.eqb data EmptyString || String.eqb data "[DONE]" then None else Some data.

(** The event a line carries, when it carries one. *)
Definition event_of (J : Stream.JSONLib) (line : string) : option Stream.event :=
  match payload line with
  | Some data => Stream.Unmarshal_event J data
  | None => None
  end.

(** The state, the calls to the collector and the world after the first
    half of [handleContentBlockDelta] on a signature_delta. *)
Definition delta_state (s : Stream.SignatureStreamState) (i : Z) (d : Stream.delta)
  : Stream.SignatureStreamState :=
  match Stream.thinkingBlocks s !! i with
  | Some block =>
    Stream.with_blocks s
      (<[i := {| Stream.tb_Index := Stream.tb_Index block;
                 Stream.Started := Stream.Started block;
                 Stream.HasSignatureDelta := true;
                 Stream.ReceivedSignature := Stream.d_Signature d;
                 Stream.Stopped := Stream.Stopped block |}]> (Stream.thinkingBlocks s))
  | None => s
  end.

Definition delta_collects (s : Stream.SignatureStreamState) (i : Z) (d : Stream.delta)
  : list string :=
  match Stream.thinkingBlocks s !! i, Stream.collector s with
  | Some _, Some _ =>
    if negb (String.eqb (Stream.d_Signature d) EmptyString) then [Stream.d_Signature d] else []
  | _, _ => []
  end.

Definition delta_world {W} (h : handler Stream.StreamE W) (s : Stream.SignatureStreamState)
    (i : Z) (d : Stream.delta) (w : W) : W :=
  match Stream.thinkingBlocks s !! i, Stream.collector s with
  | Some _, Some c =>
    if negb (String.eqb (Stream.d_Signature d) EmptyString)
    then snd (h _ (Stream.Collect c (Stream.d_Signature d)) w) else w
  | _, _ => w
  end.

(** The line [replaceSignatureInLine] returns on the pool answer [a]. *)
Definition replaced (J : Stream.JSONLib) (line : string) (a : string * option error) : string :=
  if yields a then
    let '(newData, err) :=
      Stream.sjson_Set J (Regexp.ReplaceAllString line) "delta.signature" (fst a) in
    if notnil err then line else "data: " ++ newData
  else line.

(** The random generator keeps its contract: [Intn(n)] is in [[0, n)]. *)
Definition Intn_in_range {W} (h : handler Pool.PoolE W) : Prop :=
  forall (n : Z) (w : W), 0 < n -> 0 <= fst (h _ (Pool.rng_Intn n) w) < n.

(** The answers [ListActive] gave in a trace. *)
Definition listactive_answers (t : list (answered Pool.PoolE))
  : list (list Signature * option error) :=
  omap (fun a =>
          match ans_call _ a in Pool.PoolE X
                return X -> option (list Signature * option error) with
          | Pool.repo e =>
            match e in RepoE Y return Y -> option (list Signature * option error) with
            | repo_ListActive _ => fun x => Some x
            | _ => fun _ => None
            end
          | _ => fun _ => None
          end (ans_value _ a)) t.

(** The snapshot [getCachedSignatures] hands to [GetRandomSignature], and
    the pool after the acquisition. *)
Definition snapshot {W} (h : handler Pool.PoolE W) (s : Pool.signaturePoolService) (w : W)
  : list Pool.CachedSignature :=
  fst (fst (run h (Pool.getCachedSignatures s) w)).

Definition acquired {W} (h : handler Pool.PoolE W) (s : Pool.signaturePoolService) (w : W)
  : Pool.signaturePoolService :=
  snd (fst (run h (Pool.getCachedSignatures s) w)).

(** A signature a filter lets through: no model, or a model of the filter. *)
Definition passes (f : SignaturePoolFilter) (sig : Pool.CachedSignature) : Prop :=
  match Pool.cs_Model sig with
  | None => True
  | Some m => In m (Models f)
  end.

(** The slices handed to [BatchCreate] and the signatures handed to
    [Create] in a trace. *)
Definition batchcreate_calls (t : list (answered RepoE)) : list (list Signature) :=
  omap (fun a =>
          match ans_call _ a with
          | repo_BatchCreate sigs => Some sigs
          | _ => None
          end) t.


(** A row that is not deleted has the hash [h]. *)
Definition live_hash (st : Repo.Store) (h : string) : bool :=
  existsb (fun r => String.eqb (Hash (Repo.sig r)) h && Repo.live r) (Repo.rows st).

(** Whether [BatchImport] counts a value as duplicated, given the map
    [ExistsByHashes] answered. *)
Definition known (existing : gmap string bool) (v : string) : bool :=
  default false (existing !! Service.computeSignatureHash v).

(** The constructor of new signatures in [batchImport] and the slice it
    builds from the values that are not known to exist. *)
Definition mkSig (model : option string) (source : string) (account : option Z)
  : string -> string -> Signature :=
  fun v hash => Service.newSignature v hash model source None account.

Definition newSigsOf (mk : string -> string -> Signature) (existing : gmap string bool)
    (values : list string) : list Signature :=
  map (fun v => mk v (Service.computeSignatureHash v))
      (List.filter (fun v => negb (known existing v)) values).

Definition effective_source (defaultSource source : string) : string :=
  if String.eqb source EmptyString then defaultSource else source.

Definition result (total imported duplicated failed : Z) : BatchImportResult :=
  {| Total := total; Imported := imported; Duplicated := duplicated; Failed := failed |}.

(** The lines of a response fed to the processor in order: the state at
    the end. *)
Fixpoint feed (J : Stream.JSONLib) (s : Stream.SignatureStreamState) (lines : list string)
  : prog Stream.StreamE Stream.SignatureStreamState :=
  match lines with
  | [] => Ret s
  | line :: rest =>
    '(_, _, _, s') ← Stream.ProcessSSELine J s line;
    feed J s' rest
  end.

(** The line is a content_block_start of a thinking block at index [i]. *)
Definition is_thinking_start (J : Stream.JSONLib) (i : Z) (line : string) : bool :=
  match event_of J line with
  | Some ev =>
    String.eqb (Stream.Type_ ev) "content_block_start" && (Stream.Index ev =? i)%Z
    && match Stream.Unmarshal_contentBlock J (Stream.ContentBlock ev) with
       | Some cb => String.eqb (Stream.cb_Type cb) "thinking"
       | None => false
       end
  | None => false
  end.

(** The line is a content_block_delta of sub-type signature_delta at index [i]. *)
Definition is_signature_delta (J : Stream.JSONLib) (i : Z) (line : string) : bool :=
  match event_of J line with
  | Some ev =>
    String.eqb (Stream.Type_ ev) "content_block_delta" && (Stream.Index ev =? i)%Z
    && match Stream.Unmarshal_delta J (Stream.Delta ev) with
       | Some d => String.eqb (Stream.d_Type d) "signature_delta"
       | None => false
       end
  | None => false
  end.

(** ** More of the code: the counters of the stream processor *)

Module StreamStats.

(** [GetThinkingBlockCount]: [len(s.thinkingBlocks)]. *)
Definition GetThinkingBlockCount (s : Stream.SignatureStreamState) : Z :=
  Z.of_nat (size (Stream.thinkingBlocks s)).

(** [stats[key]++] on a [map[string]int]: a missing key counts as 0. *)
Definition incr (key : string) (stats : gmap string Z) : gmap string Z :=
  <[key := default 0 (stats !! key) + 1]> stats.

(** [GetStats]: the loop over the blocks adds one to with_signature or to
    without_signature for each block; the order of the iteration does not
    show in the result. *)
Definition GetStats (s : Stream.SignatureStreamState) : gmap string Z :=
  map_fold
    (fun (_ : Z) (block : Stream.ThinkingBlockState) stats =>
       if Stream.HasSignatureDelta block
       then incr "with_signature" stats
       else incr "without_signature" stats)
    (<["thinking_blocks" := Z.of_nat (size (Stream.thinkingBlocks s))]>
       (<["with_signature" := 0]> (<["without_signature" := 0]> ∅)))
    (Stream.thinkingBlocks s).

End StreamStats.

(** The line stands for a signature_delta event, at whatever index. *)
Definition carries_signature_delta (J : Stream.JSONLib) (line : string) : Prop :=
  exists ev d,
    event_of J line = Some ev
    /\ Stream.Type_ ev = "content_block_delta"
    /\ Stream.Unmarshal_delta J (Stream.Delta ev) = Some d
    /\ Stream.d_Type d = "signature_delta".

(** The goroutines [GetRandomSignature] started in a trace: the identifiers
    handed to [MarkUsed]. *)
Definition spawned_MarkUsed (t : list (answered Pool.PoolE)) : list Z :=
  omap (fun a =>
          match ans_call _ a with
          | Pool.go_MarkUsed id => Some id
          | _ => None
          end) t.

(** The instants the clock gave in a trace. *)
Definition time_readings (t : list (answered Pool.PoolE)) : list Time :=
  omap (fun a =>
          match ans_call _ a in Pool.PoolE X return X -> option Time with
          | Pool.time_Now => fun x => Some x
          | _ => fun _ => None
          end (ans_value _ a)) t.

(** A lower-case hexadecimal digit. *)
Definition is_lower_hex (c : ascii) : bool :=
  let n := Go.byte_of c in
  ((48 <=? n)%Z && (n <=? 57)%Z) || ((97 <=? n)%Z && (n <=? 102)%Z).

(** The signatures of a response handed to the collector one after the
    other. *)
Definition collect_all (growslice_cap : nat -> nat -> nat)
    (c : Collector.SignatureCollector) (h : Collector.heap) (vs : list string)
  : Collector.SignatureCollector * Collector.heap :=
  foldl (fun ch v => Collector.Collect growslice_cap (fst ch) (snd ch) v) (c, h) vs.

(** ** The administration of the table (signature_repo.go, package service)

    The rest of the repository: reading one row, updating it and the two
    bulk soft deletions, with [Update] of the service, which uses the first
    two.  The column [updated_at] is maintained by the time mixin of the
    schema: [touch old now] stands for the value an update leaves there. *)

Inductive AdminE : Type -> Type :=
| repo_GetByID (id : Z) : AdminE (option Signature * option error)
| repo_Update (sig : Signature) : AdminE (option error)
| repo_BatchDelete (ids : list Z) : AdminE (Z * option error)
| repo_DeleteByAccountID (accountID : Z) : AdminE (Z * option error).

Module RepoAdmin.

Import Repo.
Local Open Scope list_scope.

Definition signatureToService (m : Signature) : Signature :=
  {| ID := ID m; Value := Value m; Hash := Hash m; Model := Model m;
     Source := Source m; Status := Status m; UseCount := UseCount m;
     LastUsedAt := match LastUsedAt m with Some t => Some t | None => None end;
     LastVerifiedAt := match LastVerifiedAt m with Some t => Some t | None => None end;
     Notes := Notes m; CollectedFromAccountID := CollectedFromAccountID m;
     CreatedAt := CreatedAt m; UpdatedAt := UpdatedAt m |}.

(** The error of [Only] when more than one row matches. *)
Definition not_singular : error := ErrPersistence "signature not singular".

(** [GetByID]: the one row with the ID that is not deleted. *)
Definition GetByID (st : Store) (id : Z) : (option Signature * option error) * Store :=
  let '(fault, st) := roundtrip st in
  match fault with
  | Some e => ((None, Some e), st)
  | None =>
    match List.filter (fun r => (ID (sig r) =? id)%Z && live r) (rows st) with
    | [] => ((None, Some ErrSignatureNotFound), st)
    | [r] => ((Some (signatureToService (sig r)), None), st)
    | _ => ((None, Some not_singular), st)
    end
  end.

Section Touch.

Variable touch : Time -> Time -> Time.

(** The row [UpdateOneID(sig.ID)] saves: status and use count are set,
    model and notes are set or cleared, the two times are set when they are
    not nil.  The table refuses a status outside the enumeration, a model
    over 100 bytes and a use count outside the range of the column. *)
Definition updated (now : Time) (s : Signature) (r : row) : row :=
  if (ID (sig r) =? ID s)%Z then
    {| sig := {| ID := ID (sig r); Value := Value (sig r); Hash := Hash (sig r);
                 Model := Model s; Source := Source (sig r);
                 Status := Status s; UseCount := UseCount s;
                 LastUsedAt := match LastUsedAt s with
                               | Some t => Some t
                               | None => LastUsedAt (sig r)
                               end;
                 LastVerifiedAt := match LastVerifiedAt s with
                                   | Some t => Some t
                                   | None => LastVerifiedAt (sig r)
                                   end;
                 Notes := Notes s;
                 CollectedFromAccountID := CollectedFromAccountID (sig r);
                 CreatedAt := CreatedAt (sig r);
                 UpdatedAt := touch (UpdatedAt (sig r)) now |};
       deleted_at := deleted_at r |}
  else r.

(** [Update] on a non-nil signature. *)
Definition Update (st : Store) (s : Signature) : option error * Store :=
  let '(fault, st) := roundtrip st in
  match fault with
  | Some e => (Some e, st)
  | None =>
    if existsb (fun r => (ID (sig r) =? ID s)%Z) (rows st) then
      if status_ok (Status s) && model_ok (Model s) && use_count_ok (UseCount s)
      then (None, with_rows st (map (updated (clock st) s) (rows st)) (next_id st))
      else (Some constraint_violation, st)
    else (Some ErrSignatureNotFound, st)
  end.

(** [SetDeletedAt(now)] on one row. *)
Definition soft_deleted (now : Time) (r : row) : row :=
  {| sig := {| ID := ID (sig r); Value := Value (sig r); Hash := Hash (sig r);
               Model := Model (sig r); Source := Source (sig r);
               Status := Status (sig r); UseCount := UseCount (sig r);
               LastUsedAt := LastUsedAt (sig r);
               LastVerifiedAt := LastVerifiedAt (sig r); Notes := Notes (sig r);
               CollectedFromAccountID := CollectedFromAccountID (sig r);
               CreatedAt := CreatedAt (sig r);
               UpdatedAt := touch (UpdatedAt (sig r)) now |};
     deleted_at := Some now |}.

(** [BatchDelete]: the rows with one of the IDs that are not deleted. *)
Definition BatchDelete (st : Store) (ids : list Z) : (Z * option error) * Store :=
  if (Go.len' ids =? 0)%Z then ((0, None), st)
  else
    let '(fault, st) := roundtrip st in
    match fault with
    | Some e => ((0, Some e), st)
    | None =>
      let hit := fun r => existsb (Z.eqb (ID (sig r))) ids && live r in
      ((Go.len' (List.filter hit (rows st)), None),
       with_rows st
         (map (fun r => if hit r then soft_deleted (clock st) r else r) (rows st))
         (next_id st))
    end.

(** [DeleteByAccountID]: the rows collected from the account that are not
    deleted. *)
Definition DeleteByAccountID (st : Store) (accountID : Z) : (Z * option error) * Store :=
  let '(fault, st) := roundtrip st in
  match fault with
  | Some e => ((0, Some e), st)
  | None =>
    let hit := fun r =>
      match CollectedFromAccountID (sig r) with
      | Some a => (a =? accountID)%Z
      | None => false
      end && live r in
    ((Go.len' (List.filter hit (rows st)), None),
     with_rows st
       (map (fun r => if hit r then soft_deleted (clock st) r else r) (rows st))
       (next_id st))
  end.

Definition handle : handler AdminE Store :=
  fun X e =>
    match e in AdminE X return Store -> X * Store with
    | repo_GetByID id => fun st => GetByID st id
    | repo_Update s => fun st => Update st s
    | repo_BatchDelete ids => fun st => BatchDelete st ids
    | repo_DeleteByAccountID a => fun st => DeleteByAccountID st a
    end.


End Touch.

End RepoAdmin.

Module ServiceAdmin.

Definition GetByID (id : Z) : prog AdminE (option Signature * option error) :=
  call (repo_GetByID id).

(** [Update]: [None] is the panic of writing through a nil signature that
    came with a nil error. *)
Definition Update (id : Z) (status : string) (model notes : option string)
  : prog AdminE (option (option error)) :=
  '(sig, err) ← call (repo_GetByID id);
  if notnil err then Ret (Some err)
  else
    match sig with
    | None => Ret None
    | Some sig =>
      let sig := {| ID := ID sig; Value := Value sig; Hash := Hash sig; Model := model;
                    Source := Source sig; Status := status; UseCount := UseCount sig;
                    LastUsedAt := LastUsedAt sig; LastVerifiedAt := LastVerifiedAt sig;
                    Notes := notes;
                    CollectedFromAccountID := CollectedFromAccountID sig;
                    CreatedAt := CreatedAt sig; UpdatedAt := UpdatedAt sig |} in
      err ← call (repo_Update sig);
      Ret (Some err)
    end.

Definition BatchDelete (ids : list Z) : prog AdminE (Z * option error) :=
  call (repo_BatchDelete ids).

Definition DeleteByAccountID (accountID : Z) : prog AdminE (Z * option error) :=
  call (repo_DeleteByAccountID accountID).

End ServiceAdmin.


(** ** The admin handlers (signature_handler.go)

    A handler reads the request, calls the services and writes one
    response.  The request is reached by [param], [query] and the
    [ShouldBindJSON] calls, whose answer is the decoded body or the text of
    the binding error; the services, the pool and the account repository
    are calls too.  The statistics the signature service returns are the six
    counts of [SignatureStats] in the order of its fields.  [panic] is the
    run-time panic of a nil dereference: the handler stops there and writes
    nothing. *)

Module Handler.

Local Open Scope list_scope.

Definition digit (c : ascii) : option Z :=
  let n := Go.byte_of c in
  if (48 <=? n)%Z && (n <=? 57)%Z then Some (n - 48) else None.

Fixpoint digits (s : string) (acc : Z) : option Z :=
  match s with
  | EmptyString => Some acc
  | String c r =>
    match digit c with
    | Some d => digits r (10 * acc + d)
    | None => None
    end
  end.

(** [strconv.ParseInt(s, 10, 64)]: [None] when it returns an error, for a
    syntax error as for a value out of range. *)
Definition ParseInt (s : string) : option Z :=
  match s with
  | EmptyString => None
  | String c r =>
    let '(neg, body) :=
      if Ascii.eqb c "+" then (false, r)
      else if Ascii.eqb c "-" then (true, r)
      else (false, s) in
    match body with
    | EmptyString => None
    | _ =>
      match digits body 0 with
      | None => None
      | Some n =>
        let v := if neg : bool then - n else n in
        if (- 9223372036854775808 <=? v)%Z && (v <=? 9223372036854775807)%Z
        then Some v else None
      end
    end
  end.

Record CreateSignatureRequest : Type := {
  cr_Value : string;
  cr_Model : option string;
  cr_Notes : option string
}.

Record BatchImportSignaturesRequest : Type := {
  bi_Signatures : list string;
  bi_Model : option string;
  bi_Source : string
}.

Record UpdateSignatureRequest : Type := {
  up_Status : string;
  up_Model : option string;
  up_Notes : option string
}.

Record BatchDeleteSignaturesRequest : Type := {
  bd_IDs : list Z
}.

Record SignatureFilter : Type := {
  f_Status : string;
  f_Source : string;
  f_Model : option string;
  f_Search : string;
  f_AccountNamePrefix : string;
  f_CollectedFromAccountID : option Z
}.

Record Account : Type := {
  acc_ID : Z;
  acc_Name : string
}.

(** [dto.Signature]: the signature it is made from and the name of the
    account. *)
Record item : Type := {
  it_Signature : Signature;
  CollectedFromAccountName : option string
}.

Inductive payload : Type :=
| p_nil
| p_signature (sig : option Signature)
| p_result (r : option BatchImportResult)
| p_deleted (affected : Z)
| p_random (signature : string)
| p_stats (total active disabled expired total_usage recently_used pool_size : Z).

Inductive response : Type :=
| BadRequest (msg : string)
| NotFound (msg : string)
| InternalError (msg : string)
| Error (status : Z) (msg : string)
| Success (data : payload)
| Created (data : payload)
| Paginated (items : list item) (total page pageSize : Z).

Inductive HandlerE : Type -> Type :=
| query (key : string) : HandlerE string
| ParsePagination : HandlerE (Z * Z)
| bind_Create : HandlerE (CreateSignatureRequest + string)
| bind_BatchImport : HandlerE (BatchImportSignaturesRequest + string)
| bind_Update : HandlerE (UpdateSignatureRequest + string)
| bind_BatchDelete : HandlerE (BatchDeleteSignaturesRequest + string)
| svc_List (filter : SignatureFilter) (page pageSize : Z)
    : HandlerE (list Signature * Z * option error)
| svc_GetByID (id : Z) : HandlerE (option Signature * option error)
| svc_Create (value : string) (model notes : option string)
    : HandlerE (option Signature * option error)
| svc_BatchImport (values : list string) (model : option string) (source : string)
    : HandlerE (option BatchImportResult * option error)
| svc_Update (id : Z) (status : string) (model notes : option string)
    : HandlerE (option error)
| svc_Delete (id : Z) : HandlerE (option error)
| svc_BatchDelete (ids : list Z) : HandlerE (Z * option error)
| svc_DeleteByAccountID (accountID : Z) : HandlerE (Z * option error)
| svc_GetStats : HandlerE (option (Z * Z * Z * Z * Z * Z) * option error)
| pool_GetPoolSize : HandlerE Z
| panic : HandlerE unit
| pool_InvalidateCache : HandlerE unit
| pool_GetRandomSignature (filter : option SignaturePoolFilter)
    : HandlerE (string * option error)
| acc_GetByIDs (ids : list Z) : HandlerE (list Account * option error)
| respond (r : response) : HandlerE unit.

(** [err == target] on the errors of the package. *)
Definition same_error (e : error) (target : error) : bool :=
  match e, target with
  | ErrSignatureNotFound, ErrSignatureNotFound => true
  | ErrSignatureNilInput, ErrSignatureNilInput => true
  | ErrSignatureDuplicate, ErrSignatureDuplicate => true
  | ErrSignaturePoolEmpty, ErrSignaturePoolEmpty => true
  | _, _ => false
  end.

Section Handlers.

(** [err.Error()]. *)
Variable Error_ : error -> string.

(** The first loop of [List]: the accounts of the signatures, each once. *)
Fixpoint accountIDsOf (signatures : list Signature) (accountIDs : list Z)
    (accountIDSet : gmap Z bool) : list Z :=
  match signatures with
  | [] => accountIDs
  | sig :: rest =>
    match CollectedFromAccountID sig with
    | Some a =>
      if default false (accountIDSet !! a)
      then accountIDsOf rest accountIDs accountIDSet
      else accountIDsOf rest (accountIDs ++ [a]) (<[a := true]> accountIDSet)
    | None => accountIDsOf rest accountIDs accountIDSet
    end
  end.

Definition toItem (accountNameMap : gmap Z string) (sig : Signature) : item :=
  {| it_Signature := sig;
     CollectedFromAccountName :=
       match CollectedFromAccountID sig with
       | Some a => accountNameMap !! a
       | None => None
       end |}.

Definition List : prog HandlerE unit :=
  '(page, pageSize) ← call ParsePagination;
  status ← call (query "status");
  source ← call (query "source");
  search ← call (query "search");
  accountName ← call (query "account_name");
  model ← call (query "model");
  accountIDStr ← call (query "collected_from_account_id");
  let filter :=
    {| f_Status := status; f_Source := source;
       f_Model := if String.eqb model EmptyString then None else Some model;
       f_Search := search; f_AccountNamePrefix := accountName;
       f_CollectedFromAccountID :=
         if String.eqb accountIDStr EmptyString then None else ParseInt accountIDStr |} in
  '(signatures, total, err) ← call (svc_List filter page pageSize);
  match err with
  | Some e => call (respond (InternalError (Error_ e)))
  | None =>
    let accountIDs := accountIDsOf signatures [] ∅ in
    accountNameMap ←
      (if (0 <? Go.len' accountIDs)%Z then
         '(accounts, err) ← call (acc_GetByIDs accountIDs);
         match err with
         | None => Ret (foldl (fun (m : gmap Z string) acc => <[acc_ID acc := acc_Name acc]> m)
                              ∅ accounts)
         | Some _ => Ret ∅
         end
       else Ret ∅);
    call (respond (Paginated (map (toItem accountNameMap) signatures) total page pageSize))
  end.

Definition GetByID (idParam : string) : prog HandlerE unit :=
  match ParseInt idParam with
  | None => call (respond (BadRequest "invalid id"))
  | Some id =>
    '(sig, err) ← call (svc_GetByID id);
    match err with
    | Some e =>
      if same_error e ErrSignatureNotFound
      then call (respond (NotFound "signature not found"))
      else call (respond (InternalError (Error_ e)))
    | None => call (respond (Success (p_signature sig)))
    end
  end.

Definition Create : prog HandlerE unit :=
  req ← call bind_Create;
  match req with
  | inr msg => call (respond (BadRequest msg))
  | inl req =>
    '(sig, err) ← call (svc_Create (cr_Value req) (cr_Model req) (cr_Notes req));
    match err with
    | Some e =>
      if same_error e ErrSignatureDuplicate
      then call (respond (Error 409 "signature already exists"))
      else call (respond (InternalError (Error_ e)))
    | None =>
      _ ← call pool_InvalidateCache;
      call (respond (Created (p_signature sig)))
    end
  end.

Definition BatchImport : prog HandlerE unit :=
  req ← call bind_BatchImport;
  match req with
  | inr msg => call (respond (BadRequest msg))
  | inl req =>
    let source :=
      if String.eqb (bi_Source req) EmptyString then "imported" else bi_Source req in
    '(result, err) ← call (svc_BatchImport (bi_Signatures req) (bi_Model req) source);
    match err with
    | Some e => call (respond (InternalError (Error_ e)))
    | None =>
      _ ← call pool_InvalidateCache;
      call (respond (Success (p_result result)))
    end
  end.

Definition Update (idParam : string) : prog HandlerE unit :=
  match ParseInt idParam with
  | None => call (respond (BadRequest "invalid id"))
  | Some id =>
    req ← call bind_Update;
    match req with
    | inr msg => call (respond (BadRequest msg))
    | inl req =>
      err ← call (svc_Update id (up_Status req) (up_Model req) (up_Notes req));
      match err with
      | Some e =>
        if same_error e ErrSignatureNotFound
        then call (respond (NotFound "signature not found"))
        else call (respond (InternalError (Error_ e)))
      | None =>
        _ ← call pool_InvalidateCache;
        call (respond (Success p_nil))
      end
    end
  end.

Definition Delete (idParam : string) : prog HandlerE unit :=
  match ParseInt idParam with
  | None => call (respond (BadRequest "invalid id"))
  | Some id =>
    err ← call (svc_Delete id);
    match err with
    | Some e =>
      if same_error e ErrSignatureNotFound
      then call (respond (NotFound "signature not found"))
      else call (respond (InternalError (Error_ e)))
    | None =>
      _ ← call pool_InvalidateCache;
      call (respond (Success p_nil))
    end
  end.

Definition BatchDelete : prog HandlerE unit :=
  req ← call bind_BatchDelete;
  match req with
  | inr msg => call (respond (BadRequest msg))
  | inl req =>
    '(affected, err) ← call (svc_BatchDelete (bd_IDs req));
    match err with
    | Some e => call (respond (InternalError (Error_ e)))
    | None =>
      _ ← call pool_InvalidateCache;
      call (respond (Success (p_deleted affected)))
    end
  end.

Definition GetStats : prog HandlerE unit :=
  '(stats, err) ← call svc_GetStats;
  match err with
  | Some e => call (respond (InternalError (Error_ e)))
  | None =>
    poolSize ← call pool_GetPoolSize;
    match stats with
    | None => call panic
    | Some (total, active, disabled, expired, totalUsage, recentlyUsed) =>
      call (respond (Success (p_stats total active disabled expired totalUsage
                                      recentlyUsed poolSize)))
    end
  end.

Definition GetRandom : prog HandlerE unit :=
  '(sig, err) ← call (pool_GetRandomSignature None);
  match err with
  | Some e =>
    if same_error e ErrSignaturePoolEmpty
    then call (respond (NotFound "signature pool is empty"))
    else call (respond (InternalError (Error_ e)))
  | None => call (respond (Success (p_random sig)))
  end.

Definition DeleteByAccountID (accountIDParam : string) : prog HandlerE unit :=
  match ParseInt accountIDParam with
  | None => call (respond (BadRequest "invalid account_id"))
  | Some accountID =>
    '(affected, err) ← call (svc_DeleteByAccountID accountID);
    match err with
    | Some e => call (respond (InternalError (Error_ e)))
    | None =>
      _ ← call pool_InvalidateCache;
      call (respond (Success (p_deleted affected)))
    end
  end.

End Handlers.

End Handler.

(** What a handler does, in order: the calls to a service that changes the
    table with the error they returned, the calls that read the table or the
    pool, the invalidations of the pool cache, the responses, marked when
    they report success, and a panic. *)
Inductive step : Type :=
| did_mutate (err : option error)
| did_read
| did_invalidate
| did_respond (ok : bool)
| did_panic.

Definition is_success (r : Handler.response) : bool :=
  match r with
  | Handler.Success _ | Handler.Created _ | Handler.Paginated _ _ _ _ => true
  | _ => false
  end.

Definition steps (t : list (answered Handler.HandlerE)) : list step :=
  omap (fun a =>
          match ans_call _ a in Handler.HandlerE X return X -> option step with
          | Handler.svc_Create _ _ _ => fun x => Some (did_mutate (snd x))
          | Handler.svc_BatchImport _ _ _ => fun x => Some (did_mutate (snd x))
          | Handler.svc_Update _ _ _ _ => fun x => Some (did_mutate x)
          | Handler.svc_Delete _ => fun x => Some (did_mutate x)
          | Handler.svc_BatchDelete _ => fun x => Some (did_mutate (snd x))
          | Handler.svc_DeleteByAccountID _ => fun x => Some (did_mutate (snd x))
          | Handler.svc_List _ _ _ => fun _ => Some did_read
          | Handler.svc_GetByID _ => fun _ => Some did_read
          | Handler.pool_GetRandomSignature _ => fun _ => Some did_read
          | Handler.svc_GetStats => fun _ => Some did_read
          | Handler.pool_GetPoolSize => fun _ => Some did_read
          | Handler.panic => fun _ => Some did_panic
          | Handler.pool_InvalidateCache => fun _ => Some did_invalidate
          | Handler.respond r => fun _ => Some (did_respond (is_success r))
          | _ => fun _ => None
          end (ans_value _ a)) t.

(** The IDs the services were called with, and those asked of the account
    repository. *)
Definition ids_served (t : list (answered Handler.HandlerE)) : list Z :=
  omap (fun a =>
          match ans_call _ a with
          | Handler.svc_GetByID id => Some id
          | Handler.svc_Update id _ _ _ => Some id
          | Handler.svc_Delete id => Some id
          | Handler.svc_DeleteByAccountID id => Some id
          | _ => None
          end) t.

(** The elements of a list in the order of their first occurrence, each
    once. *)
Fixpoint first_occurrences (l : list Z) : list Z :=
  match l with
  | [] => []
  | a :: rest => a :: List.filter (fun b => negb (b =? a)%Z) (first_occurrences rest)
  end.

Definition getbyids_calls (t : list (answered Handler.HandlerE)) : list (list Z) :=
  omap (fun a =>
          match ans_call _ a with
          | Handler.acc_GetByIDs ids => Some ids
          | _ => None
          end) t.

Definition responses (t : list (answered Handler.HandlerE)) : list Handler.response :=
  omap (fun a =>
          match ans_call _ a with
          | Handler.respond r => Some r
          | _ => None
          end) t.

(** The answers of the signature service to [List] in a trace. *)
Definition list_answers (t : list (answered Handler.HandlerE))
  : list (list Signature * Z * option error) :=
  omap (fun a =>
          match ans_call _ a in Handler.HandlerE X
                return X -> option (list Signature * Z * option error) with
          | Handler.svc_List _ _ _ => fun x => Some x
          | _ => fun _ => None
          end (ans_value _ a)) t.

(** A backend for the examples of the handlers: the signature service lists
    four signatures, collected from the accounts 7, none, 8 and 7, and
    refuses every change; the account repository knows account 7. *)
Definition demo_signature (id : Z) (account : option Z) : Signature :=
  {| ID := id; Value := "S"; Hash := "h"; Model := None; Source := "collected";
     Status := "active"; UseCount := 0; LastUsedAt := None; LastVerifiedAt := None;
     Notes := None; CollectedFromAccountID := account; CreatedAt := 1; UpdatedAt := 1 |}.

Definition demo : handler Handler.HandlerE unit :=
  fun X e =>
    match e in Handler.HandlerE X return unit -> X * unit with
    | Handler.query _ => fun w => (EmptyString, w)
    | Handler.ParsePagination => fun w => ((1, 20), w)
    | Handler.bind_Create => fun w => (inr "EOF", w)
    | Handler.bind_BatchImport => fun w => (inr "EOF", w)
    | Handler.bind_Update => fun w => (inr "EOF", w)
    | Handler.bind_BatchDelete => fun w => (inr "EOF", w)
    | Handler.svc_List _ _ _ => fun w =>
        (([demo_signature 1 (Some 7); demo_signature 2 None; demo_signature 3 (Some 8);
           demo_signature 4 (Some 7)], 4, None), w)
    | Handler.svc_GetByID _ => fun w => ((None, Some ErrSignatureNotFound), w)
    | Handler.svc_Create _ _ _ => fun w => ((None, Some ErrSignatureDuplicate), w)
    | Handler.svc_BatchImport _ _ _ => fun w => ((None, Some ErrSignatureNilInput), w)
    | Handler.svc_Update _ _ _ _ => fun w => (Some ErrSignatureNotFound, w)
    | Handler.svc_Delete _ => fun w => (Some ErrSignatureNotFound, w)
    | Handler.svc_BatchDelete _ => fun w => ((0, None), w)
    | Handler.svc_DeleteByAccountID _ => fun w => ((0, None), w)
    | Handler.svc_GetStats => fun w => ((Some (3, 3, 0, 0, 0, 0), None), w)
    | Handler.pool_GetPoolSize => fun w => (3, w)
    | Handler.panic => fun w => (tt, w)
    | Handler.pool_InvalidateCache => fun w => (tt, w)
    | Handler.pool_GetRandomSignature _ => fun w =>
        ((EmptyString, Some ErrSignaturePoolEmpty), w)
    | Handler.acc_GetByIDs _ => fun w =>
        (([{| Handler.acc_ID := 7; Handler.acc_Name := "seven" |}], None), w)
    | Handler.respond _ => fun w => (tt, w)
    end.

(** ** The statistics of the table (signature_repo.go)

    [GetStats] asks the backend six times, one after the other; the table
    may change in between when other requests run. *)

Module Stats.

Import Repo.
Local Open Scope list_scope.

Record SignatureStats : Type := {
  Total : Z;
  Active : Z;
  Disabled : Z;
  Expired : Z;
  TotalUsage : Z;
  RecentlyUsed : Z
}.

(** [Query().Where(p).Where(DeletedAtIsNil()).Count(ctx)]. *)
Definition Count (p : row -> bool) (st : Store) : (Z * option error) * Store :=
  let '(fault, st) := roundtrip st in
  match fault with
  | Some e => ((0, Some e), st)
  | None => ((Go.len' (List.filter (fun r => p r && live r) (rows st)), None), st)
  end.

(** [SELECT COALESCE(SUM(use_count), 0) FROM signatures WHERE deleted_at IS
    NULL]. *)
Definition SumUseCount (st : Store) : (Z * option error) * Store :=
  let '(fault, st) := roundtrip st in
  match fault with
  | Some e => ((0, Some e), st)
  | None => ((foldr Z.add 0 (map (fun r => UseCount (sig r)) (List.filter live (rows st))),
              None), st)
  end.

Definition has_status (s : string) (r : row) : bool := String.eqb (Status (sig r)) s.

(** [24 * time.Hour] in nanoseconds. *)
Definition day : Z := 24 * 60 * 60 * 1000000000.

Definition used_since (t : Time) (r : row) : bool :=
  match LastUsedAt (sig r) with
  | Some u => (t <=? u)%Z
  | None => false
  end.

Definition GetStats (st : Store) : (option SignatureStats * option error) * Store :=
  let '((total, err), st) := Count (fun _ => true) st in
  if notnil err then ((None, err), st) else
  let '((active, err), st) := Count (has_status "active") st in
  if notnil err then ((None, err), st) else
  let '((disabled, err), st) := Count (has_status "disabled") st in
  if notnil err then ((None, err), st) else
  let '((expired, err), st) := Count (has_status "expired") st in
  if notnil err then ((None, err), st) else
  let '((totalUsage, err), st) := SumUseCount st in
  if notnil err then ((None, err), st) else
  let yesterday := clock st - day in
  let '((recentlyUsed, err), st) := Count (used_since yesterday) st in
  if notnil err then ((None, err), st) else
  ((Some {| Total := total; Active := active; Disabled := disabled; Expired := expired;
            TotalUsage := totalUsage; RecentlyUsed := recentlyUsed |}, None), st).

End Stats.

(** * Properties *)

(** ** Running programs *)

Lemma run_bind {E W A B} (h : handler E W) (m : prog E A) (f : A -> prog E B) (w : W) :
  run h (m ≫= f) w = run h (f (fst (run h m w))) (snd (run h m w)).
Proof.
  revert w. induction m as [a | X e k IH]; intros w; simpl.
  - reflexivity.
  - unfold mbind, prog_bind in *. simpl. destruct (h X e w) as [x w']. apply IH.
Qed.

Lemma trace_bind {E W A B} (h : handler E W) (m : prog E A) (f : A -> prog E B) (w : W) :
  trace h (m ≫= f) w
  = (trace h m w ++ trace h (f (fst (run h m w))) (snd (run h m w)))%list.
Proof.
  revert w. induction m as [a | X e k IH]; intros w; simpl.
  - reflexivity.
  - unfold mbind, prog_bind in *. simpl. destruct (h X e w) as [x w'].
    simpl. f_equal. apply IH.
Qed.

Lemma run_call {E W X} (h : handler E W) (e : E X) (w : W) :
  run h (call e) w = h X e w.
Proof. unfold call. simpl. destruct (h X e w); reflexivity. Qed.

Lemma trace_call {E W X} (h : handler E W) (e : E X) (w : W) :
  trace h (call e) w = [Answered e (fst (h X e w))].
Proof. unfold call. simpl. destruct (h X e w); reflexivity. Qed.

(** ** The synthesised line *)

Lemma append_assoc (a b c : string) : ((a ++ b) ++ c = a ++ (b ++ c))%string.
Proof.
  induction a as [| x a IH]; [reflexivity |].
  change (String x ((a ++ b) ++ c) = String x (a ++ (b ++ c)))%string.
  now rewrite IH.
Qed.

Lemma append_nil_r (a : string) : (a ++ EmptyString)%string = a.
Proof.
  induction a as [| x a IH]; [reflexivity |].
  change (String x (a ++ EmptyString) = String x a)%string.
  now rewrite IH.
Qed.

(** Equations between concatenations of literals and unknown strings. *)
Ltac string_eq :=
  cbv -[String.append]; rewrite ?append_assoc; vm_compute; reflexivity.

Lemma Marshal_signature_delta (i : Z) (v : string) :
  Json.Marshal
    (Json.AMap [("type", Json.AString "content_block_delta");
                ("index", Json.AInt i);
                ("delta", Json.AMap [("type", Json.AString "signature_delta");
                                     ("signature", Json.AString v)])])
  = Go.dq "{'delta':{'signature':" ++ Json.appendString v
    ++ Go.dq ",'type':'signature_delta'},'index':" ++ Go.Itoa i
    ++ Go.dq ",'type':'content_block_delta'}".
Proof.
  cbn [Json.Marshal map fst snd].
  generalize (Json.appendString v) (Go.Itoa i). intros a b.
  string_eq.
Qed.

Lemma run_generateSignatureDeltaLine {W} (h : handler Stream.StreamE W)
    (s : Stream.SignatureStreamState) (i : Z) (w : W) :
  fst (run h (Stream.generateSignatureDeltaLine s i) w)
  = if yields (pool_answer h s w)
    then synthetic_line i (fst (pool_answer h s w))
    else EmptyString.
Proof.
  unfold Stream.generateSignatureDeltaLine, pool_answer, yields.
  rewrite run_bind, run_call.
  destruct (h _ _ w) as [[v err] w']; cbn [fst snd].
  destruct (notnil err || String.eqb v EmptyString); cbn [negb run fst]; [reflexivity |].
  unfold synthetic_line. now rewrite Marshal_signature_delta.
Qed.

(** C2, as amended: for every injected synthetic event at index [i] with
    pool value [v], the emitted line is "data: " followed by the compact JSON
    encoding of the event with the keys of each object in sorted order:
    delta (signature, then type), index, type. *)
Theorem synthetic_line_format {W} (h : handler Stream.StreamE W)
    (s : Stream.SignatureStreamState) (i : Z) (w : W) (v : string) :
  pool_answer h s w = (v, None) ->
  v <> EmptyString ->
  fst (run h (Stream.generateSignatureDeltaLine s i) w)
  = "data: " ++ Go.dq "{'delta':{'signature':" ++ Json.appendString v
    ++ Go.dq ",'type':'signature_delta'},'index':" ++ Go.Itoa i
    ++ Go.dq ",'type':'content_block_delta'}".
Proof.
  intros Hans Hv. rewrite run_generateSignatureDeltaLine, Hans.
  unfold yields. simpl.
  destruct (String.eqb_spec v EmptyString) as [-> | _]; [contradiction | reflexivity].
Qed.

Lemma synthetic_line_format_witness :
  fst (run (Example.fixed_pool ("SIG-A", None))
           (Stream.generateSignatureDeltaLine
              (Stream.NewSignatureStreamState (Example.cfg "fill_missing") 7 None) 0) [])
  = Go.dq "data: {'delta':{'signature':'SIG-A','type':'signature_delta'},'index':0,'type':'content_block_delta'}".
Proof.
  rewrite (synthetic_line_format _ _ 0 [] "SIG-A"); [reflexivity | reflexivity | discriminate].
Defined.

(** C2, as stated, fails: with the pool value SIG-A at index 0 the emitted
    line does not have the keys in the order type, index, delta. *)
Lemma synthetic_line_key_order_counterexample :
  fst (run (Example.fixed_pool ("SIG-A", None))
           (Stream.generateSignatureDeltaLine
              (Stream.NewSignatureStreamState (Example.cfg "fill_missing") 7 None) 0) [])
  <> Spec.synthesised_line 0 "SIG-A".
Proof. vm_compute. discriminate. Qed.

(** ** The stream processor *)

Lemma synthetic_line_nonempty (i : Z) (v : string) :
  String.eqb (synthetic_line i v) EmptyString = false.
Proof. reflexivity. Qed.

Lemma ProcessSSELine_no_event (J : Stream.JSONLib) (s : Stream.SignatureStreamState)
    (line : string) :
  event_of J line = None ->
  Stream.ProcessSSELine J s line = Ret (line, [], None, s).
Proof.
  unfold event_of, payload, Stream.ProcessSSELine.
  destruct (negb (Regexp.MatchString line)); [reflexivity |].
  destruct (String.eqb _ EmptyString || String.eqb _ "[DONE]"); [reflexivity |].
  now intros ->.
Qed.

Lemma ProcessSSELine_event (J : Stream.JSONLib) (s : Stream.SignatureStreamState)
    (line : string) (ev : Stream.event) :
  event_of J line = Some ev ->
  Stream.ProcessSSELine J s line
  = if String.eqb (Stream.Type_ ev) "content_block_start" then
      let '(modifiedLine, s') :=
        Stream.handleContentBlockStart J s line (Regexp.ReplaceAllString line)
          (Stream.Index ev) (Stream.ContentBlock ev) in
      Ret (modifiedLine, [], None, s')
    else if String.eqb (Stream.Type_ ev) "content_block_delta" then
      '(modifiedLine, s') ← Stream.handleContentBlockDelta J s line
                               (Regexp.ReplaceAllString line) (Stream.Index ev) (Stream.Delta ev);
      Ret (modifiedLine, [], None, s')
    else if String.eqb (Stream.Type_ ev) "content_block_stop" then
      '(modifiedLine, extraLines, s') ← Stream.handleContentBlockStop s line (Stream.Index ev);
      Ret (modifiedLine, extraLines, None, s')
    else Ret (line, [], None, s).
Proof.
  unfold event_of, payload, Stream.ProcessSSELine.
  destruct (negb (Regexp.MatchString line)); [discriminate |].
  destruct (String.eqb _ EmptyString || String.eqb _ "[DONE]"); [discriminate |].
  now intros ->.
Qed.

Lemma trace_generateSignatureDeltaLine {W} (h : handler Stream.StreamE W)
    (s : Stream.SignatureStreamState) (i : Z) (w : W) :
  trace h (Stream.generateSignatureDeltaLine s i) w
  = [Answered (Stream.GetRandomSignature (PoolFilter (Stream.config s)))
              (pool_answer h s w)].
Proof.
  unfold Stream.generateSignatureDeltaLine, pool_answer.
  rewrite trace_bind, trace_call, run_call.
  destruct (h _ _ w) as [[v err] w']; cbn [fst snd].
  destruct (notnil err || String.eqb v EmptyString); reflexivity.
Qed.

Lemma trace_if_Ret {E W A} (h : handler E W) (b : bool) (x y : A) (w : W) :
  trace h (if b then Ret x else Ret y) w = [].
Proof. destruct b; reflexivity. Qed.

Lemma run_handleContentBlockStop {W} (h : handler Stream.StreamE W)
    (s : Stream.SignatureStreamState) (line : string) (i : Z) (w : W)
    (block : Stream.ThinkingBlockState) :
  Stream.thinkingBlocks s !! i = Some block ->
  let inject := strategy_injects (Strategy (Stream.config s))
                && negb (Stream.HasSignatureDelta block) in
  fst (run h (Stream.handleContentBlockStop s line i) w)
  = (line,
     if inject && yields (pool_answer h s w)
     then [synthetic_line i (fst (pool_answer h s w))] else [],
     Stream.with_blocks s
       (<[i := {| Stream.tb_Index := Stream.tb_Index block;
                  Stream.Started := Stream.Started block;
                  Stream.HasSignatureDelta := Stream.HasSignatureDelta block;
                  Stream.ReceivedSignature := Stream.ReceivedSignature block;
                  Stream.Stopped := true |}]> (Stream.thinkingBlocks s)))
  /\ pool_answers (trace h (Stream.handleContentBlockStop s line i) w)
     = if inject then [pool_answer h s w] else [].
Proof.
  intros Hb. unfold Stream.handleContentBlockStop, strategy_injects. rewrite Hb.
  cbn [Stream.config Stream.with_blocks Stream.HasSignatureDelta].
  set (s' := Stream.with_blocks s _).
  assert (Hpa : forall w0, pool_answer h s' w0 = pool_answer h s w0) by reflexivity.
  set (inj := (if String.eqb (Strategy (Stream.config s)) "always_replace" then _ else _)).
  assert (Hinj : inj = (String.eqb (Strategy (Stream.config s)) "always_replace"
                        || String.eqb (Strategy (Stream.config s)) "fill_missing")
                       && negb (Stream.HasSignatureDelta block)).
  { unfold inj. destruct (String.eqb _ "always_replace"); [reflexivity |].
    destruct (String.eqb _ "fill_missing"); reflexivity. }
  rewrite <- Hinj. clearbody inj. clear Hinj.
  destruct inj; cbn [andb]; [| split; reflexivity].
  rewrite run_bind, trace_bind, run_generateSignatureDeltaLine, Hpa.
  split.
  - destruct (yields (pool_answer h s w)).
    + rewrite synthetic_line_nonempty. reflexivity.
    + reflexivity.
  - rewrite trace_generateSignatureDeltaLine, trace_if_Ret. reflexivity.
Qed.

(** One content_block_stop at a tracked index, in terms of the flag of the
    block: the stop line is returned unchanged with a nil error; under
    always_replace or fill_missing the extra lines are the synthetic
    signature_delta exactly when the flag is not set and the pool yields a
    signature, and are empty otherwise. *)
Lemma handleContentBlockStop_on_tracked (J : Stream.JSONLib) {W}
    (h : handler Stream.StreamE W)
    (s : Stream.SignatureStreamState) (line : string) (w : W)
    (ev : Stream.event) (block : Stream.ThinkingBlockState) :
  event_of J line = Some ev ->
  Stream.Type_ ev = "content_block_stop" ->
  Stream.thinkingBlocks s !! Stream.Index ev = Some block ->
  exists extra s',
    fst (run h (Stream.ProcessSSELine J s line) w) = (line, extra, None, s')
    /\ (strategy_injects (Strategy (Stream.config s)) = true ->
        (extra = [synthetic_line (Stream.Index ev) (fst (pool_answer h s w))]
         <-> Stream.HasSignatureDelta block = false /\ yields (pool_answer h s w) = true)
        /\ (extra = [synthetic_line (Stream.Index ev) (fst (pool_answer h s w))]
            \/ extra = []))
    /\ (Strategy (Stream.config s) = "disabled" \/ yields (pool_answer h s w) = false ->
        extra = []).
Proof.
  intros Hev Hty Hb.
  rewrite (ProcessSSELine_event _ _ _ _ Hev), Hty.
  change (String.eqb "content_block_stop" "content_block_start") with false.
  change (String.eqb "content_block_stop" "content_block_delta") with false.
  change (String.eqb "content_block_stop" "content_block_stop") with true.
  cbv iota. rewrite run_bind.
  destruct (run_handleContentBlockStop h s line _ w block Hb) as [Hrun _].
  cbv zeta in Hrun. rewrite Hrun. cbn [fst snd run].
  eexists _, _. split; [reflexivity |].
  assert (Hdis : Strategy (Stream.config s) = "disabled" ->
                 strategy_injects (Strategy (Stream.config s)) = false)
    by (intros ->; reflexivity).
  revert Hdis. generalize (Strategy (Stream.config s) = "disabled").
  generalize (synthetic_line (Stream.Index ev) (fst (pool_answer h s w))).
  destruct (strategy_injects (Strategy (Stream.config s))),
           (Stream.HasSignatureDelta block), (yields (pool_answer h s w));
    cbn [negb andb]; intros l P Hdis; split.
  all: try (intros _; split; [split; [discriminate | intros [? ?]; discriminate] | now right]).
  all: try discriminate.
  all: try (intros [HP | ?]; [try reflexivity; now apply Hdis in HP | try reflexivity; discriminate]).
  intros _. split; [split; [intros _; now split | reflexivity] | now left].
Qed.

Lemma run_replaceSignatureInLine (J : Stream.JSONLib) {W} (h : handler Stream.StreamE W)
    (s : Stream.SignatureStreamState) (line : string) (i : Z) (w : W) :
  fst (run h (Stream.replaceSignatureInLine J s line i) w)
  = replaced J line (pool_answer h s w)
  /\ trace h (Stream.replaceSignatureInLine J s line i) w
     = [Answered (Stream.GetRandomSignature (PoolFilter (Stream.config s)))
                 (pool_answer h s w)].
Proof.
  unfold Stream.replaceSignatureInLine, replaced, pool_answer, yields.
  rewrite run_bind, trace_bind, trace_call, run_call.
  destruct (h _ _ w) as [[v err] w']; cbn [fst snd].
  destruct (notnil err || String.eqb v EmptyString); cbn [negb]; [split; reflexivity |].
  destruct (Stream.sjson_Set J _ _ v) as [newData err'].
  destruct (notnil err'); split; reflexivity.
Qed.

Lemma run_handleContentBlockDelta (J : Stream.JSONLib) {W} (h : handler Stream.StreamE W)
    (s : Stream.SignatureStreamState) (line data : string) (i : Z)
    (raw : Stream.RawMessage) (d : Stream.delta) (w : W) :
  Stream.Unmarshal_delta J raw = Some d ->
  Stream.d_Type d = "signature_delta" ->
  let replace := String.eqb (Strategy (Stream.config s)) "always_replace" in
  let w1 := delta_world h s i d w in
  fst (run h (Stream.handleContentBlockDelta J s line data i raw) w)
  = (if replace then replaced J line (pool_answer h s w1) else line, delta_state s i d)
  /\ pool_answers (trace h (Stream.handleContentBlockDelta J s line data i raw) w)
     = (if replace then [pool_answer h s w1] else [])
  /\ collect_calls (trace h (Stream.handleContentBlockDelta J s line data i raw) w)
     = delta_collects s i d.
Proof.
  intros Hd Hty. unfold Stream.handleContentBlockDelta. rewrite Hd, Hty.
  change (negb (String.eqb "signature_delta" "signature_delta")) with false. cbv iota.
  cbv zeta. rewrite run_bind, trace_bind.
  set (pre := match Stream.thinkingBlocks s !! i with Some _ => _ | None => _ end).
  assert (Hpre : run h pre w = (delta_state s i d, delta_world h s i d w)
                 /\ pool_answers (trace h pre w) = []
                 /\ collect_calls (trace h pre w) = delta_collects s i d).
  { unfold pre, delta_state, delta_world, delta_collects.
    destruct (Stream.thinkingBlocks s !! i) as [block |]; [| repeat split].
    destruct (Stream.collector s) as [c |]; [| repeat split].
    destruct (negb (String.eqb (Stream.d_Signature d) EmptyString)); [| repeat split].
    rewrite run_bind, trace_bind, run_call, trace_call.
    destruct (h _ _ w) as [[] w']. repeat split. }
  destruct Hpre as (Hrun & Hpa & Hcc). rewrite Hrun. cbn [fst snd].
  unfold pool_answers, collect_calls in *. rewrite !omap_app, Hpa, Hcc.
  assert (Hcfg : Stream.config (delta_state s i d) = Stream.config s).
  { unfold delta_state. destruct (Stream.thinkingBlocks s !! i); reflexivity. }
  rewrite Hcfg.
  destruct (String.eqb (Strategy (Stream.config s)) "always_replace").
  - rewrite run_bind, trace_bind.
    destruct (run_replaceSignatureInLine J h (delta_state s i d) line i
                (delta_world h s i d w)) as [Hr Ht].
    assert (Hpa' : forall w0, pool_answer h (delta_state s i d) w0 = pool_answer h s w0)
      by (intros; unfold pool_answer; now rewrite Hcfg).
    rewrite Hr, Ht, Hpa'. cbn. rewrite app_nil_r. repeat split.
  - destruct (String.eqb (Strategy (Stream.config s)) "fill_missing");
      cbn; rewrite app_nil_r; repeat split.
Qed.

Lemma event_of_None (J : Stream.JSONLib) (line : string) :
  Regexp.MatchString line = false
  \/ Regexp.ReplaceAllString line = EmptyString
  \/ Regexp.ReplaceAllString line = "[DONE]"
  \/ Stream.Unmarshal_event J (Regexp.ReplaceAllString line) = None ->
  event_of J line = None.
Proof.
  unfold event_of, payload. intros [-> | [-> | [-> | H]]]; try reflexivity.
  - destruct (negb (Regexp.MatchString line)); reflexivity.
  - destruct (negb (Regexp.MatchString line)); reflexivity.
  - destruct (negb (Regexp.MatchString line)); [reflexivity |].
    destruct (_ || _); [reflexivity | exact H].
Qed.

Lemma handleContentBlockStart_line (J : Stream.JSONLib) (s : Stream.SignatureStreamState)
    (line data : string) (i : Z) (raw : Stream.RawMessage) :
  fst (Stream.handleContentBlockStart J s line data i raw) = line.
Proof.
  unfold Stream.handleContentBlockStart.
  destruct (Stream.Unmarshal_contentBlock J raw) as [cb |]; [| reflexivity].
  destruct (negb (String.eqb (Stream.cb_Type cb) "thinking")); reflexivity.
Qed.

(** C5: [ProcessSSELine] returns a nil error on every line.  A line without
    the data: prefix, a data line whose payload is empty or [DONE], and a
    data line whose payload does not decode come back unchanged with no
    extra line (and no call made, no state changed); when the pool fails, or
    when the JSON edit of a replacement fails, the original line comes back
    unchanged with no extra line. *)
Theorem ProcessSSELine_passes_through (J : Stream.JSONLib) {W}
    (h : handler Stream.StreamE W) (s : Stream.SignatureStreamState)
    (line : string) (w : W) :
  exists out extra s',
    fst (run h (Stream.ProcessSSELine J s line) w) = (out, extra, None, s')
    /\ (Regexp.MatchString line = false
        \/ Regexp.ReplaceAllString line = EmptyString
        \/ Regexp.ReplaceAllString line = "[DONE]"
        \/ Stream.Unmarshal_event J (Regexp.ReplaceAllString line) = None ->
        out = line /\ extra = [] /\ s' = s
        /\ trace h (Stream.ProcessSSELine J s line) w = [])
    /\ (forall a, In a (pool_answers (trace h (Stream.ProcessSSELine J s line) w)) ->
        yields a = false -> out = line /\ extra = [])
    /\ (forall a ev, In a (pool_answers (trace h (Stream.ProcessSSELine J s line) w)) ->
        event_of J line = Some ev ->
        Stream.Type_ ev = "content_block_delta" ->
        snd (Stream.sjson_Set J (Regexp.ReplaceAllString line) "delta.signature" (fst a))
        <> None ->
        out = line /\ extra = []).
Proof.
  destruct (event_of J line) as [ev |] eqn:Hev.
  2:{ rewrite (ProcessSSELine_no_event _ _ _ Hev). cbn.
      eexists _, _, _. split; [reflexivity |].
      repeat split; try easy. }
  assert (Hnone : forall P : Prop,
             (Regexp.MatchString line = false
              \/ Regexp.ReplaceAllString line = EmptyString
              \/ Regexp.ReplaceAllString line = "[DONE]"
              \/ Stream.Unmarshal_event J (Regexp.ReplaceAllString line) = None) -> P).
  { intros P H. apply (event_of_None J) in H. congruence. }
  rewrite (ProcessSSELine_event _ _ _ _ Hev).
  destruct (String.eqb_spec (Stream.Type_ ev) "content_block_start") as [Hs | Hs].
  { pose proof (handleContentBlockStart_line J s line (Regexp.ReplaceAllString line)
                  (Stream.Index ev) (Stream.ContentBlock ev)) as Hl.
    destruct (Stream.handleContentBlockStart _ _ _ _ _ _) as [l s']. cbn in *. subst l.
    eexists _, _, _. split; [reflexivity |].
    split; [apply Hnone |]. split; [intros a Hf; destruct Hf | intros a ev' Hf; destruct Hf]. }
  destruct (String.eqb_spec (Stream.Type_ ev) "content_block_delta") as [Hd | Hd].
  { destruct (Stream.Unmarshal_delta J (Stream.Delta ev)) as [d |] eqn:Hud.
    2:{ unfold Stream.handleContentBlockDelta. rewrite Hud. cbn.
        eexists _, _, _. split; [reflexivity |].
        split; [apply Hnone |].
        split; [intros a Hf; destruct Hf | intros a ev' Hf; destruct Hf]. }
    destruct (String.eqb_spec (Stream.d_Type d) "signature_delta") as [Hsd | Hsd].
    2:{ unfold Stream.handleContentBlockDelta. rewrite Hud.
        destruct (String.eqb_spec (Stream.d_Type d) "signature_delta"); [contradiction |].
        cbn.
        eexists _, _, _. split; [reflexivity |].
        split; [apply Hnone |].
        split; [intros a Hf; destruct Hf | intros a ev' Hf; destruct Hf]. }
    rewrite run_bind, trace_bind.
    destruct (run_handleContentBlockDelta J h s line (Regexp.ReplaceAllString line)
                (Stream.Index ev) (Stream.Delta ev) d w Hud Hsd) as (Hrun & Hpa & _).
    cbv zeta in Hrun, Hpa. rewrite Hrun. cbn [fst snd run].
    eexists _, _, _. split; [reflexivity |].
    split; [apply Hnone |].
    unfold pool_answers in *. rewrite omap_app, Hpa. cbn [trace omap app]. rewrite app_nil_r.
    destruct (String.eqb (Strategy (Stream.config s)) "always_replace").
    2:{ split; [intros a Hf; destruct Hf | intros a ev' Hf; destruct Hf]. }
    unfold replaced.
    split.
    - intros a [<- | []] Hy. rewrite Hy. now split.
    - intros a ev' [<- | []] _ _ Hset.
      destruct (yields _); [| now split].
      destruct (Stream.sjson_Set J _ _ _) as [nd [e |]]; cbn in *; [now split | congruence]. }
  destruct (String.eqb_spec (Stream.Type_ ev) "content_block_stop") as [Hp | Hp].
  2:{ cbn. eexists _, _, _. split; [reflexivity |].
      split; [apply Hnone |].
      split; [intros a Hf; destruct Hf | intros a ev' Hf; destruct Hf]. }
  destruct (Stream.thinkingBlocks s !! Stream.Index ev) as [block |] eqn:Hb.
  2:{ unfold Stream.handleContentBlockStop. rewrite Hb. cbn.
      eexists _, _, _. split; [reflexivity |].
      split; [apply Hnone |].
      split; [intros a Hf; destruct Hf | intros a ev' Hf; destruct Hf]. }
  rewrite run_bind, trace_bind.
  destruct (run_handleContentBlockStop h s line _ w block Hb) as [Hrun Hpa].
  cbv zeta in Hrun, Hpa. rewrite Hrun. cbn [fst snd run].
  eexists _, _, _. split; [reflexivity |].
  split; [apply Hnone |].
  unfold pool_answers in *. rewrite omap_app, Hpa. cbn [trace omap app]. rewrite app_nil_r.
  split.
  - destruct (strategy_injects _ && negb _); [| intros a Hf; destruct Hf].
    intros a [<- | []] Hy. rewrite Hy. now split.
  - intros a ev' _ Hev' Hty. congruence.
Qed.

(** C10: a signature_delta at an index that no thinking content_block_start
    is tracked for records no per-block state (the state is unchanged, the
    index stays untracked) and makes no call to the collector; under
    always_replace the signature of the line is still rewritten with the
    value the pool gives; and a later content_block_stop at that index comes
    back unchanged, with no extra line and no call to the pool. *)
Theorem untracked_signature_delta (J : Stream.JSONLib) {W} (h : handler Stream.StreamE W)
    (s : Stream.SignatureStreamState) (line : string) (w : W)
    (ev : Stream.event) (d : Stream.delta) :
  event_of J line = Some ev ->
  Stream.Type_ ev = "content_block_delta" ->
  Stream.Unmarshal_delta J (Stream.Delta ev) = Some d ->
  Stream.d_Type d = "signature_delta" ->
  Stream.thinkingBlocks s !! Stream.Index ev = None ->
  exists out,
    fst (run h (Stream.ProcessSSELine J s line) w) = (out, [], None, s)
    /\ collect_calls (trace h (Stream.ProcessSSELine J s line) w) = []
    /\ (Strategy (Stream.config s) = "always_replace" ->
        forall sig newData,
          pool_answer h s w = (sig, None) -> sig <> EmptyString ->
          Stream.sjson_Set J (Regexp.ReplaceAllString line) "delta.signature" sig
          = (newData, None) ->
          out = "data: " ++ newData)
    /\ (forall line2 ev2 (w2 : W),
          event_of J line2 = Some ev2 ->
          Stream.Type_ ev2 = "content_block_stop" ->
          Stream.Index ev2 = Stream.Index ev ->
          run h (Stream.ProcessSSELine J s line2) w2 = ((line2, [], None, s), w2)
          /\ trace h (Stream.ProcessSSELine J s line2) w2 = []).
Proof.
  intros Hev Hty Hud Hsd Hb.
  rewrite (ProcessSSELine_event _ _ _ _ Hev), Hty.
  change (String.eqb "content_block_delta" "content_block_start") with false.
  change (String.eqb "content_block_delta" "content_block_delta") with true.
  cbv iota. rewrite run_bind, trace_bind.
  destruct (run_handleContentBlockDelta J h s line (Regexp.ReplaceAllString line)
              (Stream.Index ev) (Stream.Delta ev) d w Hud Hsd) as (Hrun & _ & Hcc).
  cbv zeta in Hrun. rewrite Hrun. cbn [fst snd run trace].
  unfold collect_calls in *. rewrite omap_app, Hcc. cbn [omap app].
  unfold delta_state, delta_collects, delta_world. rewrite Hb.
  eexists. split; [reflexivity |]. split; [reflexivity |]. split.
  - intros Hstr sig newData Hans Hsig Hset. rewrite Hstr.
    change (String.eqb "always_replace" "always_replace") with true. cbv iota.
    unfold replaced, yields. rewrite Hans. cbn [fst snd notnil orb].
    destruct (String.eqb_spec sig EmptyString) as [-> | _]; [contradiction |].
    cbn [negb]. rewrite Hset. reflexivity.
  - intros line2 ev2 w2 Hev2 Hty2 Hidx.
    rewrite (ProcessSSELine_event _ _ _ _ Hev2), Hty2.
    change (String.eqb "content_block_stop" "content_block_start") with false.
    change (String.eqb "content_block_stop" "content_block_delta") with false.
    change (String.eqb "content_block_stop" "content_block_stop") with true.
    cbv iota. unfold Stream.handleContentBlockStop. rewrite Hidx, Hb.
    split; reflexivity.
Qed.

(** A thinking content_block_start makes its index tracked, with no
    signature_delta received yet; nothing else in the line changes. *)
Lemma thinking_start_tracks (J : Stream.JSONLib) {W} (h : handler Stream.StreamE W)
    (s : Stream.SignatureStreamState) (line : string) (w : W)
    (ev : Stream.event) (cb : Stream.contentBlock) :
  event_of J line = Some ev ->
  Stream.Type_ ev = "content_block_start" ->
  Stream.Unmarshal_contentBlock J (Stream.ContentBlock ev) = Some cb ->
  Stream.cb_Type cb = "thinking" ->
  exists s',
    run h (Stream.ProcessSSELine J s line) w = ((line, [], None, s'), w)
    /\ exists block, Stream.thinkingBlocks s' !! Stream.Index ev = Some block
                     /\ Stream.HasSignatureDelta block = false.
Proof.
  intros Hev Hty Hcb Hth.
  rewrite (ProcessSSELine_event _ _ _ _ Hev), Hty.
  change (String.eqb "content_block_start" "content_block_start") with true. cbv iota.
  unfold Stream.handleContentBlockStart. rewrite Hcb, Hth.
  change (negb (String.eqb "thinking" "thinking")) with false. cbv iota.
  eexists. split; [reflexivity |].
  eexists. split; [apply lookup_insert_eq | reflexivity].
Qed.

(** A signature_delta at a tracked index marks the block as having
    received one. *)
Lemma signature_delta_marks (J : Stream.JSONLib) {W} (h : handler Stream.StreamE W)
    (s : Stream.SignatureStreamState) (line : string) (w : W)
    (ev : Stream.event) (d : Stream.delta) (block : Stream.ThinkingBlockState) :
  event_of J line = Some ev ->
  Stream.Type_ ev = "content_block_delta" ->
  Stream.Unmarshal_delta J (Stream.Delta ev) = Some d ->
  Stream.d_Type d = "signature_delta" ->
  Stream.thinkingBlocks s !! Stream.Index ev = Some block ->
  exists out s' block',
    fst (run h (Stream.ProcessSSELine J s line) w) = (out, [], None, s')
    /\ Stream.thinkingBlocks s' !! Stream.Index ev = Some block'
    /\ Stream.HasSignatureDelta block' = true
    /\ Stream.ReceivedSignature block' = Stream.d_Signature d.
Proof.
  intros Hev Hty Hud Hsd Hb.
  rewrite (ProcessSSELine_event _ _ _ _ Hev), Hty.
  change (String.eqb "content_block_delta" "content_block_start") with false.
  change (String.eqb "content_block_delta" "content_block_delta") with true.
  cbv iota. rewrite run_bind.
  destruct (run_handleContentBlockDelta J h s line (Regexp.ReplaceAllString line)
              (Stream.Index ev) (Stream.Delta ev) d w Hud Hsd) as (Hrun & _ & _).
  cbv zeta in Hrun. rewrite Hrun. cbn [fst snd run].
  unfold delta_state. rewrite Hb.
  eexists _, _, _. split; [reflexivity |].
  split; [apply lookup_insert_eq |]. split; reflexivity.
Qed.

Lemma MatchString_prefix (line : string) :
  Regexp.MatchString line = true <-> exists rest, line = "data:" ++ rest.
Proof.
  unfold Regexp.MatchString. split.
  - destruct line as [| c0 [| c1 [| c2 [| c3 [| c4 r]]]]]; cbn [Go.strip_prefix];
      repeat match goal with
             | |- context [Ascii.eqb ?a ?b] =>
               destruct (Ascii.eqb_spec a b) as [<- |]
             end; try (intros H; discriminate H).
    intros _. now exists r.
  - intros [rest ->]. reflexivity.
Qed.

Lemma ProcessSSELine_passes_through_witness :
  (exists s',
     fst (run (Example.fixed_pool ("SIG-A", None))
              (Stream.ProcessSSELine RefJSON.lib (Example.fresh "always_replace")
                 "event: ping") [])
     = ("event: ping", [], None, s'))
  /\ (exists s',
        fst (run (Example.fixed_pool (EmptyString, Some ErrSignaturePoolEmpty))
                 (Stream.ProcessSSELine RefJSON.lib (Example.tracked "always_replace")
                    Example.delta0) [])
        = (Example.delta0, [], None, s')).
Proof.
  split.
  - destruct (ProcessSSELine_passes_through RefJSON.lib (Example.fixed_pool ("SIG-A", None))
                (Example.fresh "always_replace") "event: ping" [])
      as (out & extra & s' & Hrun & Hpass & _).
    destruct (Hpass (or_introl eq_refl)) as (-> & -> & _).
    exists s'. exact Hrun.
  - destruct (ProcessSSELine_passes_through RefJSON.lib
                (Example.fixed_pool (EmptyString, Some ErrSignaturePoolEmpty))
                (Example.tracked "always_replace") Example.delta0 [])
      as (out & extra & s' & Hrun & _ & Hfail & _).
    destruct (Hfail (EmptyString, Some ErrSignaturePoolEmpty)) as (-> & ->).
    + vm_compute. left. reflexivity.
    + reflexivity.
    + exists s'. exact Hrun.
Defined.

(** Scenario 2 of the specification on an index that was never started:
    the signature is replaced all the same, and the stop injects nothing. *)
Lemma untracked_signature_delta_witness :
  fst (run (Example.fixed_pool ("SIG-B", None))
           (Stream.ProcessSSELine RefJSON.lib (Example.fresh "always_replace")
              Example.delta0) [])
  = (Go.dq "data: {'type':'content_block_delta','index':0,'delta':{'type':'signature_delta','signature':'SIG-B'}}",
     [], None, Example.fresh "always_replace")
  /\ run (Example.fixed_pool ("SIG-B", None))
         (Stream.ProcessSSELine RefJSON.lib (Example.fresh "always_replace")
            Example.stop0) []
     = ((Example.stop0, [], None, Example.fresh "always_replace"), []).
Proof.
  destruct (untracked_signature_delta RefJSON.lib (Example.fixed_pool ("SIG-B", None))
              (Example.fresh "always_replace") Example.delta0 []
              Example.delta_event Example.upstream_delta)
    as (out & Hrun & _ & Hrepl & Hstop).
  - vm_compute. reflexivity.
  - reflexivity.
  - vm_compute. reflexivity.
  - reflexivity.
  - reflexivity.
  - split.
    + rewrite Hrun. f_equal. f_equal. f_equal.
      apply (Hrepl eq_refl "SIG-B"
               (Go.dq "{'type':'content_block_delta','index':0,'delta':{'type':'signature_delta','signature':'SIG-B'}}")).
      * reflexivity.
      * discriminate.
      * vm_compute. reflexivity.
    + apply (Hstop Example.stop0 Example.stop_event []).
      * vm_compute. reflexivity.
      * reflexivity.
      * reflexivity.
Defined.

(** ** The pool cache *)

Lemma eligible_passes (f : SignaturePoolFilter) (sig : Pool.CachedSignature) :
  Pool.eligible (list_to_set (Models f)) sig = true <-> passes f sig.
Proof.
  unfold Pool.eligible, passes. destruct (Pool.cs_Model sig) as [m |]; [| easy].
  rewrite bool_decide_eq_true, elem_of_list_to_set, list_elem_of_In. reflexivity.
Qed.

Lemma len'_zero {A} (l : list A) : (Go.len' l =? 0)%Z = true <-> l = [].
Proof.
  unfold Go.len'. destruct l; cbn; [easy |].
  split; [| discriminate]. intros H. apply Z.eqb_eq in H. lia.
Qed.

Lemma filterSignatures_spec (sigs : list Pool.CachedSignature) (f : SignaturePoolFilter) :
  Models f <> [] ->
  (Exists (passes f) sigs ->
   Pool.filterSignatures sigs (Some f)
   = List.filter (Pool.eligible (list_to_set (Models f))) sigs)
  /\ (~ Exists (passes f) sigs -> Pool.filterSignatures sigs (Some f) = sigs).
Proof.
  intros Hm. unfold Pool.filterSignatures.
  destruct (Go.len' (Models f) =? 0)%Z eqn:Hl; [apply len'_zero in Hl; contradiction |].
  set (res := List.filter _ sigs).
  destruct (Go.len' res =? 0)%Z eqn:Hr.
  - apply len'_zero in Hr. split; [| reflexivity].
    intros Hex. apply List.Exists_exists in Hex as (x & Hin & Hp).
    apply eligible_passes in Hp.
    assert (Hx : In x res) by (apply List.filter_In; auto).
    rewrite Hr in Hx. destruct Hx.
  - split; [reflexivity |]. intros Hnex.
    destruct res as [| x r] eqn:Eres; [discriminate |].
    exfalso. apply Hnex. apply List.Exists_exists. exists x.
    assert (Hx : In x res) by (rewrite Eres; now left).
    apply List.filter_In in Hx as [Hin Hel]. split; [exact Hin | now apply eligible_passes].
Qed.

Lemma filterSignatures_incl (sigs : list Pool.CachedSignature)
    (filter : option SignaturePoolFilter) (x : Pool.CachedSignature) :
  In x (Pool.filterSignatures sigs filter) -> In x sigs.
Proof.
  unfold Pool.filterSignatures. destruct filter as [f |]; [| easy].
  destruct (Go.len' (Models f) =? 0)%Z; [easy |].
  destruct (Go.len' (List.filter _ sigs) =? 0)%Z; [easy |].
  intros H. now apply List.filter_In in H.
Qed.

Lemma filterSignatures_nonempty (sigs : list Pool.CachedSignature)
    (filter : option SignaturePoolFilter) :
  sigs <> [] -> Pool.filterSignatures sigs filter <> [].
Proof.
  intros Hs. unfold Pool.filterSignatures. destruct filter as [f |]; [| easy].
  destruct (Go.len' (Models f) =? 0)%Z; [easy |].
  destruct (Go.len' (List.filter _ sigs) =? 0)%Z eqn:Hr; [easy |].
  intros H. rewrite H in Hr. discriminate.
Qed.

(** A signature without a model passes every filter. *)
Lemma nil_model_always_eligible (sigs : list Pool.CachedSignature)
    (filter : option SignaturePoolFilter) (x : Pool.CachedSignature) :
  In x sigs -> Pool.cs_Model x = None -> In x (Pool.filterSignatures sigs filter).
Proof.
  intros Hin Hnil. unfold Pool.filterSignatures. destruct filter as [f |]; [| easy].
  destruct (Go.len' (Models f) =? 0)%Z; [easy |].
  destruct (Go.len' (List.filter _ sigs) =? 0)%Z; [easy |].
  apply List.filter_In. split; [exact Hin |]. unfold Pool.eligible. now rewrite Hnil.
Qed.

(** [GetRandomSignature] after the acquisition: empty snapshot, PoolEmpty;
    otherwise the value of the signature at the index drawn in the filtered
    list. *)
Lemma run_GetRandomSignature {W} (h : handler Pool.PoolE W)
    (s : Pool.signaturePoolService) (filter : option SignaturePoolFilter) (w : W) :
  Intn_in_range h ->
  let sigs := snapshot h s w in
  let filtered := Pool.filterSignatures sigs filter in
  let w1 := snd (run h (Pool.getCachedSignatures s) w) in
  let idx := fst (h _ (Pool.rng_Intn (Go.len' filtered)) w1) in
  snd (fst (run h (Pool.GetRandomSignature s filter) w)) = acquired h s w
  /\ (sigs = [] ->
      fst (fst (run h (Pool.GetRandomSignature s filter) w))
      = Some (EmptyString, Some ErrSignaturePoolEmpty))
  /\ (sigs <> [] ->
      exists sel, filtered !! Z.to_nat idx = Some sel
                  /\ fst (fst (run h (Pool.GetRandomSignature s filter) w))
                     = Some (Pool.cs_Value sel, None)).
Proof.
  intros Hrng. unfold snapshot, acquired, Pool.GetRandomSignature.
  rewrite run_bind.
  destruct (run h (Pool.getCachedSignatures s) w) as [[sigs s'] w1]. cbn [fst snd].
  destruct (Go.len' sigs =? 0)%Z eqn:Hl.
  { apply len'_zero in Hl. subst sigs. cbn. repeat split; easy. }
  assert (Hs : sigs <> []) by (intros ->; discriminate).
  pose proof (filterSignatures_nonempty sigs filter Hs) as Hf.
  destruct (Go.len' (Pool.filterSignatures sigs filter) =? 0)%Z eqn:Hlf.
  { apply len'_zero in Hlf. contradiction. }
  rewrite run_bind, run_call.
  assert (Hpos : 0 < Go.len' (Pool.filterSignatures sigs filter)).
  { unfold Go.len'. destruct (Pool.filterSignatures sigs filter); [contradiction | cbn; lia]. }
  specialize (Hrng _ w1 Hpos).
  destruct (h _ (Pool.rng_Intn _) w1) as [idx w2]. cbn [fst snd] in *.
  destruct (idx <? 0)%Z eqn:Hneg; [apply Z.ltb_lt in Hneg; lia |].
  destruct (Pool.filterSignatures sigs filter !! Z.to_nat idx) as [sel |] eqn:Hsel.
  - rewrite run_bind, run_call. destruct (h _ (Pool.go_MarkUsed _) w2) as [[] w3].
    cbn. split; [reflexivity |]. split; [intros; contradiction |].
    intros _. exists sel. split; reflexivity.
  - apply lookup_ge_None in Hsel. unfold Go.len' in Hrng. lia.
Qed.

Ltac run_step h :=
  cbn [bind mbind prog_bind call run trace fst snd];
  match goal with
  | |- context [h ?X ?e ?w] =>
    let x := fresh "x" in let w' := fresh "w" in
    destruct (h X e w) as [x w'] eqn:?
  end.


Lemma listactive_GetRandomSignature {W} (h : handler Pool.PoolE W)
    (s : Pool.signaturePoolService) (filter : option SignaturePoolFilter) (w : W) :
  listactive_answers (trace h (Pool.GetRandomSignature s filter) w)
  = listactive_answers (trace h (Pool.getCachedSignatures s) w).
Proof.
  unfold Pool.GetRandomSignature. rewrite trace_bind.
  unfold listactive_answers at 1. rewrite omap_app. fold (listactive_answers).
  destruct (run h (Pool.getCachedSignatures s) w) as [[sigs s'] w1]. cbn [fst snd].
  match goal with |- (_ ++ ?x)%list = _ => assert (Hx : x = []) end.
  { destruct (Go.len' sigs =? 0)%Z; [reflexivity |].
    destruct (Go.len' (Pool.filterSignatures sigs filter) =? 0)%Z; [reflexivity |].
    run_step h. destruct (if (x <? 0)%Z then None else _) as [sel |]; [| reflexivity].
    run_step h. reflexivity. }
  rewrite Hx. apply app_nil_r.
Qed.


(** C3: on a snapshot that is not empty and a filter that lists models,
    [GetRandomSignature] returns the value of a signature of the snapshot
    that has no model or a model of the filter, unless no signature of the
    snapshot is such: then the filtered list is the whole snapshot and the
    signature is drawn from it.  A signature without a model is in the
    filtered list under every filter. *)
Theorem filter_selects_eligible {W} (h : handler Pool.PoolE W)
    (s : Pool.signaturePoolService) (f : SignaturePoolFilter) (w : W) :
  Intn_in_range h ->
  Models f <> [] ->
  snapshot h s w <> [] ->
  exists sel idx,
    fst (fst (run h (Pool.GetRandomSignature s (Some f)) w)) = Some (Pool.cs_Value sel, None)
    /\ Pool.filterSignatures (snapshot h s w) (Some f) !! idx = Some sel
    /\ In sel (snapshot h s w)
    /\ (Exists (passes f) (snapshot h s w) -> passes f sel)
    /\ (~ Exists (passes f) (snapshot h s w) ->
        Pool.filterSignatures (snapshot h s w) (Some f) = snapshot h s w)
    /\ (forall x filter', In x (snapshot h s w) -> Pool.cs_Model x = None ->
        In x (Pool.filterSignatures (snapshot h s w) filter')).
Proof.
  intros Hrng Hm Hne.
  destruct (run_GetRandomSignature h s (Some f) w Hrng) as (_ & _ & Hfull).
  cbv zeta in Hfull. destruct (Hfull Hne) as (sel & Hsel & Hres).
  destruct (filterSignatures_spec (snapshot h s w) f Hm) as [Hsome Hnone].
  assert (Hin : In sel (Pool.filterSignatures (snapshot h s w) (Some f))).
  { apply list_elem_of_In. eapply list_elem_of_lookup_2. exact Hsel. }
  exists sel, (Z.to_nat (fst (h _ (Pool.rng_Intn (Go.len' (Pool.filterSignatures
                 (snapshot h s w) (Some f))))
                 (snd (run h (Pool.getCachedSignatures s) w))))).
  split; [exact Hres |]. split; [exact Hsel |].
  split; [eapply filterSignatures_incl; exact Hin |].
  split; [| split; [exact Hnone |]].
  - intros Hex. rewrite (Hsome Hex) in Hin. apply List.filter_In in Hin as [_ Hel].
    now apply eligible_passes.
  - intros x filter'. apply nil_model_always_eligible.
Qed.

Lemma pool_handler_in_range : Intn_in_range Example.pool_handler.
Proof. intros n w Hn. cbn. apply Z.mod_pos_bound. exact Hn. Qed.


(** Scenario 6 of the specification: the pool holds only S1 of model m1,
    the filter asks for m2, and S1 is returned. *)
Lemma filter_selects_eligible_witness :
  fst (fst (run Example.pool_handler
                (Pool.GetRandomSignature Pool.NewSignaturePoolService
                   (Some {| Models := ["m2"] |}))
                (Example.world_S1 [])))
  = Some ("S1", None).
Proof.
  destruct (filter_selects_eligible Example.pool_handler Pool.NewSignaturePoolService
              {| Models := ["m2"] |} (Example.world_S1 []) pool_handler_in_range)
    as (sel & idx & Hres & _ & Hin & _).
  - discriminate.
  - vm_compute. discriminate.
  - assert (Hsn : snapshot Example.pool_handler Pool.NewSignaturePoolService
                    (Example.world_S1 []) = [Pool.toCached Example.sig_S1])
      by (vm_compute; reflexivity).
    rewrite Hsn in Hin. destruct Hin as [<- | []]. exact Hres.
Defined.

(** ** The collector *)

Section CollectorFacts.

Import Collector.
Local Open Scope list_scope.

Variable growslice_cap : nat -> nat -> nat.

Lemma alloc_fresh (h : heap) : h !! alloc h = None.
Proof. apply not_elem_of_dom. unfold alloc. apply is_fresh. Qed.

Lemma slice_ok_ptr (h : heap) (sl : slice) : slice_ok h sl -> ptr sl <> alloc h.
Proof.
  intros (arr & Harr & _) Heq. rewrite Heq, alloc_fresh in Harr. discriminate.
Qed.

Lemma contents_insert_ne (h : heap) (sl : slice) (a : nat) (arr : list string) :
  ptr sl <> a -> contents (<[a := arr]> h) sl = contents h sl.
Proof.
  intros Hne. unfold contents, array. now rewrite lookup_insert_ne.
Qed.

Lemma contents_length (h : heap) (sl : slice) :
  slice_ok h sl -> length (contents h sl) = slen sl.
Proof.
  intros (arr & Harr & Hlen & Hle). unfold contents, array. rewrite Harr.
  rewrite length_take. lia.
Qed.

(** [append] adds the element at the end and keeps the slice well formed;
    it writes to the array of the slice or to a new array only. *)
Lemma append_contents (h : heap) (sl : slice) (v : string) :
  slice_ok h sl ->
  let '(sl', h') := append growslice_cap h sl v in
  contents h' sl' = contents h sl ++ [v]
  /\ slice_ok h' sl'
  /\ (forall a, a <> ptr sl -> a <> alloc h -> h' !! a = h !! a).
Proof.
  intros Hok. pose proof Hok as (arr & Harr & Hlen & Hle). unfold append.
  destruct (slen sl <? scap sl)%nat eqn:Hlt.
  - apply Nat.ltb_lt in Hlt. unfold contents, array. cbn [ptr slen scap].
    rewrite lookup_insert_eq, Harr. cbv iota.
    split; [| split].
    + assert (Hq : <[slen sl := v]> arr !! slen sl = Some v).
      { apply list_lookup_insert_eq. lia. }
      rewrite (take_S_r _ _ v) by exact Hq.
      now rewrite take_insert_ge by lia.
    + exists (<[slen sl := v]> arr). cbn [ptr slen scap].
      rewrite lookup_insert_eq, length_insert. repeat split; [exact Hlen | lia].
    + intros a Ha _. now rewrite lookup_insert_ne.
  - apply Nat.ltb_ge in Hlt. unfold contents at 1, array. cbn [ptr slen scap].
    rewrite lookup_insert_eq. cbv iota.
    pose proof (contents_length h sl Hok) as Hcl.
    split; [| split].
    + match goal with
      | |- context [v :: ?r] => change (v :: r) with ([v] ++ r)
      end.
      rewrite app_assoc. apply take_app_length'.
      rewrite length_app, Hcl. cbn [length]. lia.
    + eexists. cbn [ptr slen scap]. rewrite lookup_insert_eq.
      split; [reflexivity |]. rewrite length_app, Hcl. cbn [length].
      rewrite length_replicate. lia.
    + intros a _ Ha. now rewrite lookup_insert_ne.
Qed.

Lemma Collect_long (c : SignatureCollector) (h : heap) (v : string) :
  slice_ok h (signatures c) ->
  (minLength c < Go.len v)%Z ->
  let '(c', h') := Collect growslice_cap c h v in
  contents h' (signatures c') = contents h (signatures c) ++ [v]
  /\ slice_ok h' (signatures c')
  /\ minLength c' = minLength c /\ accountID c' = accountID c /\ model c' = model c
  /\ (forall a, a <> ptr (signatures c) -> a <> alloc h -> h' !! a = h !! a).
Proof.
  intros Hok Hlen. unfold Collect.
  destruct (Go.len v <=? minLength c)%Z eqn:Hle; [apply Z.leb_le in Hle; lia |].
  pose proof (append_contents h (signatures c) v Hok) as Happ.
  destruct (append growslice_cap h (signatures c) v) as [sl' h'].
  destruct Happ as (Hc & Hok' & Hfr). cbn. repeat split; assumption.
Qed.

Lemma Collect_short (c : SignatureCollector) (h : heap) (v : string) :
  (Go.len v <= minLength c)%Z -> Collect growslice_cap c h v = (c, h).
Proof.
  intros Hle. unfold Collect. apply Z.leb_le in Hle. now rewrite Hle.
Qed.

Lemma GetCollected_copy (c : SignatureCollector) (h : heap) :
  slice_ok h (signatures c) ->
  let '(r, h') := GetCollected c h in
  contents h' r = contents h (signatures c)
  /\ ptr r = alloc h
  /\ slice_ok h' r
  /\ (forall a, a <> alloc h -> h' !! a = h !! a).
Proof.
  intros Hok. pose proof (contents_length h _ Hok) as Hcl.
  pose proof (slice_ok_ptr h _ Hok) as Hne.
  unfold GetCollected, make, copy. cbn [ptr slen scap].
  rewrite Nat.min_id.
  set (a := alloc h).
  assert (Hc : contents (<[a := replicate (slen (signatures c)) EmptyString]> h) (signatures c)
               = contents h (signatures c)) by now apply contents_insert_ne.
  rewrite Hc.
  assert (Harr : array (<[a := replicate (slen (signatures c)) EmptyString]> h)
                   {| ptr := a; slen := slen (signatures c); scap := slen (signatures c) |}
                 = replicate (slen (signatures c)) EmptyString).
  { unfold array. cbn [ptr]. now rewrite lookup_insert_eq. }
  rewrite Harr.
  rewrite (take_ge (contents h (signatures c))) by lia.
  rewrite drop_ge by (rewrite length_replicate; lia).
  rewrite app_nil_r, insert_insert_eq.
  split; [| split; [reflexivity | split]].
  - unfold contents at 1, array. cbn [ptr slen]. rewrite lookup_insert_eq. cbv iota.
    apply take_ge. lia.
  - eexists. cbn [ptr slen scap]. rewrite lookup_insert_eq.
    split; [reflexivity |]. split; [exact Hcl | lia].
  - intros a' Ha. now rewrite lookup_insert_ne.
Qed.

End CollectorFacts.

Lemma contents_ext (h1 h2 : Collector.heap) (sl : Collector.slice) :
  h1 !! Collector.ptr sl = h2 !! Collector.ptr sl ->
  Collector.contents h1 sl = Collector.contents h2 sl.
Proof. intros H. unfold Collector.contents, Collector.array. now rewrite H. Qed.

Lemma slice_ok_ext (h1 h2 : Collector.heap) (sl : Collector.slice) :
  h1 !! Collector.ptr sl = h2 !! Collector.ptr sl ->
  Collector.slice_ok h1 sl -> Collector.slice_ok h2 sl.
Proof. intros H (arr & Harr & Hl). exists arr. rewrite <- H. now split. Qed.

(** C7: on a collector whose slice fits its array, [Collect(v)] appends [v]
    to the collected list if [len(v)] is greater than [minLength] and leaves
    the collector and the heap as they are otherwise; a value collected
    twice is held twice; a collector made with a non-positive minimum has
    the minimum 350 and nothing collected; [GetCollected] returns the
    collected values in order in a new array: writing into the result leaves
    the collector's values as they are, and collecting more leaves the
    result as it is. *)
Theorem collector_contract (growslice_cap : nat -> nat -> nat)
    (c : Collector.SignatureCollector) (h : Collector.heap) :
  Collector.slice_ok h (Collector.signatures c) ->
  (forall v,
     ((Collector.minLength c < Go.len v)%Z ->
      let '(c', h') := Collector.Collect growslice_cap c h v in
      Collector.contents h' (Collector.signatures c')
      = (Collector.contents h (Collector.signatures c) ++ [v])%list
      /\ Collector.minLength c' = Collector.minLength c
      /\ Collector.slice_ok h' (Collector.signatures c'))
     /\ ((Go.len v <= Collector.minLength c)%Z ->
         Collector.Collect growslice_cap c h v = (c, h)))
  /\ (forall v,
        (Collector.minLength c < Go.len v)%Z ->
        let '(c1, h1) := Collector.Collect growslice_cap c h v in
        let '(c2, h2) := Collector.Collect growslice_cap c1 h1 v in
        Collector.contents h2 (Collector.signatures c2)
        = (Collector.contents h (Collector.signatures c) ++ [v; v])%list)
  /\ (forall h0 acc mdl m,
        let '(c0, h0') := Collector.NewSignatureCollector h0 acc mdl m in
        Collector.minLength c0 = (if (m <=? 0)%Z then 350 else m)
        /\ Collector.slice_ok h0' (Collector.signatures c0)
        /\ Collector.contents h0' (Collector.signatures c0) = [])
  /\ (let '(r, h') := Collector.GetCollected c h in
      Collector.contents h' r = Collector.contents h (Collector.signatures c)
      /\ Collector.contents h' (Collector.signatures c)
         = Collector.contents h (Collector.signatures c)
      /\ (forall i x h'',
            Collector.store h' r i x = Some h'' ->
            Collector.contents h'' (Collector.signatures c)
            = Collector.contents h (Collector.signatures c))
      /\ (forall v,
            let '(c2, h2) := Collector.Collect growslice_cap c h' v in
            Collector.contents h2 r = Collector.contents h' r)).
Proof.
  intros Hok. split; [| split; [| split]].
  - intros v. split.
    + intros Hlen. pose proof (Collect_long growslice_cap c h v Hok Hlen) as H.
      destruct (Collector.Collect growslice_cap c h v) as [c' h'].
      destruct H as (Hc & Hok' & Hm & _). repeat split; assumption.
    + apply Collect_short.
  - intros v Hlen. pose proof (Collect_long growslice_cap c h v Hok Hlen) as H.
    destruct (Collector.Collect growslice_cap c h v) as [c1 h1].
    destruct H as (Hc & Hok1 & Hm & _).
    assert (Hlen1 : (Collector.minLength c1 < Go.len v)%Z) by now rewrite Hm.
    pose proof (Collect_long growslice_cap c1 h1 v Hok1 Hlen1) as H.
    destruct (Collector.Collect growslice_cap c1 h1 v) as [c2 h2].
    destruct H as (Hc2 & _). rewrite Hc2, Hc, <- app_assoc. reflexivity.
  - intros h0 acc mdl m. unfold Collector.NewSignatureCollector, Collector.make.
    cbn [Collector.minLength Collector.signatures]. split; [reflexivity |]. split.
    + eexists. cbn [Collector.ptr Collector.slen Collector.scap].
      rewrite lookup_insert_eq. repeat split. lia.
    + reflexivity.
  - pose proof (GetCollected_copy c h Hok) as H.
    destruct (Collector.GetCollected c h) as [r h'].
    destruct H as (Hc & Hptr & Hokr & Hfr).
    pose proof (slice_ok_ptr h _ Hok) as Hne.
    assert (Hsame : h' !! Collector.ptr (Collector.signatures c)
                    = h !! Collector.ptr (Collector.signatures c)) by now apply Hfr.
    split; [exact Hc |].
    split; [now apply contents_ext |]. split.
    + intros i x h'' Hst. unfold Collector.store in Hst.
      destruct (i <? Collector.slen r)%nat; [| discriminate].
      injection Hst as <-. rewrite contents_insert_ne by congruence.
      now apply contents_ext.
    + intros v. destruct (Z.le_gt_cases (Go.len v) (Collector.minLength c)) as [Hle | Hgt].
      * now rewrite Collect_short.
      * assert (Hok' : Collector.slice_ok h' (Collector.signatures c))
          by (eapply slice_ok_ext; [symmetry; exact Hsame | exact Hok]).
        pose proof (Collect_long growslice_cap c h' v Hok' Hgt) as H.
        destruct (Collector.Collect growslice_cap c h' v) as [c2 h2].
        destruct H as (_ & _ & _ & _ & _ & Hfr2).
        apply contents_ext. apply Hfr2; [rewrite Hptr; congruence |].
        apply slice_ok_ptr. exact Hokr.
Qed.

(** Scenario 4 of the specification: with the minimum length 5, the value
    of length 6 is collected and the value of length 3 is not. *)
Lemma collector_contract_witness :
  Collector.contents
    (snd (Collector.Collect Collector.double_cap (fst Example.collector0)
            (snd Example.collector0) "abcdef"))
    (Collector.signatures
       (fst (Collector.Collect Collector.double_cap (fst Example.collector0)
               (snd Example.collector0) "abcdef")))
  = ["abcdef"]
  /\ Collector.Collect Collector.double_cap (fst Example.collector0)
       (snd Example.collector0) "abc"
     = Example.collector0.
Proof.
  assert (Hok : Collector.slice_ok (snd Example.collector0)
                  (Collector.signatures (fst Example.collector0))).
  { exists []. vm_compute. repeat split. apply le_n. }
  destruct (collector_contract Collector.double_cap _ _ Hok) as (Hcol & _).
  split.
  - destruct (Hcol "abcdef") as [Hlong _].
    destruct (Collector.Collect _ _ _ "abcdef") as [c1 h1].
    destruct Hlong as (Hc & _); [reflexivity |]. exact Hc.
  - destruct (Hcol "abc") as [_ Hshort]. rewrite Hshort; [reflexivity | discriminate].
Defined.

(** ** The signature service *)

Lemma valueToHashOf_lookup (values : list string) (v : string) :
  In v values ->
  Service.valueToHashOf values !! v = Some (Service.computeSignatureHash v).
Proof.
  unfold Service.valueToHashOf. generalize (∅ : gmap string string).
  assert (Hkeep : forall l (m : gmap string string),
             m !! v = Some (Service.computeSignatureHash v) ->
             foldl (fun m v => <[v := Service.computeSignatureHash v]> m) m l !! v
             = Some (Service.computeSignatureHash v)).
  { induction l as [| x l IH]; intros m Hm; cbn [foldl]; [exact Hm |].
    apply IH. destruct (decide (x = v)) as [-> | Hne].
    - apply lookup_insert_eq.
    - now rewrite lookup_insert_ne. }
  induction values as [| x l IH]; intros m Hin; [destruct Hin |].
  cbn [foldl]. destruct Hin as [-> | Hin].
  - apply Hkeep, lookup_insert_eq.
  - now apply IH.
Qed.

Lemma filterNew_spec (vth : gmap string string) (existing : gmap string bool)
    (mk : string -> string -> Signature) (rest : list string)
    (d : Z) (acc : list Signature) :
  (forall v, In v rest -> vth !! v = Some (Service.computeSignatureHash v)) ->
  Service.filterNew vth existing mk rest d acc
  = (d + Go.len' (List.filter (known existing) rest),
     (acc ++ map (fun v => mk v (Service.computeSignatureHash v))
                 (List.filter (fun v => negb (known existing v)) rest))%list).
Proof.
  revert d acc. induction rest as [| v l IH]; intros d acc Hvth; cbn [Service.filterNew].
  - cbn. now rewrite Z.add_0_r, app_nil_r.
  - rewrite (Hvth v) by now left. cbn [from_option id].
    change (default false (existing !! Service.computeSignatureHash v))
      with (known existing v).
    cbn [List.filter]. destruct (known existing v); cbn [negb].
    + rewrite IH by (intros; apply Hvth; now right).
      f_equal. unfold Go.len'. cbn [length]. lia.
    + rewrite IH by (intros; apply Hvth; now right).
      cbn [map]. now rewrite <- app_assoc.
Qed.

Lemma run_batchImport {W} (h : handler RepoE W) (w : W) (defaultSource : string)
    (account : option Z) (values : list string) (model : option string)
    (source : string) :
  values <> [] ->
  let ans := h _ (repo_ExistsByHashes (Service.hashesOf values)) w in
  let existing := fst (fst ans) in
  let err := snd (fst ans) in
  let newSigs := newSigsOf (mkSig model (effective_source defaultSource source) account)
                   existing values in
  let d := Go.len' (List.filter (known existing) values) in
  let ans2 := h _ (repo_BatchCreate newSigs) (snd ans) in
  run h (Service.batchImport defaultSource account values model source) w
  = (if notnil err then ((None, err), snd ans)
     else if (0 <? Go.len' newSigs)%Z then
       if notnil (snd (fst ans2))
       then ((Some (result (Go.len' values) 0 d (Go.len' newSigs)), snd (fst ans2)), snd ans2)
       else ((Some (result (Go.len' values) (fst (fst ans2)) d 0), None), snd ans2)
     else ((Some (result (Go.len' values) 0 d 0), None), snd ans))
  /\ batchcreate_calls (trace h (Service.batchImport defaultSource account values model source) w)
     = (if notnil err then [] else if (0 <? Go.len' newSigs)%Z then [newSigs] else []).
Proof.
  intros Hne. cbv zeta. unfold Service.batchImport, newSigsOf, mkSig, result.
  destruct (Go.len' values =? 0)%Z eqn:Hl; [apply len'_zero in Hl; contradiction |].
  rewrite run_bind, trace_bind, run_call, trace_call.
  destruct (h _ (repo_ExistsByHashes _) w) as [[existing err] w1]. cbn [fst snd].
  unfold batchcreate_calls. rewrite omap_app. cbn [omap ans_call app].
  destruct (notnil err); [split; reflexivity |].
  rewrite filterNew_spec by (intros; now apply valueToHashOf_lookup).
  fold (effective_source defaultSource source).
  cbn [app]. rewrite Z.add_0_l.
  match goal with |- context [(0 <? Go.len' ?l)%Z] => set (newSigs := l) end.
  destruct (0 <? Go.len' newSigs)%Z; [| split; reflexivity].
  rewrite run_bind, trace_bind, run_call, trace_call.
  destruct (h _ (repo_BatchCreate newSigs) w1) as [[imported err2] w2]. cbn [fst snd].
  rewrite omap_app. cbn [omap ans_call app].
  destruct (notnil err2); split; reflexivity.
Qed.

(** ** The repository over the table *)

Lemma roundtrip_rows (st : Repo.Store) :
  Repo.rows (snd (Repo.roundtrip st)) = Repo.rows st
  /\ Repo.next_id (snd (Repo.roundtrip st)) = Repo.next_id st.
Proof. unfold Repo.roundtrip. destruct (Repo.faults st); split; reflexivity. Qed.

Lemma live_hash_roundtrip (st : Repo.Store) (h : string) :
  live_hash (snd (Repo.roundtrip st)) h = live_hash st h.
Proof. unfold live_hash. now rewrite (proj1 (roundtrip_rows st)). Qed.

Lemma mem_In (x : string) (l : list string) : Repo.mem x l = true <-> In x l.
Proof.
  unfold Repo.mem. rewrite existsb_exists. split.
  - intros (y & Hin & Heq). apply String.eqb_eq in Heq. now subst.
  - intros Hin. exists x. split; [exact Hin | apply String.eqb_refl].
Qed.

Lemma marked_lookup (l : list string) (h : string) :
  default false (foldl (fun (m : gmap string bool) h => <[h := true]> m) ∅ l !! h)
  = Repo.mem h l.
Proof.
  assert (H : forall m : gmap string bool,
             default false (foldl (fun m h => <[h := true]> m) m l !! h)
             = Repo.mem h l || default false (m !! h)).
  { induction l as [| x l IH]; intros m; cbn [foldl]; [reflexivity |].
    rewrite IH. unfold Repo.mem. cbn [existsb].
    destruct (String.eqb_spec h x) as [-> | Hne].
    - rewrite lookup_insert_eq. cbn. now rewrite orb_true_r.
    - rewrite lookup_insert_ne by congruence. reflexivity. }
  rewrite H, lookup_empty. cbn. apply orb_false_r.
Qed.

(** What [ExistsByHashes] answers when the backend answers: the hashes asked
    for that a row not deleted has. *)
Lemma ExistsByHashes_answer (st : Repo.Store) (hashes : list string) :
  hashes <> [] ->
  fst (Repo.roundtrip st) = None ->
  exists existing,
    Repo.ExistsByHashes st hashes = ((existing, None), snd (Repo.roundtrip st))
    /\ forall h, default false (existing !! h) = Repo.mem h hashes && live_hash st h.
Proof.
  intros Hne Hrt. unfold Repo.ExistsByHashes.
  destruct (Go.len' hashes =? 0)%Z eqn:Hl; [apply len'_zero in Hl; contradiction |].
  pose proof (roundtrip_rows st) as [Hrows _].
  destruct (Repo.roundtrip st) as [fault st']. cbn [fst snd] in *. subst fault.
  eexists. split; [reflexivity |].
  intros h. rewrite marked_lookup, Hrows. unfold live_hash. clear Hrows.
  induction (Repo.rows st) as [| r l IH]; cbn [List.filter map existsb Repo.mem].
  - now rewrite andb_false_r.
  - destruct (Repo.mem (Hash (Repo.sig r)) hashes && Repo.live r) eqn:Hc.
    + cbn [map existsb]. fold (Repo.mem h (map (fun r => Hash (Repo.sig r))
                                            (List.filter (fun r => Repo.mem (Hash (Repo.sig r)) hashes && Repo.live r) l))).
      rewrite IH. apply andb_true_iff in Hc as [Hm Hlive]. rewrite Hlive, andb_true_r.
      rewrite (String.eqb_sym h). destruct (String.eqb_spec (Hash (Repo.sig r)) h) as [<- | _].
      * now rewrite Hm.
      * reflexivity.
    + fold (Repo.mem h (map (fun r => Hash (Repo.sig r))
                           (List.filter (fun r => Repo.mem (Hash (Repo.sig r)) hashes && Repo.live r) l))).
      rewrite IH.
      destruct (String.eqb_spec (Hash (Repo.sig r)) h) as [<- | _]; [| reflexivity].
      cbn [andb orb]. destruct (Repo.mem (Hash (Repo.sig r)) hashes); cbn in *.
      * now rewrite Hc.
      * reflexivity.
Qed.

Lemma known_live (st : Repo.Store) (existing : gmap string bool) (values : list string) :
  (forall h, default false (existing !! h)
             = Repo.mem h (Service.hashesOf values) && live_hash st h) ->
  forall v, In v values -> known existing v = live_hash st (Service.computeSignatureHash v).
Proof.
  intros H v Hin. unfold known. rewrite H.
  replace (Repo.mem _ _) with true; [reflexivity |].
  symmetry. apply mem_In. unfold Service.hashesOf. now apply in_map.
Qed.

Lemma createBulk_hashes (st : Repo.Store) (id : Z) (sigs : list Signature) :
  map (fun r => Hash (Repo.sig r)) (Repo.createBulk st id sigs) = map Hash sigs
  /\ forallb Repo.live (Repo.createBulk st id sigs) = true
  /\ length (Repo.createBulk st id sigs) = length sigs.
Proof.
  revert id. induction sigs as [| s l IH]; intros id; cbn; [easy |].
  destruct (IH (id + 1)) as (H1 & H2 & H3). now rewrite H1, H2, H3.
Qed.

(** A batch that holds the same hash twice violates the unique constraint. *)
Lemma insertable_duplicate (present : list string) (a b c : list Signature)
    (s1 s2 : Signature) :
  Hash s1 = Hash s2 ->
  Repo.insertable present (a ++ s1 :: b ++ s2 :: c) = false.
Proof.
  intros Heq.
  assert (Hmem : forall l present, In (Hash s2) present ->
                                   Repo.insertable present (l ++ s2 :: c) = false).
  { induction l as [| x l IH]; intros p Hin; cbn [app Repo.insertable].
    - apply mem_In in Hin. rewrite Hin. cbn. now rewrite andb_false_r.
    - rewrite IH by now right. now rewrite andb_false_r. }
  revert present. induction a as [| x a IH]; intros present; cbn [app Repo.insertable].
  - rewrite Hmem by (rewrite Heq; now left). now rewrite andb_false_r.
  - rewrite IH. now rewrite andb_false_r.
Qed.

Lemma filter_all {A} (p : A -> bool) (l : list A) :
  (forall x, In x l -> p x = true) ->
  List.filter p l = l /\ List.filter (fun x => negb (p x)) l = [].
Proof.
  induction l as [| x l IH]; intros H; cbn [List.filter]; [easy |].
  rewrite (H x) by now left. cbn [negb].
  destruct IH as [-> ->]; [intros; apply H; now right | easy].
Qed.

Lemma live_hash_app (st : Repo.Store) (rs : list Repo.row) (n : Z) (h : string) :
  live_hash (Repo.with_rows st (Repo.rows st ++ rs)%list n) h
  = live_hash st h || existsb (fun r => String.eqb (Hash (Repo.sig r)) h && Repo.live r) rs.
Proof. unfold live_hash. cbn [Repo.rows Repo.with_rows]. apply existsb_app. Qed.

(** After a [batchImport] that returned a nil error, every value of the
    batch has its hash on a row that is not deleted. *)
Lemma batchImport_success_live (defaultSource : string) (account : option Z)
    (values : list string) (model : option string) (source : string)
    (st st1 : Repo.Store) (r1 : option BatchImportResult) :
  run Repo.handle (Service.batchImport defaultSource account values model source) st
  = ((r1, None), st1) ->
  forall v, In v values -> live_hash st1 (Service.computeSignatureHash v) = true.
Proof.
  intros Hrun v Hin.
  assert (Hne : values <> []) by (intros ->; destruct Hin).
  destruct (run_batchImport Repo.handle st defaultSource account values model source Hne)
    as [Heq _].
  cbv zeta in Heq. rewrite Heq in Hrun. clear Heq.
  cbn [Repo.handle] in Hrun.
  assert (Hh : Service.hashesOf values <> [])
    by (destruct values; [contradiction | discriminate]).
  destruct (fst (Repo.roundtrip st)) as [e |] eqn:Hrt.
  { unfold Repo.ExistsByHashes in Hrun.
    destruct (Go.len' (Service.hashesOf values) =? 0)%Z eqn:Hl;
      [apply len'_zero in Hl; contradiction |].
    destruct (Repo.roundtrip st) as [f st']. cbn in Hrt. subst f. cbn in Hrun.
    discriminate Hrun. }
  destruct (ExistsByHashes_answer st _ Hh Hrt) as (existing & HE & Hex).
  rewrite HE in Hrun. cbn [fst snd notnil] in Hrun.
  pose proof (known_live st existing values Hex) as Hknown.
  set (newSigs := newSigsOf _ existing values) in Hrun.
  destruct (live_hash st (Service.computeSignatureHash v)) eqn:Hlive.
  { (* the hash was there before; rows only grow *)
    destruct (0 <? Go.len' newSigs)%Z.
    - unfold Repo.BatchCreate in Hrun.
      destruct (Go.len' newSigs =? 0)%Z.
      + cbn in Hrun. injection Hrun as _ <-. now rewrite live_hash_roundtrip.
      + destruct (Repo.roundtrip (snd (Repo.roundtrip st))) as [[e |] st''] eqn:Hrt2;
          cbn in Hrun; [discriminate |].
        destruct (Repo.insertable _ newSigs); cbn in Hrun; [| discriminate].
        injection Hrun as _ <-. rewrite live_hash_app.
        pose proof (live_hash_roundtrip (snd (Repo.roundtrip st))
                      (Service.computeSignatureHash v)) as H2.
        rewrite Hrt2 in H2. cbn in H2. now rewrite H2, live_hash_roundtrip, Hlive.
    - injection Hrun as _ <-. now rewrite live_hash_roundtrip. }
  (* the hash was not there: the value is among the new signatures *)
  assert (HinN : In (mkSig model (effective_source defaultSource source) account v
                       (Service.computeSignatureHash v)) newSigs).
  { unfold newSigs, newSigsOf.
    apply (in_map (fun v => mkSig _ _ _ v (Service.computeSignatureHash v))).
    apply List.filter_In. split; [exact Hin |]. now rewrite (Hknown v Hin), Hlive. }
  assert (Hpos : (0 <? Go.len' newSigs)%Z = true).
  { destruct newSigs; [destruct HinN |]. unfold Go.len'. cbn [length]. apply Z.ltb_lt. lia. }
  rewrite Hpos in Hrun. unfold Repo.BatchCreate in Hrun.
  destruct (Go.len' newSigs =? 0)%Z eqn:Hz; [apply Z.ltb_lt in Hpos; apply Z.eqb_eq in Hz; lia |].
  destruct (Repo.roundtrip (snd (Repo.roundtrip st))) as [[e |] st''] eqn:Hrt2;
    cbn in Hrun; [discriminate |].
  destruct (Repo.insertable _ newSigs); cbn in Hrun; [| discriminate].
  injection Hrun as _ <-. rewrite live_hash_app.
  apply orb_true_iff. right. apply existsb_exists.
  destruct (createBulk_hashes st'' (Repo.next_id st'') newSigs) as (Hhs & Hlv & _).
  assert (Hm : In (Service.computeSignatureHash v)
                  (map (fun r => Hash (Repo.sig r)) (Repo.createBulk st'' (Repo.next_id st'') newSigs))).
  { rewrite Hhs. apply (in_map Hash) in HinN. exact HinN. }
  apply in_map_iff in Hm as (r & Hr & Hinr). exists r. split; [exact Hinr |].
  rewrite Hr, String.eqb_refl. cbn [andb].
  rewrite forallb_forall in Hlv. now apply Hlv.
Qed.

(** C8: after a [BatchImport(V)] that returned a nil error, a second
    [BatchImport(V)] makes no call to [BatchCreate]; when the backend answers
    its existence query it returns total = |V|, imported = 0,
    duplicated = |V|, failed = 0 and a nil error, and leaves the rows as they
    are. *)
Theorem BatchImport_twice (V : list string) (model model' : option string)
    (source source' : string) (st st1 : Repo.Store) (r1 : option BatchImportResult) :
  run Repo.handle (Service.BatchImport V model source) st = ((r1, None), st1) ->
  batchcreate_calls (trace Repo.handle (Service.BatchImport V model' source') st1) = []
  /\ (fst (Repo.roundtrip st1) = None ->
      exists st2,
        run Repo.handle (Service.BatchImport V model' source') st1
        = ((Some (result (Go.len' V) 0 (Go.len' V) 0), None), st2)
        /\ Repo.rows st2 = Repo.rows st1).
Proof.
  intros Hrun. unfold Service.BatchImport in *.
  destruct V as [| v0 V0] eqn:EV.
  { cbn. split; [reflexivity |]. intros _. exists st1. split; reflexivity. }
  rewrite <- EV in *.
  assert (Hne : V <> []) by (rewrite EV; discriminate).
  pose proof (batchImport_success_live _ _ _ _ _ _ _ _ Hrun) as Hlive.
  destruct (run_batchImport Repo.handle st1 "imported" None V model' source' Hne)
    as [Heq Hcalls].
  cbv zeta in Heq, Hcalls. rewrite Heq, Hcalls. clear Heq Hcalls.
  cbn [Repo.handle].
  assert (Hh : Service.hashesOf V <> []) by (rewrite EV; discriminate).
  destruct (fst (Repo.roundtrip st1)) as [e |] eqn:Hrt.
  { unfold Repo.ExistsByHashes.
    destruct (Go.len' (Service.hashesOf V) =? 0)%Z eqn:Hl;
      [apply len'_zero in Hl; contradiction |].
    destruct (Repo.roundtrip st1) as [f st']. cbn in Hrt. subst f. cbn.
    split; [reflexivity | discriminate]. }
  destruct (ExistsByHashes_answer st1 _ Hh Hrt) as (existing & HE & Hex).
  rewrite HE. cbn [fst snd notnil].
  pose proof (known_live st1 existing V Hex) as Hknown.
  assert (Hall : forall v, In v V -> known existing v = true)
    by (intros v Hin; rewrite (Hknown v Hin); now apply Hlive).
  destruct (filter_all (known existing) V Hall) as [Hf Hnf].
  unfold newSigsOf. rewrite Hf, Hnf. cbn [map Go.len' length Z.of_nat Z.ltb Z.compare].
  split; [reflexivity |]. intros _. eexists. split; [reflexivity |].
  apply roundtrip_rows.
Qed.

Lemma filter_partition_length {A} (p : A -> bool) (l : list A) :
  Go.len' (List.filter p l) + Go.len' (List.filter (fun x => negb (p x)) l) = Go.len' l.
Proof.
  unfold Go.len'. induction l as [| x l IH]; cbn [List.filter]; [reflexivity |].
  destruct (p x); cbn [negb length]; lia.
Qed.

(** C9: [BatchImport] does not deduplicate within a batch.  When the batch
    holds a value twice and the existence query answers that its hash is not
    there, neither occurrence is counted as duplicated (the count is that of
    the values whose hash is there) and both are in the one slice handed to
    [BatchCreate]; when [BatchCreate] fails the result has imported = 0 and
    failed = the length of that slice.  On the table, whose hash column is
    unique, such a batch always ends in that failure and inserts nothing. *)
Theorem in_batch_duplicates_reach_BatchCreate (l1 l2 l3 : list string) (v : string)
    (model : option string) (source : string) :
  let values := (l1 ++ v :: l2 ++ v :: l3)%list in
  let mk := mkSig model (effective_source "imported" source) None in
  let sg := mk v (Service.computeSignatureHash v) in
  (forall W (h : handler RepoE W) (w : W),
     let ans := fst (h _ (repo_ExistsByHashes (Service.hashesOf values)) w) in
     let newSigs := newSigsOf mk (fst ans) values in
     snd ans = None ->
     known (fst ans) v = false ->
     (exists a b c, newSigs = (a ++ sg :: b ++ sg :: c)%list)
     /\ batchcreate_calls (trace h (Service.BatchImport values model source) w) = [newSigs]
     /\ exists res err,
          fst (run h (Service.BatchImport values model source) w) = (Some res, err)
          /\ Total res = Go.len' values
          /\ Duplicated res = Go.len' (List.filter (known (fst ans)) values)
          /\ Duplicated res + Go.len' newSigs = Go.len' values
          /\ (err <> None -> Imported res = 0 /\ Failed res = Go.len' newSigs))
  /\ (forall st : Repo.Store,
        fst (Repo.roundtrip st) = None ->
        live_hash st (Service.computeSignatureHash v) = false ->
        exists res err st',
          run Repo.handle (Service.BatchImport values model source) st
          = ((Some res, Some err), st')
          /\ Imported res = 0
          /\ Failed res = Go.len' values - Duplicated res
          /\ 2 <= Failed res
          /\ Repo.rows st' = Repo.rows st).
Proof.
  cbv zeta.
  assert (Hne : (l1 ++ v :: l2 ++ v :: l3)%list <> []) by (destruct l1; discriminate).
  assert (Hsplit : forall existing, known existing v = false ->
            newSigsOf (mkSig model (effective_source "imported" source) None) existing
              (l1 ++ v :: l2 ++ v :: l3)
            = (newSigsOf (mkSig model (effective_source "imported" source) None) existing l1
               ++ mkSig model (effective_source "imported" source) None v
                    (Service.computeSignatureHash v)
               :: newSigsOf (mkSig model (effective_source "imported" source) None) existing l2
               ++ mkSig model (effective_source "imported" source) None v
                    (Service.computeSignatureHash v)
               :: newSigsOf (mkSig model (effective_source "imported" source) None) existing l3)%list).
  { intros existing Hk. unfold newSigsOf.
    rewrite List.filter_app. cbn [List.filter]. rewrite Hk. cbn [negb].
    rewrite List.filter_app. cbn [List.filter]. rewrite Hk. cbn [negb].
    rewrite map_app. cbn [map]. rewrite map_app. reflexivity. }
  split.
  - intros W h w Herr Hk.
    destruct (run_batchImport h w "imported" None _ model source Hne) as [Heq Hcalls].
    cbv zeta in Heq, Hcalls. unfold Service.BatchImport. rewrite Heq, Hcalls. clear Heq Hcalls.
    destruct (h _ (repo_ExistsByHashes _) w) as [[existing err] w1]. cbn [fst snd] in *.
    subst err. cbn [notnil].
    pose proof (Hsplit existing Hk) as Hs.
    set (newSigs := newSigsOf _ existing _) in *.
    assert (Hpos : (0 <? Go.len' newSigs)%Z = true).
    { rewrite Hs. unfold Go.len'. rewrite length_app. cbn [length]. apply Z.ltb_lt. lia. }
    rewrite Hpos. split; [eauto |]. split; [reflexivity |].
    pose proof (filter_partition_length (known existing) (l1 ++ v :: l2 ++ v :: l3)) as Hpart.
    assert (Hlm : Go.len' newSigs
                  = Go.len' (List.filter (fun x => negb (known existing x))
                               (l1 ++ v :: l2 ++ v :: l3)))
      by (unfold newSigs, newSigsOf, Go.len'; now rewrite length_map).
    destruct (h _ (repo_BatchCreate newSigs) w1) as [[imported err2] w2]. cbn [fst snd].
    destruct err2 as [e |]; cbn [notnil fst].
    + eexists _, _. split; [reflexivity |]. cbn. repeat split; try easy; lia.
    + eexists _, _. split; [reflexivity |]. cbn. repeat split; try easy; lia.
  - intros st Hrt Hlive.
    destruct (run_batchImport Repo.handle st "imported" None _ model source Hne) as [Heq _].
    cbv zeta in Heq. unfold Service.BatchImport. rewrite Heq. clear Heq.
    cbn [Repo.handle].
    assert (Hh : Service.hashesOf (l1 ++ v :: l2 ++ v :: l3) <> [])
      by (destruct l1; discriminate).
    destruct (ExistsByHashes_answer st _ Hh Hrt) as (existing & HE & Hex).
    rewrite HE. cbn [fst snd notnil].
    pose proof (known_live st existing _ Hex) as Hknown.
    assert (Hk : known existing v = false).
    { rewrite (Hknown v); [exact Hlive |]. apply in_or_app. right. now left. }
    pose proof (Hsplit existing Hk) as Hs.
    pose proof (filter_partition_length (known existing) (l1 ++ v :: l2 ++ v :: l3)) as Hpart.
    set (newSigs := newSigsOf _ existing _) in *.
    assert (Hlm : Go.len' newSigs
                  = Go.len' (List.filter (fun x => negb (known existing x))
                               (l1 ++ v :: l2 ++ v :: l3)))
      by (unfold newSigs, newSigsOf, Go.len'; now rewrite length_map).
    assert (Hlen : 2 <= Go.len' newSigs).
    { rewrite Hs. unfold Go.len'. rewrite length_app. cbn [length].
      rewrite length_app. cbn [length]. lia. }
    assert (Hpos : (0 <? Go.len' newSigs)%Z = true) by (apply Z.ltb_lt; lia).
    rewrite Hpos. unfold Repo.BatchCreate.
    destruct (Go.len' newSigs =? 0)%Z eqn:Hz; [apply Z.eqb_eq in Hz; lia |].
    pose proof (roundtrip_rows st) as [Hr1 _].
    pose proof (roundtrip_rows (snd (Repo.roundtrip st))) as [Hr2 _].
    destruct (Repo.roundtrip (snd (Repo.roundtrip st))) as [[e |] st''];
      cbn [fst snd notnil] in *.
    + eexists _, _, _. split; [reflexivity |]. cbn.
      repeat split; try lia. congruence.
    + match goal with
      | |- context [Repo.insertable ?p newSigs] =>
        replace (Repo.insertable p newSigs) with false
          by (rewrite Hs; symmetry; apply insertable_duplicate; reflexivity)
      end.
      cbn [fst snd notnil].
      eexists _, _, _. split; [reflexivity |]. cbn.
      repeat split; try lia. congruence.
Qed.

(** The shape of a digest *)

Lemma round_length (st : list Z) (kw : Z * Z) :
  length (Sha256.round st kw) = length st.
Proof.
  unfold Sha256.round.
  destruct st as [| a [| b [| c [| d [| e [| f [| g [| h [| i st]]]]]]]]]; reflexivity.
Qed.

Lemma foldl_round_length (kws : list (Z * Z)) (st : list Z) :
  length (foldl Sha256.round st kws) = length st.
Proof.
  revert st. induction kws as [| kw kws IH]; intros st; cbn [foldl]; [reflexivity |].
  now rewrite IH, round_length.
Qed.

Lemma blocks_length (n : nat) (st bs : list Z) :
  length (Sha256.blocks n st bs) = length st.
Proof.
  revert st bs. induction n as [| n IH]; intros st bs; cbn [Sha256.blocks]; [reflexivity |].
  destruct bs as [| b bs]; [reflexivity |].
  rewrite IH. unfold Sha256.block.
  rewrite length_zip_with, foldl_round_length. apply Nat.min_id.
Qed.

Lemma be_bytes_spec (n : nat) (x : Z) :
  length (Sha256.be_bytes n x) = n
  /\ Forall (fun b => 0 <= b < 256) (Sha256.be_bytes n x).
Proof.
  induction n as [| n [IHl IHf]]; cbn [Sha256.be_bytes]; [split; [reflexivity | constructor] |].
  split; [cbn [length]; now rewrite IHl |].
  constructor; [apply Z.mod_pos_bound; lia | exact IHf].
Qed.

Lemma Sum256_spec (s : string) :
  length (Sha256.Sum256 s) = 32%nat
  /\ Forall (fun b => 0 <= b < 256) (Sha256.Sum256 s).
Proof.
  unfold Sha256.Sum256. split.
  - rewrite (flat_map_constant_length (c := 4)).
    + now rewrite blocks_length.
    + intros x _. apply be_bytes_spec.
  - apply Forall_flat_map. apply List.Forall_forall. intros x _. apply be_bytes_spec.
Qed.

Lemma hexdigit_lower_hex (n : Z) :
  0 <= n < 16 -> is_lower_hex (Go.hexdigit n) = true.
Proof.
  intros Hn. rewrite <- (Z2Nat.id n) by lia.
  assert (Hk : (Z.to_nat n < 16)%nat) by lia.
  generalize dependent (Z.to_nat n). clear Hn. intros k Hk.
  do 16 (destruct k as [| k]; [vm_compute; reflexivity |]). lia.
Qed.

Lemma EncodeToString_spec (bs : list Z) :
  Forall (fun b => 0 <= b < 256) bs ->
  String.length (Hex.EncodeToString bs) = (2 * length bs)%nat
  /\ forallb is_lower_hex (list_ascii_of_string (Hex.EncodeToString bs)) = true.
Proof.
  induction 1 as [| b bs Hb _ [IHl IHf]]; cbn [Hex.EncodeToString]; [split; reflexivity |].
  split.
  - cbn [String.length length]. rewrite IHl. lia.
  - cbn [list_ascii_of_string forallb]. rewrite IHf, !hexdigit_lower_hex; [reflexivity | |].
    + apply Z.mod_pos_bound. lia.
    + split; [apply Z.div_pos; lia | apply Z.div_lt_upper_bound; lia].
Qed.



Lemma ExistsByHash_answer (st : Repo.Store) (hash : string) :
  fst (Repo.roundtrip st) = None ->
  Repo.ExistsByHash st hash = ((live_hash st hash, None), snd (Repo.roundtrip st)).
Proof.
  intros Hrt. unfold Repo.ExistsByHash. rewrite <- (live_hash_roundtrip st hash).
  destruct (Repo.roundtrip st) as [f st']. cbn in *. now subst f.
Qed.




(** Importing S1 and Y twice into the store that holds S1: the second run
    imports nothing and counts both values as duplicated. *)
Lemma BatchImport_twice_witness :
  exists st2,
    run Repo.handle (Service.BatchImport ["S1"; "Y"] None EmptyString)
        (snd (run Repo.handle (Service.BatchImport ["S1"; "Y"] None EmptyString)
                  (Example.store_S1 [])))
    = ((Some (result 2 0 2 0), None), st2).
Proof.
  destruct (BatchImport_twice ["S1"; "Y"] None None EmptyString EmptyString
              (Example.store_S1 [])
              (snd (run Repo.handle (Service.BatchImport ["S1"; "Y"] None EmptyString)
                        (Example.store_S1 [])))
              (fst (fst (run Repo.handle (Service.BatchImport ["S1"; "Y"] None EmptyString)
                             (Example.store_S1 [])))))
    as [_ Hres].
  - vm_compute. reflexivity.
  - destruct Hres as (st2 & Hrun & _); [vm_compute; reflexivity |].
    exists st2. exact Hrun.
Defined.

(** Scenario 5 of the specification on this code: S1 is in the store, Y is
    twice in the batch; both Y reach [BatchCreate], the unique constraint
    rejects the batch and nothing is imported. *)
Lemma in_batch_duplicates_reach_BatchCreate_witness :
  exists res err st',
    run Repo.handle (Service.BatchImport ["S1"; "Y"; "Y"] None EmptyString)
        (Example.store_S1 [])
    = ((Some res, Some err), st')
    /\ Imported res = 0
    /\ Failed res = 3 - Duplicated res
    /\ 2 <= Failed res
    /\ Repo.rows st' = Repo.rows (Example.store_S1 []).
Proof.
  apply (proj2 (in_batch_duplicates_reach_BatchCreate ["S1"] [] [] "Y" None EmptyString)
           (Example.store_S1 [])).
  - reflexivity.
  - vm_compute. reflexivity.
Defined.

(** The outcome of scenario 5, evaluated: total 3, imported 0, duplicated 1,
    failed 2, and the error of the constraint. *)
Example scenario5_outcome :
  fst (run Repo.handle (Service.BatchImport ["S1"; "Y"; "Y"] None EmptyString)
           (Example.store_S1 []))
  = (Some (result 3 0 1 2), Some Repo.constraint_violation).
Proof. vm_compute. reflexivity. Qed.

Example sha256_abc :
  Service.computeSignatureHash "abc"
  = "ba7816bf8f01cfea414140de5dae2223b00361a396177a9cb410ff61f20015ad".
Proof. vm_compute. reflexivity. Qed.

Example sha256_empty :
  Service.computeSignatureHash EmptyString
  = "e3b0c44298fc1c149afbf4c8996fb92427ae41e4649b934ca495991b7852b855".
Proof. vm_compute. reflexivity. Qed.

(** ** Streams of lines *)

(** One line keeps a tracked block tracked, unless it starts the block
    anew, and sets its flag exactly when it is a signature_delta at the
    index of the block. *)
Lemma ProcessSSELine_flag (J : Stream.JSONLib) {W} (h : handler Stream.StreamE W)
    (s : Stream.SignatureStreamState) (line : string) (w : W) (i : Z)
    (block : Stream.ThinkingBlockState) :
  Stream.thinkingBlocks s !! i = Some block ->
  is_thinking_start J i line = false ->
  exists block',
    Stream.thinkingBlocks (snd (fst (run h (Stream.ProcessSSELine J s line) w))) !! i
    = Some block'
    /\ Stream.HasSignatureDelta block'
       = Stream.HasSignatureDelta block || is_signature_delta J i line.
Proof.
  intros Hb Hst. unfold is_thinking_start, is_signature_delta in *.
  destruct (event_of J line) as [ev |] eqn:Hev.
  2:{ rewrite (ProcessSSELine_no_event _ _ _ Hev). cbn.
      exists block. now rewrite orb_false_r. }
  rewrite (ProcessSSELine_event _ _ _ _ Hev).
  destruct (String.eqb_spec (Stream.Type_ ev) "content_block_start") as [Hs | Hs].
  { rewrite Hs in *.
    change (String.eqb "content_block_start" "content_block_delta") with false.
    cbn [andb]. rewrite orb_false_r.
    unfold Stream.handleContentBlockStart.
    destruct (Stream.Unmarshal_contentBlock J (Stream.ContentBlock ev)) as [cb |];
      [| cbn; eauto].
    destruct (String.eqb (Stream.cb_Type cb) "thinking"); cbn [negb]; [| cbn; eauto].
    cbn [andb] in Hst. rewrite andb_true_r in Hst. apply Z.eqb_neq in Hst.
    cbn. rewrite lookup_insert_ne by exact Hst. eauto. }
  destruct (String.eqb_spec (Stream.Type_ ev) "content_block_delta") as [Hd | Hd].
  { cbn [andb]. rewrite run_bind.
    destruct (Stream.Unmarshal_delta J (Stream.Delta ev)) as [d |] eqn:Hud.
    2:{ unfold Stream.handleContentBlockDelta. rewrite Hud. cbn.
        exists block. now rewrite andb_false_r, orb_false_r. }
    destruct (String.eqb_spec (Stream.d_Type d) "signature_delta") as [Hsd | Hsd].
    2:{ unfold Stream.handleContentBlockDelta. rewrite Hud.
        destruct (String.eqb_spec (Stream.d_Type d) "signature_delta"); [contradiction |].
        cbn. exists block. now rewrite andb_false_r, orb_false_r. }
    destruct (run_handleContentBlockDelta J h s line (Regexp.ReplaceAllString line)
                (Stream.Index ev) (Stream.Delta ev) d w Hud Hsd) as (Hrun & _ & _).
    cbv zeta in Hrun. rewrite Hrun. cbn [fst snd run]. rewrite andb_true_r.
    unfold delta_state.
    destruct (Z.eqb_spec (Stream.Index ev) i) as [-> | Hne].
    - rewrite Hb. cbn. rewrite lookup_insert_eq. eexists. split; [reflexivity |].
      cbn. now rewrite orb_true_r.
    - rewrite orb_false_r.
      destruct (Stream.thinkingBlocks s !! Stream.Index ev); [| eauto].
      cbn. rewrite lookup_insert_ne by exact Hne. eauto. }
  cbn [andb]. rewrite orb_false_r.
  destruct (String.eqb (Stream.Type_ ev) "content_block_stop"); [| cbn; eauto].
  rewrite run_bind.
  destruct (Stream.thinkingBlocks s !! Stream.Index ev) as [b0 |] eqn:Hb0.
  2:{ unfold Stream.handleContentBlockStop. rewrite Hb0. cbn. eauto. }
  destruct (run_handleContentBlockStop h s line _ w b0 Hb0) as [Hrun _].
  cbv zeta in Hrun. rewrite Hrun. cbn [fst snd run].
  destruct (Z.eq_dec (Stream.Index ev) i) as [Heq | Hne].
  - rewrite Heq in *. cbn. rewrite lookup_insert_eq. eexists. split; [reflexivity |].
    cbn. congruence.
  - cbn. rewrite lookup_insert_ne by exact Hne. eauto.
Qed.

(** Over a run of lines that do not start the block at [i] anew, the flag of
    the block is set at the end exactly when it was set before or one of the
    lines is a signature_delta at [i]: [HasSignatureDelta] is false exactly
    when no signature_delta was received for the block. *)
Lemma feed_flag (J : Stream.JSONLib) {W} (h : handler Stream.StreamE W)
    (lines : list string) (i : Z) :
  forallb (fun l => negb (is_thinking_start J i l)) lines = true ->
  forall (s : Stream.SignatureStreamState) (w : W) (block : Stream.ThinkingBlockState),
    Stream.thinkingBlocks s !! i = Some block ->
    exists block',
      Stream.thinkingBlocks (fst (run h (feed J s lines) w)) !! i = Some block'
      /\ Stream.HasSignatureDelta block'
         = Stream.HasSignatureDelta block || existsb (is_signature_delta J i) lines.
Proof.
  induction lines as [| line rest IH]; intros Hall s w block Hb.
  - cbn. exists block. now rewrite orb_false_r.
  - cbn [forallb] in Hall. apply andb_true_iff in Hall as [Hl Hrest].
    apply negb_true_iff in Hl.
    destruct (ProcessSSELine_flag J h s line w i block Hb Hl) as (b1 & Hb1 & Hf1).
    cbn [feed]. rewrite run_bind.
    destruct (run h (Stream.ProcessSSELine J s line) w) as [[[[out extra] err] s1] w1].
    cbn [fst snd] in *.
    destruct (IH Hrest s1 w1 b1 Hb1) as (b2 & Hb2 & Hf2).
    exists b2. split; [exact Hb2 |]. rewrite Hf2, Hf1. cbn [existsb].
    now rewrite orb_assoc.
Qed.

(** ** The table and soft deletes *)

(** A soft delete keeps the row, so the hash stays taken in the table: the
    existence check of [Create] no longer sees the signature, and the insert
    is refused by the unique constraint. *)
Example create_after_soft_delete :
  fst (run Repo.handle (Service.Create "S1" None None)
           (snd (Repo.Delete (Example.store_S1 []) 1)))
  = (None, Some Repo.constraint_violation).
Proof. vm_compute. reflexivity. Qed.

(** Scenario 2 of the specification: under always_replace the signature of
    an upstream signature_delta is replaced, the upstream value is handed to
    the collector, and the stop injects nothing. *)
Example scenario2_replace :
  let h := Example.fixed_pool ("SIG-B", None) in
  let r1 := run h (Stream.ProcessSSELine RefJSON.lib (Example.tracked "always_replace")
                     Example.delta0) [] in
  let r2 := run h (Stream.ProcessSSELine RefJSON.lib (snd (fst r1)) Example.stop0) (snd r1) in
  fst (fst (fst r1))
  = (Go.dq "data: {'type':'content_block_delta','index':0,'delta':{'type':'signature_delta','signature':'SIG-B'}}",
     [])
  /\ snd r1 = ["UPSTREAM"]
  /\ fst (fst (fst r2)) = (Example.stop0, []).
Proof. vm_compute. repeat split. Qed.

(** Scenario 3 of the specification: with an empty pool under
    always_replace the delta and the stop pass through unchanged. *)
Example scenario3_empty_pool :
  let h := Example.fixed_pool (EmptyString, Some ErrSignaturePoolEmpty) in
  let r0 := run h (Stream.ProcessSSELine RefJSON.lib (Example.tracked "always_replace")
                     Example.stop0) [] in
  let r1 := run h (Stream.ProcessSSELine RefJSON.lib (Example.tracked "always_replace")
                     Example.delta0) [] in
  fst (fst (fst r0)) = (Example.stop0, [])
  /\ fst (fst (fst r1)) = (Example.delta0, []).
Proof. vm_compute. repeat split. Qed.

(** * More properties of the code *)

(** ** The stream processor, line by line *)

(** What one line does, whatever the line: the state keeps its
    configuration, collector and account, and every tracked index stays
    tracked. *)
Lemma ProcessSSELine_frame (J : Stream.JSONLib) {W} (h : handler Stream.StreamE W)
    (s : Stream.SignatureStreamState) (line : string) (w : W) :
  let s' := snd (fst (run h (Stream.ProcessSSELine J s line) w)) in
  Stream.config s' = Stream.config s
  /\ Stream.collector s' = Stream.collector s
  /\ Stream.accountID s' = Stream.accountID s
  /\ (forall i, is_Some (Stream.thinkingBlocks s !! i) ->
                is_Some (Stream.thinkingBlocks s' !! i)).
Proof.
  cbv zeta.
  destruct (event_of J line) as [ev |] eqn:Hev.
  2:{ rewrite (ProcessSSELine_no_event _ _ _ Hev). cbn. repeat split; auto. }
  rewrite (ProcessSSELine_event _ _ _ _ Hev).
  assert (Hins : forall i j b (m : gmap Z Stream.ThinkingBlockState),
             is_Some (m !! i) -> is_Some (<[j := b]> m !! i)).
  { intros i j b m Hi. destruct (decide (j = i)) as [-> | Hne].
    - rewrite lookup_insert_eq. eauto.
    - now rewrite lookup_insert_ne. }
  destruct (String.eqb (Stream.Type_ ev) "content_block_start").
  { unfold Stream.handleContentBlockStart.
    destruct (Stream.Unmarshal_contentBlock J (Stream.ContentBlock ev)) as [cb |];
      [| cbn; repeat split; auto].
    destruct (negb (String.eqb (Stream.cb_Type cb) "thinking")); cbn; repeat split; auto. }
  destruct (String.eqb (Stream.Type_ ev) "content_block_delta").
  { rewrite run_bind.
    destruct (Stream.Unmarshal_delta J (Stream.Delta ev)) as [d |] eqn:Hud.
    2:{ unfold Stream.handleContentBlockDelta. rewrite Hud. cbn. repeat split; auto. }
    destruct (String.eqb_spec (Stream.d_Type d) "signature_delta") as [Hsd | Hsd].
    2:{ unfold Stream.handleContentBlockDelta. rewrite Hud.
        destruct (String.eqb_spec (Stream.d_Type d) "signature_delta"); [contradiction |].
        cbn. repeat split; auto. }
    destruct (run_handleContentBlockDelta J h s line (Regexp.ReplaceAllString line)
                (Stream.Index ev) (Stream.Delta ev) d w Hud Hsd) as (Hrun & _ & _).
    cbv zeta in Hrun. rewrite Hrun. cbn [fst snd run]. unfold delta_state.
    destruct (Stream.thinkingBlocks s !! Stream.Index ev); cbn; repeat split; auto. }
  destruct (String.eqb (Stream.Type_ ev) "content_block_stop"); [| cbn; repeat split; auto].
  rewrite run_bind.
  destruct (Stream.thinkingBlocks s !! Stream.Index ev) as [b0 |] eqn:Hb0.
  2:{ unfold Stream.handleContentBlockStop. rewrite Hb0. cbn. repeat split; auto. }
  destruct (run_handleContentBlockStop h s line _ w b0 Hb0) as [Hrun _].
  cbv zeta in Hrun. rewrite Hrun. cbn. repeat split; auto.
Qed.

(** Every return of [ProcessSSELine] carries a nil error. *)
Lemma ProcessSSELine_nil_error (J : Stream.JSONLib) {W}
    (h : handler Stream.StreamE W) (s : Stream.SignatureStreamState)
    (line : string) (w : W) :
  exists out extra s',
    fst (run h (Stream.ProcessSSELine J s line) w) = (out, extra, None, s').
Proof.
  unfold Stream.ProcessSSELine.
  destruct (negb (Regexp.MatchString line)); [cbn; eauto |].
  destruct (_ || _); [cbn; eauto |].
  destruct (Stream.Unmarshal_event J _) as [ev |]; [| cbn; eauto].
  destruct (String.eqb (Stream.Type_ ev) "content_block_start").
  { destruct (Stream.handleContentBlockStart _ _ _ _ _ _). cbn. eauto. }
  destruct (String.eqb (Stream.Type_ ev) "content_block_delta").
  { rewrite run_bind. destruct (run h (Stream.handleContentBlockDelta _ _ _ _ _ _) w)
      as [[l s'] w']. cbn. eauto. }
  destruct (String.eqb (Stream.Type_ ev) "content_block_stop"); [| cbn; eauto].
  rewrite run_bind. destruct (run h (Stream.handleContentBlockStop _ _ _) w)
    as [[[l ex] s'] w']. cbn. eauto.
Qed.

(** The three shapes of what one line gives: nothing changed and the pool
    not asked; a signature_delta rewritten under always_replace; a stop of a
    tracked block without signature under an injecting strategy. *)
Lemma ProcessSSELine_outcome (J : Stream.JSONLib) {W} (h : handler Stream.StreamE W)
    (s : Stream.SignatureStreamState) (line : string) (w : W) :
  let out := fst (fst (fst (fst (run h (Stream.ProcessSSELine J s line) w)))) in
  let extra := snd (fst (fst (fst (run h (Stream.ProcessSSELine J s line) w)))) in
  let asked := pool_answers (trace h (Stream.ProcessSSELine J s line) w) in
  (out = line /\ extra = [] /\ asked = [])
  \/ (carries_signature_delta J line
      /\ Strategy (Stream.config s) = "always_replace"
      /\ exists a, asked = [a] /\ out = replaced J line a /\ extra = [])
  \/ (exists ev block a,
        event_of J line = Some ev
        /\ Stream.Type_ ev = "content_block_stop"
        /\ Stream.thinkingBlocks s !! Stream.Index ev = Some block
        /\ Stream.HasSignatureDelta block = false
        /\ strategy_injects (Strategy (Stream.config s)) = true
        /\ asked = [a] /\ out = line
        /\ extra = if yields a then [synthetic_line (Stream.Index ev) (fst a)] else []).
Proof.
  cbv zeta.
  destruct (event_of J line) as [ev |] eqn:Hev.
  2:{ rewrite (ProcessSSELine_no_event _ _ _ Hev). cbn. left. repeat split. }
  rewrite (ProcessSSELine_event _ _ _ _ Hev).
  destruct (String.eqb_spec (Stream.Type_ ev) "content_block_start") as [Hs | Hs].
  { pose proof (handleContentBlockStart_line J s line (Regexp.ReplaceAllString line)
                  (Stream.Index ev) (Stream.ContentBlock ev)) as Hl.
    destruct (Stream.handleContentBlockStart _ _ _ _ _ _) as [l s']. cbn in *. subst l.
    left. repeat split. }
  destruct (String.eqb_spec (Stream.Type_ ev) "content_block_delta") as [Hd | Hd].
  { destruct (Stream.Unmarshal_delta J (Stream.Delta ev)) as [d |] eqn:Hud.
    2:{ unfold Stream.handleContentBlockDelta. rewrite Hud. cbn. left. repeat split. }
    destruct (String.eqb_spec (Stream.d_Type d) "signature_delta") as [Hsd | Hsd].
    2:{ unfold Stream.handleContentBlockDelta. rewrite Hud.
        destruct (String.eqb_spec (Stream.d_Type d) "signature_delta"); [contradiction |].
        cbn. left. repeat split. }
    rewrite run_bind, trace_bind.
    destruct (run_handleContentBlockDelta J h s line (Regexp.ReplaceAllString line)
                (Stream.Index ev) (Stream.Delta ev) d w Hud Hsd) as (Hrun & Hpa & _).
    cbv zeta in Hrun, Hpa. rewrite Hrun. cbn [fst snd run].
    unfold pool_answers in *. rewrite omap_app, Hpa. cbn [trace omap app]. rewrite app_nil_r.
    destruct (String.eqb_spec (Strategy (Stream.config s)) "always_replace") as [Har | Har].
    - right. left. split; [exists ev, d; auto |]. split; [exact Har |].
      eexists. repeat split.
    - left. repeat split. }
  destruct (String.eqb_spec (Stream.Type_ ev) "content_block_stop") as [Hp | Hp].
  2:{ cbn. left. repeat split. }
  destruct (Stream.thinkingBlocks s !! Stream.Index ev) as [block |] eqn:Hb.
  2:{ unfold Stream.handleContentBlockStop. rewrite Hb. cbn. left. repeat split. }
  rewrite run_bind, trace_bind.
  destruct (run_handleContentBlockStop h s line _ w block Hb) as [Hrun Hpa].
  cbv zeta in Hrun, Hpa. rewrite Hrun. cbn [fst snd run].
  unfold pool_answers in *. rewrite omap_app, Hpa. cbn [trace omap app]. rewrite app_nil_r.
  destruct (strategy_injects (Strategy (Stream.config s))) eqn:Hinj; cbn [andb];
    [| left; repeat split].
  destruct (Stream.HasSignatureDelta block) eqn:Hhsd; cbn [negb andb];
    [left; repeat split |].
  right. right. exists ev, block, (pool_answer h s w). repeat split; auto.
Qed.

(** ** The stop of a block, over a stream *)

Lemma feed_app (J : Stream.JSONLib) {W} (h : handler Stream.StreamE W)
    (l1 l2 : list string) :
  forall (s : Stream.SignatureStreamState) (w : W),
    run h (feed J s (l1 ++ l2)) w
    = run h (feed J (fst (run h (feed J s l1) w)) l2) (snd (run h (feed J s l1) w)).
Proof.
  induction l1 as [| line rest IH]; intros s w; cbn [app feed]; [reflexivity |].
  rewrite !run_bind.
  destruct (run h (Stream.ProcessSSELine J s line) w) as [[[[out extra] err] s1] w1].
  cbn [fst snd]. apply IH.
Qed.

Lemma feed_config (J : Stream.JSONLib) {W} (h : handler Stream.StreamE W)
    (lines : list string) :
  forall (s : Stream.SignatureStreamState) (w : W),
    Stream.config (fst (run h (feed J s lines) w)) = Stream.config s.
Proof.
  induction lines as [| line rest IH]; intros s w; cbn [feed]; [reflexivity |].
  rewrite run_bind.
  pose proof (ProcessSSELine_frame J h s line w) as (Hc & _).
  destruct (run h (Stream.ProcessSSELine J s line) w) as [[[[out extra] err] s1] w1].
  cbn [fst snd] in *. now rewrite IH.
Qed.

(** C1, as amended: for every stream of lines, fed to [ProcessSSELine] one
    after the other from any state, in which a thinking content_block_start
    for the index [i] is followed, with no other thinking start for [i] in
    between, by a content_block_stop for [i]: the stop line is returned
    unchanged with a nil error; under always_replace or fill_missing the
    extra lines are exactly the synthetic signature_delta if and only if no
    signature_delta for [i] was received since that start and the pool
    yields a signature, and are empty otherwise; under disabled, or when the
    pool yields nothing, they are empty.  The lines before that start do not
    matter: a thinking start for an index that is tracked already starts the
    block anew. *)
Theorem stop_injects_iff_missing (J : Stream.JSONLib) {W} (h : handler Stream.StreamE W)
    (s0 : Stream.SignatureStreamState) (w0 : W)
    (before : list string) (start : string) (since : list string) (line : string)
    (ev : Stream.event) :
  event_of J line = Some ev ->
  Stream.Type_ ev = "content_block_stop" ->
  is_thinking_start J (Stream.Index ev) start = true ->
  forallb (fun l => negb (is_thinking_start J (Stream.Index ev) l)) since = true ->
  let s := fst (run h (feed J s0 (before ++ start :: since)) w0) in
  let w := snd (run h (feed J s0 (before ++ start :: since)) w0) in
  exists extra s',
    fst (run h (Stream.ProcessSSELine J s line) w) = (line, extra, None, s')
    /\ (strategy_injects (Strategy (Stream.config s0)) = true ->
        (extra = [synthetic_line (Stream.Index ev) (fst (pool_answer h s w))]
         <-> existsb (is_signature_delta J (Stream.Index ev)) since = false
             /\ yields (pool_answer h s w) = true)
        /\ (extra = [synthetic_line (Stream.Index ev) (fst (pool_answer h s w))]
            \/ extra = []))
    /\ (Strategy (Stream.config s0) = "disabled" \/ yields (pool_answer h s w) = false ->
        extra = []).
Proof.
  intros Hev Hty Hstart Hsince. cbv zeta.
  pose proof (feed_config J h (before ++ start :: since) s0 w0) as Hcfg.
  rewrite feed_app in *. cbn [feed] in *. rewrite run_bind in *.
  set (sb := fst (run h (feed J s0 before) w0)) in *.
  set (wb := snd (run h (feed J s0 before) w0)) in *.
  unfold is_thinking_start in Hstart.
  destruct (event_of J start) as [ev1 |] eqn:Hev1; [| discriminate].
  apply andb_prop in Hstart as [Hstart Hcb]. apply andb_prop in Hstart as [Hty1 Hidx].
  apply String.eqb_eq in Hty1. apply Z.eqb_eq in Hidx.
  destruct (Stream.Unmarshal_contentBlock J (Stream.ContentBlock ev1)) as [cb |] eqn:Hucb;
    [| discriminate].
  apply String.eqb_eq in Hcb.
  destruct (thinking_start_tracks J h sb start wb ev1 cb Hev1 Hty1 Hucb Hcb)
    as (s1 & Hrun1 & block1 & Hb1 & Hflag1).
  rewrite Hrun1 in *. cbn [fst snd] in *. rewrite Hidx in Hb1.
  destruct (feed_flag J h since (Stream.Index ev) Hsince s1 wb block1 Hb1)
    as (block & Hb & Hflag).
  rewrite Hflag1 in Hflag. cbn [orb] in Hflag.
  destruct (handleContentBlockStop_on_tracked J h _ line
              (snd (run h (feed J s1 since) wb)) ev block Hev Hty Hb)
    as (extra & s' & Hrun & Hinj & Hoff).
  rewrite Hcfg, Hflag in *.
  exists extra, s'. split; [exact Hrun |]. split; [exact Hinj | exact Hoff].
Qed.

(** Scenario 1 of the specification, up to the order of the keys: under
    fill_missing, a thinking block that stops without a signature gets the
    synthetic line in front of its stop line; when a signature_delta came
    since the start, the stop gets nothing. *)
Lemma stop_injects_iff_missing_witness :
  (exists s',
     fst (run (Example.fixed_pool ("SIG-A", None))
              (Stream.ProcessSSELine RefJSON.lib (Example.tracked "fill_missing")
                 Example.stop0) [])
     = (Example.stop0,
        [Go.dq "data: {'delta':{'signature':'SIG-A','type':'signature_delta'},'index':0,'type':'content_block_delta'}"],
        None, s'))
  /\ (exists s',
        fst (run (Example.fixed_pool ("SIG-A", None))
                 (Stream.ProcessSSELine RefJSON.lib
                    (fst (run (Example.fixed_pool ("SIG-A", None))
                              (feed RefJSON.lib (Example.fresh "fill_missing")
                                    [Example.start0; Example.delta0]) []))
                    Example.stop0)
                 (snd (run (Example.fixed_pool ("SIG-A", None))
                           (feed RefJSON.lib (Example.fresh "fill_missing")
                                 [Example.start0; Example.delta0]) [])))
        = (Example.stop0, [], None, s')).
Proof.
  split.
  - destruct (stop_injects_iff_missing RefJSON.lib (Example.fixed_pool ("SIG-A", None))
                (Example.fresh "fill_missing") [] [] Example.start0 [] Example.stop0
                Example.stop_event)
      as (extra & s' & Hrun & Hinj & _).
    + vm_compute. reflexivity.
    + reflexivity.
    + vm_compute. reflexivity.
    + reflexivity.
    + destruct (Hinj eq_refl) as [[_ Hx] _].
      rewrite (Hx (conj eq_refl eq_refl)) in Hrun.
      exists s'. vm_compute. vm_compute in Hrun. exact Hrun.
  - destruct (stop_injects_iff_missing RefJSON.lib (Example.fixed_pool ("SIG-A", None))
                (Example.fresh "fill_missing") [] [] Example.start0 [Example.delta0]
                Example.stop0 Example.stop_event)
      as (extra & s' & Hrun & Hinj & _).
    + vm_compute. reflexivity.
    + reflexivity.
    + vm_compute. reflexivity.
    + vm_compute. reflexivity.
    + destruct (Hinj eq_refl) as [[Hx _] [He | He]].
      * destruct (Hx He) as [Hnone _]. vm_compute in Hnone. discriminate Hnone.
      * rewrite He in Hrun. exists s'. vm_compute. vm_compute in Hrun. exact Hrun.
Defined.

(** C1, as stated, fails: in the stream start, signature_delta, start, stop
    for the index 0 a signature_delta was received for the block, and yet,
    under fill_missing with a pool that yields SIG-A, the stop gets the
    synthetic line: the second start has started the block anew. *)
Lemma stop_after_restart_counterexample :
  let pool := Example.fixed_pool ("SIG-A", None) in
  let stream := [Example.start0; Example.delta0; Example.start0] in
  let r := run pool (feed RefJSON.lib (Example.fresh "fill_missing") stream) [] in
  is_thinking_start RefJSON.lib 0 Example.start0 = true
  /\ existsb (is_signature_delta RefJSON.lib 0) stream = true
  /\ yields (pool_answer pool (fst r) (snd r)) = true
  /\ fst (fst (fst (run pool (Stream.ProcessSSELine RefJSON.lib (fst r) Example.stop0)
                         (snd r))))
     = (Example.stop0, [synthetic_line 0 "SIG-A"]).
Proof. vm_compute. repeat split. Qed.

(** X1.  Under a strategy that is neither always_replace nor fill_missing
    (disabled, or any other word), every line comes back as it is, with no
    extra line and a nil error, and the pool is never asked. *)
Theorem passive_strategy_is_transparent (J : Stream.JSONLib) {W}
    (h : handler Stream.StreamE W) (s : Stream.SignatureStreamState)
    (line : string) (w : W) :
  strategy_injects (Strategy (Stream.config s)) = false ->
  exists s',
    fst (run h (Stream.ProcessSSELine J s line) w) = (line, [], None, s')
    /\ pool_answers (trace h (Stream.ProcessSSELine J s line) w) = []
    /\ Strategy (Stream.config s') = Strategy (Stream.config s).
Proof.
  intros Hpas.
  destruct (ProcessSSELine_nil_error J h s line w) as (out & extra & s' & Hrun).
  pose proof (ProcessSSELine_frame J h s line w) as (Hcfg & _).
  pose proof (ProcessSSELine_outcome J h s line w) as Hout.
  cbv zeta in Hcfg, Hout. rewrite Hrun in Hcfg, Hout. cbn [fst snd] in Hcfg, Hout.
  exists s'. rewrite Hrun, Hcfg.
  destruct Hout as [(-> & -> & Hpa) | [(_ & Har & _) | (ev & b & a & _ & _ & _ & _ & Hinj & _)]].
  - repeat split. exact Hpa.
  - unfold strategy_injects in Hpas. rewrite Har in Hpas. discriminate Hpas.
  - congruence.
Qed.

Lemma passive_strategy_is_transparent_witness :
  exists s',
    fst (run (Example.fixed_pool ("SIG-A", None))
             (Stream.ProcessSSELine RefJSON.lib (Example.tracked "disabled")
                Example.stop0) [])
    = (Example.stop0, [], None, s').
Proof.
  destruct (passive_strategy_is_transparent RefJSON.lib (Example.fixed_pool ("SIG-A", None))
              (Example.tracked "disabled") Example.stop0 []) as (s' & Hrun & _).
  - reflexivity.
  - exists s'. exact Hrun.
Defined.

(** X2.  A line comes back changed only under always_replace and only when
    it is a content_block_delta of sub-type signature_delta; it is then
    "data: " followed by what [sjson.Set] made of the payload with the
    signature the pool gave, and no extra line goes with it. *)
Theorem only_signature_delta_is_rewritten (J : Stream.JSONLib) {W}
    (h : handler Stream.StreamE W) (s : Stream.SignatureStreamState)
    (line : string) (w : W) :
  fst (fst (fst (fst (run h (Stream.ProcessSSELine J s line) w)))) <> line ->
  Strategy (Stream.config s) = "always_replace"
  /\ carries_signature_delta J line
  /\ snd (fst (fst (fst (run h (Stream.ProcessSSELine J s line) w)))) = []
  /\ exists a newData,
       pool_answers (trace h (Stream.ProcessSSELine J s line) w) = [a]
       /\ yields a = true
       /\ Stream.sjson_Set J (Regexp.ReplaceAllString line) "delta.signature" (fst a)
          = (newData, None)
       /\ fst (fst (fst (fst (run h (Stream.ProcessSSELine J s line) w))))
          = "data: " ++ newData.
Proof.
  intros Hne. pose proof (ProcessSSELine_outcome J h s line w) as Hout. cbv zeta in Hout.
  destruct Hout as [(Ho & _) | [(Hc & Har & a & Hpa & Ho & He) | (ev & b & a & _ & _ & _ & _ & _ & _ & Ho & _)]];
    try contradiction.
  split; [exact Har |]. split; [exact Hc |]. split; [exact He |].
  rewrite Ho in Hne. unfold replaced in Hne, Ho.
  destruct (yields a) eqn:Hy; [| contradiction].
  destruct (Stream.sjson_Set J _ _ (fst a)) as [newData [e |]] eqn:Hset; cbn [notnil] in *;
    [contradiction |].
  exists a, newData. repeat split; assumption.
Qed.

Lemma only_signature_delta_is_rewritten_witness :
  carries_signature_delta RefJSON.lib Example.delta0.
Proof.
  apply (only_signature_delta_is_rewritten RefJSON.lib (Example.fixed_pool ("SIG-B", None))
           (Example.tracked "always_replace") Example.delta0 []).
  vm_compute. discriminate.
Defined.

(** X3.  One line asks the pool at most once and brings at most one extra
    line; an extra line only comes with a content_block_stop, whose own line
    is unchanged. *)
Theorem one_line_one_pool_call (J : Stream.JSONLib) {W}
    (h : handler Stream.StreamE W) (s : Stream.SignatureStreamState)
    (line : string) (w : W) :
  let out := fst (fst (fst (fst (run h (Stream.ProcessSSELine J s line) w)))) in
  let extra := snd (fst (fst (fst (run h (Stream.ProcessSSELine J s line) w)))) in
  (length (pool_answers (trace h (Stream.ProcessSSELine J s line) w)) <= 1)%nat
  /\ (length extra <= 1)%nat
  /\ (extra <> [] ->
      out = line
      /\ exists ev, event_of J line = Some ev /\ Stream.Type_ ev = "content_block_stop").
Proof.
  pose proof (ProcessSSELine_outcome J h s line w) as Hout. cbv zeta in *.
  destruct Hout as [(Ho & He & Hpa) | [(_ & _ & a & Hpa & Ho & He) | (ev & b & a & Hev & Hty & _ & _ & _ & Hpa & Ho & He)]];
    rewrite Hpa, He.
  - split; [cbn; lia |]. split; [cbn; lia |]. intros H. now destruct H.
  - split; [cbn; lia |]. split; [cbn; lia |]. intros H. now destruct H.
  - split; [cbn; lia |]. split; [destruct (yields a); cbn; lia |].
    intros _. split; [exact Ho | eauto].
Qed.

(** X4.  Over any run of lines the processor keeps every block it tracks:
    an index that is tracked stays tracked, so the number of thinking blocks
    never goes down. *)
Theorem tracked_blocks_are_kept (J : Stream.JSONLib) {W}
    (h : handler Stream.StreamE W) (lines : list string)
    (s : Stream.SignatureStreamState) (w : W) :
  let s' := fst (run h (feed J s lines) w) in
  (forall i, is_Some (Stream.thinkingBlocks s !! i) ->
             is_Some (Stream.thinkingBlocks s' !! i))
  /\ StreamStats.GetThinkingBlockCount s <= StreamStats.GetThinkingBlockCount s'.
Proof.
  cbv zeta.
  assert (Hkeep : forall i, is_Some (Stream.thinkingBlocks s !! i) ->
                            is_Some (Stream.thinkingBlocks (fst (run h (feed J s lines) w)) !! i)).
  { revert s w. induction lines as [| line rest IH]; intros s w i Hi; [exact Hi |].
    cbn [feed]. rewrite run_bind.
    pose proof (ProcessSSELine_frame J h s line w) as (_ & _ & _ & Hk). cbv zeta in Hk.
    destruct (run h (Stream.ProcessSSELine J s line) w) as [[[[out extra] err] s1] w1].
    cbn [fst snd] in *. apply IH, Hk, Hi. }
  split; [exact Hkeep |].
  unfold StreamStats.GetThinkingBlockCount. apply inj_le.
  rewrite <- !size_dom. apply subseteq_size.
  intros i Hi. apply elem_of_dom. apply Hkeep. now apply elem_of_dom.
Qed.

(** X5.  The statistics of [GetStats] add up: thinking_blocks is the number
    of tracked blocks, and with_signature plus without_signature equals
    it; neither count is negative. *)
Theorem GetStats_adds_up (s : Stream.SignatureStreamState) :
  exists withSig withoutSig,
    StreamStats.GetStats s !! "thinking_blocks" = Some (StreamStats.GetThinkingBlockCount s)
    /\ StreamStats.GetStats s !! "with_signature" = Some withSig
    /\ StreamStats.GetStats s !! "without_signature" = Some withoutSig
    /\ 0 <= withSig /\ 0 <= withoutSig
    /\ withSig + withoutSig = StreamStats.GetThinkingBlockCount s.
Proof.
  unfold StreamStats.GetStats, StreamStats.GetThinkingBlockCount.
  set (K := Z.of_nat (size (Stream.thinkingBlocks s))).
  set (f := fun (_ : Z) (block : Stream.ThinkingBlockState) (stats : gmap string Z) =>
              if Stream.HasSignatureDelta block
              then StreamStats.incr "with_signature" stats
              else StreamStats.incr "without_signature" stats).
  set (b0 := <["thinking_blocks" := K]>
               (<["with_signature" := 0]> (<["without_signature" := 0]> (∅ : gmap string Z)))).
  assert (H : forall m : gmap Z Stream.ThinkingBlockState,
             exists a b,
               map_fold f b0 m !! "thinking_blocks" = Some K
               /\ map_fold f b0 m !! "with_signature" = Some a
               /\ map_fold f b0 m !! "without_signature" = Some b
               /\ 0 <= a /\ 0 <= b /\ a + b = Z.of_nat (size m)).
  { apply (map_fold_weak_ind
             (fun (r : gmap string Z) (m : gmap Z Stream.ThinkingBlockState) =>
                exists a b, r !! "thinking_blocks" = Some K
                            /\ r !! "with_signature" = Some a
                            /\ r !! "without_signature" = Some b
                            /\ 0 <= a /\ 0 <= b /\ a + b = Z.of_nat (size m))).
    - exists 0, 0. rewrite map_size_empty. repeat split; try lia.
    - intros i x m r Hi (a & b & Hk & Ha & Hb & Ha0 & Hb0 & Hab).
      rewrite (map_size_insert_None _ _ _ Hi). unfold f, StreamStats.incr.
      destruct (Stream.HasSignatureDelta x).
      + exists (a + 1), b. rewrite Ha. cbn [from_option id].
        rewrite lookup_insert_ne by discriminate. rewrite lookup_insert_eq.
        rewrite lookup_insert_ne by discriminate. repeat split; auto; lia.
      + exists a, (b + 1). rewrite Hb. cbn [from_option id].
        rewrite lookup_insert_ne by discriminate.
        rewrite lookup_insert_ne by discriminate. rewrite lookup_insert_eq.
        repeat split; auto; lia. }
  destruct (H (Stream.thinkingBlocks s)) as (a & b & H1 & H2 & H3 & H4 & H5 & H6).
  exists a, b. repeat split; assumption.
Qed.

(** X6.  The Stopped flag does not guard the injection: the stop line of a
    tracked block that never received a signature, arriving a second time,
    injects a synthetic line again (under an injecting strategy, the pool
    yielding both times). *)
Theorem repeated_stop_injects_again (J : Stream.JSONLib) {W}
    (h : handler Stream.StreamE W) (s : Stream.SignatureStreamState)
    (line : string) (w : W) (ev : Stream.event) (block : Stream.ThinkingBlockState) :
  event_of J line = Some ev ->
  Stream.Type_ ev = "content_block_stop" ->
  Stream.thinkingBlocks s !! Stream.Index ev = Some block ->
  Stream.HasSignatureDelta block = false ->
  strategy_injects (Strategy (Stream.config s)) = true ->
  let r1 := run h (Stream.ProcessSSELine J s line) w in
  let s1 := snd (fst r1) in
  let r2 := run h (Stream.ProcessSSELine J s1 line) (snd r1) in
  yields (pool_answer h s w) = true ->
  yields (pool_answer h s (snd r1)) = true ->
  (exists block1, Stream.thinkingBlocks s1 !! Stream.Index ev = Some block1
                  /\ Stream.Stopped block1 = true)
  /\ snd (fst (fst (fst r1))) = [synthetic_line (Stream.Index ev) (fst (pool_answer h s w))]
  /\ snd (fst (fst (fst r2)))
     = [synthetic_line (Stream.Index ev) (fst (pool_answer h s (snd r1)))].
Proof.
  intros Hev Hty Hb Hhsd Hinj. cbv zeta.
  assert (Hstep : forall s0 w0 b0,
             Stream.config s0 = Stream.config s ->
             Stream.thinkingBlocks s0 !! Stream.Index ev = Some b0 ->
             Stream.HasSignatureDelta b0 = false ->
             fst (run h (Stream.ProcessSSELine J s0 line) w0)
             = (line,
                if yields (pool_answer h s w0)
                then [synthetic_line (Stream.Index ev) (fst (pool_answer h s w0))] else [],
                None,
                Stream.with_blocks s0
                  (<[Stream.Index ev :=
                       {| Stream.tb_Index := Stream.tb_Index b0;
                          Stream.Started := Stream.Started b0;
                          Stream.HasSignatureDelta := Stream.HasSignatureDelta b0;
                          Stream.ReceivedSignature := Stream.ReceivedSignature b0;
                          Stream.Stopped := true |}]> (Stream.thinkingBlocks s0)))).
  { intros s0 w0 b0 Hcfg Hb0 Hh0.
    rewrite (ProcessSSELine_event _ _ _ _ Hev), Hty.
    change (String.eqb "content_block_stop" "content_block_start") with false.
    change (String.eqb "content_block_stop" "content_block_delta") with false.
    change (String.eqb "content_block_stop" "content_block_stop") with true.
    cbv iota. rewrite run_bind.
    destruct (run_handleContentBlockStop h s0 line _ w0 b0 Hb0) as [Hrun _].
    cbv zeta in Hrun. rewrite Hrun. cbn [fst snd run].
    rewrite Hcfg, Hinj, Hh0. cbn [negb andb].
    assert (Hpa : pool_answer h s0 w0 = pool_answer h s w0)
      by (unfold pool_answer; now rewrite Hcfg).
    now rewrite Hpa. }
  intros Hy1 Hy2.
  rewrite (Hstep s w block eq_refl Hb Hhsd), Hy1. cbn [fst snd].
  split; [| split; [reflexivity |]].
  - eexists. split; [apply lookup_insert_eq | reflexivity].
  - erewrite Hstep; [| reflexivity | apply lookup_insert_eq | exact Hhsd].
    rewrite Hy2. reflexivity.
Qed.

Lemma repeated_stop_injects_again_witness :
  let h := Example.fixed_pool ("SIG-A", None) in
  let r1 := run h (Stream.ProcessSSELine RefJSON.lib (Example.tracked "fill_missing")
                     Example.stop0) [] in
  snd (fst (fst (fst (run h (Stream.ProcessSSELine RefJSON.lib (snd (fst r1))
                               Example.stop0) (snd r1)))))
  = [synthetic_line 0 "SIG-A"].
Proof.
  cbv zeta.
  apply (repeated_stop_injects_again RefJSON.lib (Example.fixed_pool ("SIG-A", None))
           (Example.tracked "fill_missing") Example.stop0 []
           Example.stop_event Example.block0).
  - vm_compute. reflexivity.
  - reflexivity.
  - vm_compute. reflexivity.
  - reflexivity.
  - reflexivity.
  - reflexivity.
  - reflexivity.
Defined.

(** X7.  On a signature_delta of a tracked block the collector is handed
    the signature upstream sent, once, whatever the strategy, provided a
    collector is attached and the signature is not empty; and it is handed
    nothing otherwise.  Under always_replace the pool is asked after the
    collector was called. *)
Theorem upstream_signature_is_collected (J : Stream.JSONLib) {W}
    (h : handler Stream.StreamE W) (s : Stream.SignatureStreamState)
    (line : string) (w : W) (ev : Stream.event) (d : Stream.delta)
    (block : Stream.ThinkingBlockState) :
  event_of J line = Some ev ->
  Stream.Type_ ev = "content_block_delta" ->
  Stream.Unmarshal_delta J (Stream.Delta ev) = Some d ->
  Stream.d_Type d = "signature_delta" ->
  Stream.thinkingBlocks s !! Stream.Index ev = Some block ->
  collect_calls (trace h (Stream.ProcessSSELine J s line) w)
  = match Stream.collector s with
    | Some _ =>
      if String.eqb (Stream.d_Signature d) EmptyString then [] else [Stream.d_Signature d]
    | None => []
    end
  /\ (Strategy (Stream.config s) = "always_replace" ->
      forall c, Stream.collector s = Some c ->
                Stream.d_Signature d <> EmptyString ->
                pool_answers (trace h (Stream.ProcessSSELine J s line) w)
                = [pool_answer h s (snd (h _ (Stream.Collect c (Stream.d_Signature d)) w))]).
Proof.
  intros Hev Hty Hud Hsd Hb.
  rewrite (ProcessSSELine_event _ _ _ _ Hev), Hty.
  change (String.eqb "content_block_delta" "content_block_start") with false.
  change (String.eqb "content_block_delta" "content_block_delta") with true.
  cbv iota. rewrite trace_bind.
  destruct (run_handleContentBlockDelta J h s line (Regexp.ReplaceAllString line)
              (Stream.Index ev) (Stream.Delta ev) d w Hud Hsd) as (Hrun & Hpa & Hcc).
  cbv zeta in Hrun, Hpa. rewrite Hrun. cbn [fst snd trace].
  unfold collect_calls, pool_answers in *. rewrite !omap_app, Hcc, Hpa. cbn [omap].
  rewrite !app_nil_r. unfold delta_collects, delta_world. rewrite Hb.
  split.
  - destruct (Stream.collector s); [| reflexivity].
    destruct (String.eqb (Stream.d_Signature d) EmptyString); reflexivity.
  - intros Har c Hc Hne. rewrite Har, Hc.
    change (String.eqb "always_replace" "always_replace") with true.
    destruct (String.eqb_spec (Stream.d_Signature d) EmptyString); [contradiction |].
    reflexivity.
Qed.

Lemma upstream_signature_is_collected_witness :
  collect_calls (trace (Example.fixed_pool ("SIG-B", None))
                   (Stream.ProcessSSELine RefJSON.lib (Example.tracked "disabled")
                      Example.delta0) [])
  = ["UPSTREAM"].
Proof.
  apply (upstream_signature_is_collected RefJSON.lib (Example.fixed_pool ("SIG-B", None))
           (Example.tracked "disabled") Example.delta0 []
           Example.delta_event Example.upstream_delta Example.block0).
  - vm_compute. reflexivity.
  - reflexivity.
  - vm_compute. reflexivity.
  - reflexivity.
  - vm_compute. reflexivity.
Defined.

(** ** The pool cache, between reloads *)

(** X8.  A snapshot that is not empty and has not expired is served as it
    is: the repository is not called and the pool is left unchanged. *)
Theorem fresh_snapshot_is_served {W} (h : handler Pool.PoolE W)
    (s : Pool.signaturePoolService) (filter : option SignaturePoolFilter) (w : W) :
  Pool.cachedSigs s <> [] ->
  fst (h _ Pool.time_Now w) < Pool.cacheExpiry s ->
  snapshot h s w = Pool.cachedSigs s
  /\ acquired h s w = s
  /\ listactive_answers (trace h (Pool.GetRandomSignature s filter) w) = [].
Proof.
  intros Hne Hfresh. rewrite listactive_GetRandomSignature.
  unfold snapshot, acquired, Pool.getCachedSignatures, Pool.cacheFresh.
  destruct (0 <? Go.len' (Pool.cachedSigs s))%Z eqn:Hl.
  2:{ apply Z.ltb_ge in Hl. destruct (Pool.cachedSigs s); [contradiction |].
      unfold Go.len' in Hl. cbn [length] in Hl. lia. }
  run_step h. cbn [fst] in Hfresh. apply Z.ltb_lt in Hfresh. rewrite Hfresh.
  cbn. repeat split.
Qed.

Lemma fresh_snapshot_is_served_witness :
  snapshot Example.pool_handler
    {| Pool.cachedSigs := [Pool.toCached Example.sig_S1]; Pool.cacheExpiry := 2000;
       Pool.cacheTTL := 300 |}
    (Example.world_S1 [])
  = [Pool.toCached Example.sig_S1].
Proof.
  apply (fresh_snapshot_is_served Example.pool_handler
           {| Pool.cachedSigs := [Pool.toCached Example.sig_S1]; Pool.cacheExpiry := 2000;
              Pool.cacheTTL := 300 |} None (Example.world_S1 [])).
  - discriminate.
  - reflexivity.
Defined.

(** X9.  [InvalidateCache] keeps the snapshot (the pool size is unchanged)
    and, the clock never reading an instant before the zero time, makes the
    next [GetRandomSignature] call [ListActive] exactly once; if that call
    fails the snapshot kept is the one served, and if it succeeds the
    signatures it lists are. *)
Theorem InvalidateCache_forces_reload {W} (h : handler Pool.PoolE W)
    (s : Pool.signaturePoolService) (filter : option SignaturePoolFilter) (w : W) :
  Forall (fun t => 0 <= t)
    (time_readings (trace h (Pool.getCachedSignatures (Pool.InvalidateCache s)) w)) ->
  Pool.GetPoolSize (Pool.InvalidateCache s) = Pool.GetPoolSize s
  /\ exists ans,
       listactive_answers
         (trace h (Pool.GetRandomSignature (Pool.InvalidateCache s) filter) w) = [ans]
       /\ (snd ans <> None -> snapshot h (Pool.InvalidateCache s) w = Pool.cachedSigs s)
       /\ (snd ans = None ->
           snapshot h (Pool.InvalidateCache s) w = map Pool.toCached (fst ans)).
Proof.
  intros Hclock. split; [reflexivity |].
  rewrite listactive_GetRandomSignature. revert Hclock.
  unfold snapshot, Pool.getCachedSignatures, Pool.reloadCache, Pool.cacheFresh.
  cbn [Pool.InvalidateCache Pool.cachedSigs Pool.cacheExpiry Pool.cacheTTL].
  assert (Hreload :
    forall w0,
      let p := '(signatures, err) ← call (Pool.repo (repo_ListActive 1000));
               if notnil err
               then Ret (Pool.cachedSigs s, Pool.InvalidateCache s)
               else
                 now ← call Pool.time_Now;
                 Ret (map Pool.toCached signatures,
                      {| Pool.cachedSigs := map Pool.toCached signatures;
                         Pool.cacheExpiry := now + Pool.cacheTTL s;
                         Pool.cacheTTL := Pool.cacheTTL s |}) in
      exists ans,
        listactive_answers (trace h p w0) = [ans]
        /\ (snd ans <> None -> fst (fst (run h p w0)) = Pool.cachedSigs s)
        /\ (snd ans = None -> fst (fst (run h p w0)) = map Pool.toCached (fst ans))).
  { intros w0. cbv zeta. run_step h. destruct x as [sigs [e |]]; cbn.
    - exists (sigs, Some e). repeat split. intros H. discriminate H.
    - run_step h. exists (sigs, None). repeat split. intros H. now destruct H. }
  cbv zeta in Hreload.
  destruct (0 <? Go.len' (Pool.cachedSigs s))%Z.
  - run_step h. cbn [time_readings omap ans_call ans_value].
    destruct (x <? 0)%Z eqn:H1.
    { intros Hc. cbn in Hc. apply Forall_inv in Hc. apply Z.ltb_lt in H1. lia. }
    run_step h. cbn [time_readings omap ans_call ans_value].
    destruct (x0 <? 0)%Z eqn:H2.
    { intros Hc. cbn in Hc. apply Forall_inv_tail, Forall_inv in Hc.
      apply Z.ltb_lt in H2. lia. }
    intros _. apply Hreload.
  - cbn. intros _. apply Hreload.
Qed.

Lemma InvalidateCache_forces_reload_witness :
  exists ans,
    listactive_answers
      (trace Example.pool_handler
         (Pool.GetRandomSignature (Pool.InvalidateCache Example.stale_pool) None)
         (Example.world_S1 [])) = [ans].
Proof.
  destruct (InvalidateCache_forces_reload Example.pool_handler Example.stale_pool None
              (Example.world_S1 [])) as (_ & ans & Hans & _).
  - vm_compute. repeat constructor; discriminate.
  - exists ans. exact Hans.
Defined.

(** X10.  [GetRandomSignature] starts [MarkUsed] exactly once, for the
    signature whose value it returns, and not at all when it returns
    PoolEmpty. *)
Theorem one_MarkUsed_per_draw {W} (h : handler Pool.PoolE W)
    (s : Pool.signaturePoolService) (filter : option SignaturePoolFilter) (w : W) :
  Intn_in_range h ->
  (snapshot h s w = [] ->
   spawned_MarkUsed (trace h (Pool.GetRandomSignature s filter) w) = [])
  /\ (snapshot h s w <> [] ->
      exists sel,
        In sel (snapshot h s w)
        /\ fst (fst (run h (Pool.GetRandomSignature s filter) w))
           = Some (Pool.cs_Value sel, None)
        /\ spawned_MarkUsed (trace h (Pool.GetRandomSignature s filter) w)
           = [Pool.cs_ID sel]).
Proof.
  intros Hrng.
  assert (Hacq : spawned_MarkUsed (trace h (Pool.getCachedSignatures s) w) = []).
  { unfold Pool.getCachedSignatures, Pool.reloadCache, Pool.cacheFresh.
    assert (Hreload :
      forall w0,
        spawned_MarkUsed
          (trace h ('(signatures, err) ← call (Pool.repo (repo_ListActive 1000));
                    if notnil err then Ret (Pool.cachedSigs s, s)
                    else
                      now ← call Pool.time_Now;
                      Ret (map Pool.toCached signatures,
                           {| Pool.cachedSigs := map Pool.toCached signatures;
                              Pool.cacheExpiry := now + Pool.cacheTTL s;
                              Pool.cacheTTL := Pool.cacheTTL s |})) w0) = []).
    { intros w0. run_step h. destruct x as [sigs [e |]]; cbn; [reflexivity |].
      run_step h. reflexivity. }
    destruct (0 <? Go.len' (Pool.cachedSigs s))%Z.
    - run_step h. destruct (x <? Pool.cacheExpiry s)%Z; cbn; [reflexivity |].
      run_step h. destruct (x0 <? Pool.cacheExpiry s)%Z; cbn; [reflexivity |].
      apply Hreload.
    - cbn. apply Hreload. }
  unfold snapshot, Pool.GetRandomSignature.
  rewrite run_bind, trace_bind. unfold spawned_MarkUsed in *. rewrite omap_app, Hacq.
  cbn [app].
  destruct (run h (Pool.getCachedSignatures s) w) as [[sigs s'] w1]. cbn [fst snd].
  destruct (Go.len' sigs =? 0)%Z eqn:Hl.
  { apply len'_zero in Hl. subst sigs. cbn. split; [reflexivity | intros H; now destruct H]. }
  assert (Hs : sigs <> []) by (intros ->; discriminate).
  split; [intros; contradiction |]. intros _.
  pose proof (filterSignatures_nonempty sigs filter Hs) as Hf.
  destruct (Go.len' (Pool.filterSignatures sigs filter) =? 0)%Z eqn:Hlf.
  { apply len'_zero in Hlf. contradiction. }
  assert (Hpos : 0 < Go.len' (Pool.filterSignatures sigs filter)).
  { unfold Go.len'. destruct (Pool.filterSignatures sigs filter); [contradiction | cbn; lia]. }
  specialize (Hrng _ w1 Hpos).
  run_step h. cbn [fst] in Hrng.
  destruct (x <? 0)%Z eqn:Hneg; [apply Z.ltb_lt in Hneg; lia |].
  destruct (Pool.filterSignatures sigs filter !! Z.to_nat x) as [sel |] eqn:Hsel.
  - run_step h. cbn. exists sel. split; [| split; reflexivity].
    eapply filterSignatures_incl. apply list_elem_of_In.
    eapply list_elem_of_lookup_2. exact Hsel.
  - apply lookup_ge_None in Hsel. unfold Go.len' in Hrng. lia.
Qed.

Lemma one_MarkUsed_per_draw_witness :
  spawned_MarkUsed
    (trace Example.pool_handler
       (Pool.GetRandomSignature Pool.NewSignaturePoolService None) (Example.world_S1 []))
  = [1].
Proof.
  destruct (one_MarkUsed_per_draw Example.pool_handler Pool.NewSignaturePoolService None
              (Example.world_S1 []) pool_handler_in_range) as [_ Hsel].
  destruct Hsel as (sel & Hin & _ & Hsp); [vm_compute; discriminate |].
  assert (Hsn : snapshot Example.pool_handler Pool.NewSignaturePoolService
                  (Example.world_S1 []) = [Pool.toCached Example.sig_S1])
    by (vm_compute; reflexivity).
  rewrite Hsn in Hin. destruct Hin as [<- | []]. exact Hsp.
Defined.

(** ** The table, read side *)

Lemma insert_desc_Permutation (r : Repo.row) (l : list Repo.row) :
  Permutation (Repo.insert_desc r l) (r :: l).
Proof.
  induction l as [| r' l IH]; cbn [Repo.insert_desc]; [reflexivity |].
  destruct (UseCount (Repo.sig r') <? UseCount (Repo.sig r))%Z; [reflexivity |].
  rewrite IH. apply perm_swap.
Qed.

Lemma insert_desc_sorted (r : Repo.row) (l : list Repo.row) :
  StronglySorted (fun a b => UseCount (Repo.sig b) <= UseCount (Repo.sig a)) l ->
  StronglySorted (fun a b => UseCount (Repo.sig b) <= UseCount (Repo.sig a))
                 (Repo.insert_desc r l).
Proof.
  induction l as [| r' l IH]; cbn [Repo.insert_desc]; intros Hs.
  - constructor; constructor.
  - apply StronglySorted_inv in Hs as [Hl Hr'].
    destruct (UseCount (Repo.sig r') <? UseCount (Repo.sig r))%Z eqn:Hlt.
    + apply Z.ltb_lt in Hlt. constructor.
      * constructor; assumption.
      * constructor; [lia |].
        eapply List.Forall_impl; [| exact Hr']. cbn. intros a Ha. lia.
    + apply Z.ltb_ge in Hlt. constructor; [now apply IH |].
      eapply Permutation_Forall; [symmetry; apply insert_desc_Permutation |].
      constructor; assumption.
Qed.

Lemma foldr_insert_desc (l : list Repo.row) :
  Permutation (foldr Repo.insert_desc [] l) l
  /\ StronglySorted (fun a b => UseCount (Repo.sig b) <= UseCount (Repo.sig a))
                    (foldr Repo.insert_desc [] l).
Proof.
  induction l as [| r l [IHp IHs]]; cbn [foldr].
  - split; constructor.
  - split; [| now apply insert_desc_sorted].
    rewrite insert_desc_Permutation. now constructor.
Qed.

(** X11.  When the backend answers, [ListActive] lists rows that are active
    and not deleted, and only those; the most used come first; a positive
    limit keeps the head of that order, so that no row left out has been
    used more than a listed one; the table is not changed. *)
Theorem ListActive_most_used_first (st : Repo.Store) (limit : Z) :
  fst (Repo.roundtrip st) = None ->
  exists ordered,
    fst (Repo.ListActive st limit)
    = (map Repo.sig (if (0 <? limit)%Z then take (Z.to_nat limit) ordered else ordered),
       None)
    /\ Permutation ordered
         (List.filter (fun r => String.eqb (Status (Repo.sig r)) "active" && Repo.live r)
                      (Repo.rows st))
    /\ StronglySorted (fun a b => UseCount (Repo.sig b) <= UseCount (Repo.sig a)) ordered
    /\ (forall s, In s (fst (fst (Repo.ListActive st limit))) ->
        Status s = "active"
        /\ exists r, In r (Repo.rows st) /\ Repo.sig r = s /\ Repo.deleted_at r = None)
    /\ (0 < limit -> Go.len' (fst (fst (Repo.ListActive st limit))) <= limit)
    /\ Repo.rows (snd (Repo.ListActive st limit)) = Repo.rows st.
Proof.
  intros Hrt. pose proof (roundtrip_rows st) as [Hrows _].
  unfold Repo.ListActive. destruct (Repo.roundtrip st) as [fault st'].
  cbn [fst snd] in *. subst fault. rewrite Hrows.
  set (active := List.filter _ (Repo.rows st)).
  destruct (foldr_insert_desc active) as [Hp Hs].
  exists (foldr Repo.insert_desc [] active). cbn [fst snd].
  split; [reflexivity |]. split; [exact Hp |]. split; [exact Hs |].
  split; [| split; [| exact Hrows]].
  - intros s Hin. apply in_map_iff in Hin as (r & <- & Hin).
    assert (Hin' : In r (foldr Repo.insert_desc [] active)).
    { destruct (0 <? limit)%Z; [| exact Hin].
      apply list_elem_of_In. apply list_elem_of_In in Hin.
      apply elem_of_take in Hin as (i & Hi & _). eapply list_elem_of_lookup_2. exact Hi. }
    apply (Permutation_in _ Hp) in Hin'. apply List.filter_In in Hin' as [Hr Hact].
    apply andb_prop in Hact as [Hst Hlive]. apply String.eqb_eq in Hst.
    split; [exact Hst |]. exists r. split; [exact Hr |]. split; [reflexivity |].
    unfold Repo.live in Hlive. destruct (Repo.deleted_at r); [discriminate | reflexivity].
  - intros Hpos. destruct (0 <? limit)%Z eqn:Hl; [| apply Z.ltb_ge in Hl; lia].
    unfold Go.len'. rewrite length_map, length_take. lia.
Qed.

Lemma ListActive_most_used_first_witness :
  fst (Repo.ListActive (Example.store_S1 []) 1000) = ([Example.sig_S1], None).
Proof.
  destruct (ListActive_most_used_first (Example.store_S1 []) 1000 eq_refl)
    as (ordered & Hans & Hp & _).
  rewrite Hans. cbn in Hp. symmetry in Hp. apply Permutation_length_1_inv in Hp.
  subst ordered.
  reflexivity.
Defined.

Lemma mem_cons (h x : string) (l : list string) :
  Repo.mem h (x :: l) = String.eqb h x || Repo.mem h l.
Proof. reflexivity. Qed.

Lemma marked_lookup_cases (l : list string) (h : string) :
  foldl (fun (m : gmap string bool) h => <[h := true]> m) ∅ l !! h
  = if Repo.mem h l then Some true else None.
Proof.
  assert (Hgen : forall (m : gmap string bool),
             foldl (fun (m : gmap string bool) h => <[h := true]> m) m l !! h
             = if Repo.mem h l then Some true else m !! h).
  { induction l as [| x l IH]; intros m; cbn [foldl Repo.mem existsb]; [reflexivity |].
    rewrite IH. fold (Repo.mem h l). destruct (Repo.mem h l).
    - now rewrite orb_true_r.
    - rewrite orb_false_r. destruct (String.eqb h x) eqn:Hx.
      + apply String.eqb_eq in Hx. subst x. now rewrite lookup_insert_eq.
      + apply String.eqb_neq in Hx. rewrite lookup_insert_ne; [reflexivity | congruence]. }
  rewrite Hgen. destruct (Repo.mem h l); [reflexivity | apply lookup_empty].
Qed.

(** X12.  The two existence queries agree: when the backend answers,
    [ExistsByHashes] marks a requested hash exactly when [ExistsByHash]
    answers true for it; its map has no entry for a hash that was not
    requested and never holds the value false. *)
Theorem ExistsByHashes_agrees_with_ExistsByHash (st : Repo.Store)
    (hashes : list string) (h : string) :
  fst (Repo.roundtrip st) = None ->
  let existing := fst (fst (Repo.ExistsByHashes st hashes)) in
  snd (fst (Repo.ExistsByHashes st hashes)) = None
  /\ (In h hashes ->
      existing !! h = if fst (fst (Repo.ExistsByHash st h)) then Some true else None)
  /\ (~ In h hashes -> existing !! h = None)
  /\ Repo.rows (snd (Repo.ExistsByHashes st hashes)) = Repo.rows st.
Proof.
  intros Hrt. cbv zeta. rewrite (ExistsByHash_answer st h Hrt). cbn [fst snd].
  pose proof (roundtrip_rows st) as [Hrows _].
  unfold Repo.ExistsByHashes.
  destruct (Go.len' hashes =? 0)%Z eqn:Hl.
  { apply len'_zero in Hl. subst hashes. cbn [fst snd].
    split; [reflexivity |]. split; [intros [] |]. split; [| reflexivity].
    intros _. apply lookup_empty. }
  destruct (Repo.roundtrip st) as [fault st']. cbn [fst snd] in *. subst fault.
  cbn [fst snd]. rewrite Hrows. split; [reflexivity |].
  rewrite marked_lookup_cases.
  assert (Hmem : Repo.mem h
                   (map (fun r => Hash (Repo.sig r))
                        (List.filter (fun r => Repo.mem (Hash (Repo.sig r)) hashes
                                               && Repo.live r) (Repo.rows st)))
                 = Repo.mem h hashes && live_hash st h).
  { unfold live_hash. clear Hrows. induction (Repo.rows st) as [| r rs IH];
      cbn [List.filter map existsb].
    - rewrite andb_false_r. reflexivity.
    - destruct (Repo.mem (Hash (Repo.sig r)) hashes && Repo.live r) eqn:Hr.
      + cbn [map]. rewrite mem_cons, IH. apply andb_prop in Hr as [Hm Hlv]. rewrite Hlv, andb_true_r.
        rewrite (String.eqb_sym (Hash (Repo.sig r)) h).
        destruct (String.eqb h (Hash (Repo.sig r))) eqn:Heq; cbn [orb].
        * apply String.eqb_eq in Heq. subst h. rewrite Hm. reflexivity.
        * reflexivity.
      + rewrite IH.
        destruct (String.eqb (Hash (Repo.sig r)) h) eqn:Heq; cbn [andb orb]; [| reflexivity].
        apply String.eqb_eq in Heq. subst h.
        destruct (Repo.live r); cbn [andb orb].
        * rewrite andb_true_r in Hr. rewrite Hr. reflexivity.
        * reflexivity. }
  rewrite Hmem. split; [| split; [| reflexivity]].
  - intros Hin. apply mem_In in Hin. rewrite Hin. reflexivity.
  - intros Hnin. destruct (Repo.mem h hashes) eqn:Hm; [| reflexivity].
    apply mem_In in Hm. contradiction.
Qed.

Lemma ExistsByHashes_agrees_with_ExistsByHash_witness :
  fst (fst (Repo.ExistsByHashes (Example.store_S1 [])
              [Service.computeSignatureHash "S1"; Service.computeSignatureHash "Y"]))
  !! Service.computeSignatureHash "S1" = Some true.
Proof.
  destruct (ExistsByHashes_agrees_with_ExistsByHash (Example.store_S1 [])
              [Service.computeSignatureHash "S1"; Service.computeSignatureHash "Y"]
              (Service.computeSignatureHash "S1") eq_refl) as (_ & Hin & _).
  rewrite Hin; [vm_compute; reflexivity | left; reflexivity].
Defined.

(** ** Soft deletion and the unique hash *)

Lemma run_Create_on_store (value : string) (model notes : option string)
    (st : Repo.Store) :
  fst (Repo.roundtrip st) = None ->
  run Repo.handle (Service.Create value model notes) st
  = if live_hash st (Service.computeSignatureHash value)
    then ((None, Some ErrSignatureDuplicate), snd (Repo.roundtrip st))
    else
      let ans2 := Repo.Create (snd (Repo.roundtrip st))
                    (Service.newSignature value (Service.computeSignatureHash value)
                       model "manual" notes None) in
      (if notnil (snd (fst ans2)) then (None, snd (fst ans2))
       else (Some (fst (fst ans2)), None), snd ans2).
Proof.
  intros Hrt. unfold Service.Create. rewrite run_bind, run_call. cbn [Repo.handle].
  rewrite (ExistsByHash_answer st _ Hrt). cbn [fst snd notnil].
  destruct (live_hash st _); [reflexivity |].
  rewrite run_bind, run_call. cbn [Repo.handle].
  destruct (Repo.Create _ _) as [[sig' err2] st2]. cbn [fst snd].
  destruct (notnil err2); reflexivity.
Qed.

Lemma mem_hash_of_row (rs : list Repo.row) (r : Repo.row) :
  In r rs -> Repo.mem (Hash (Repo.sig r)) (map (fun r => Hash (Repo.sig r)) rs) = true.
Proof. intros Hin. apply mem_In. apply in_map_iff. exists r. now split. Qed.

(** X13.  A soft-deleted row keeps its hash, and the hash column is unique
    over all rows.  So for a value whose hash only deleted rows hold, the
    existence check answers false, yet [Create] does not succeed: the insert
    is rejected, the error is not Duplicate and the table is unchanged.
    [BatchImport] of that value alone fails the same way, counting it as
    failed and not as duplicated. *)
Theorem soft_deleted_hash_blocks_Create (st : Repo.Store) (value : string)
    (model notes : option string) :
  let hash := Service.computeSignatureHash value in
  fst (Repo.roundtrip st) = None ->
  fst (Repo.roundtrip (snd (Repo.roundtrip st))) = None ->
  (exists r, In r (Repo.rows st) /\ Hash (Repo.sig r) = hash /\ Repo.live r = false) ->
  live_hash st hash = false ->
  fst (Repo.ExistsByHash st hash) = (false, None)
  /\ (exists st',
        run Repo.handle (Service.Create value model notes) st
        = ((None, Some Repo.constraint_violation), st')
        /\ Repo.rows st' = Repo.rows st)
  /\ (forall source, exists st',
        run Repo.handle (Service.BatchImport [value] model source) st
        = ((Some (result 1 0 0 1), Some Repo.constraint_violation), st')
        /\ Repo.rows st' = Repo.rows st).
Proof.
  intros hash Hrt Hrt2 (r & Hin & Hh & _) Hlive.
  pose proof (roundtrip_rows st) as [Hr1 _].
  pose proof (roundtrip_rows (snd (Repo.roundtrip st))) as [Hr2 _].
  assert (Hmem : Repo.mem hash (map (fun r => Hash (Repo.sig r)) (Repo.rows st)) = true).
  { rewrite <- Hh. now apply mem_hash_of_row. }
  split; [| split].
  - rewrite (ExistsByHash_answer st hash Hrt). cbn [fst]. now rewrite Hlive.
  - rewrite (run_Create_on_store value model notes st Hrt). fold hash. rewrite Hlive.
    cbv zeta. unfold Repo.Create.
    destruct (Repo.roundtrip (snd (Repo.roundtrip st))) as [f st2].
    cbn [fst snd] in *. subst f. rewrite Hr2, Hr1.
    cbn [Repo.insertable Service.newSignature Hash]. rewrite Hmem.
    cbn [negb]. rewrite andb_false_r. cbn [andb fst snd notnil].
    eexists. split; [reflexivity |]. now rewrite Hr2.
  - intros source.
    destruct (run_batchImport Repo.handle st "imported" None [value] model source)
      as [Hrun _]; [discriminate |].
    unfold Service.BatchImport. rewrite Hrun. clear Hrun. cbn [Repo.handle].
    destruct (ExistsByHashes_answer st (Service.hashesOf [value]))
      as (existing & Hans & Hex); [discriminate | exact Hrt |].
    rewrite Hans. cbn [fst snd notnil].
    assert (Hk : known existing value = false).
    { rewrite (known_live st existing [value] Hex value); [exact Hlive | now left]. }
    unfold newSigsOf. cbn [List.filter]. rewrite Hk. cbn [negb map List.filter].
    change (Go.len' [value]) with 1.
    match goal with
    | |- context [(0 <? Go.len' [?s])%Z] => change (0 <? Go.len' [s])%Z with true
    end.
    cbv iota. unfold Repo.BatchCreate.
    match goal with
    | |- context [(Go.len' [?s] =? 0)%Z] => change (Go.len' [s] =? 0)%Z with false
    end.
    cbv iota.
    destruct (Repo.roundtrip (snd (Repo.roundtrip st))) as [f st2].
    cbn [fst snd] in *. subst f. rewrite Hr2, Hr1.
    cbn [Repo.insertable mkSig Service.newSignature Hash].
    fold hash. rewrite Hmem. cbn [negb]. rewrite andb_false_r.
    cbn [andb fst snd notnil].
    match goal with
    | |- context [Go.len' [?s]] => change (Go.len' [s]) with 1
    end.
    eexists. split; [reflexivity |]. now rewrite Hr2.
Qed.

(** S1 is created, deleted, and created again. *)
Lemma soft_deleted_hash_blocks_Create_witness :
  exists st',
    run Repo.handle (Service.Create "S1" None None)
        (snd (Repo.Delete (Example.store_S1 []) 1))
    = ((None, Some Repo.constraint_violation), st').
Proof.
  destruct (soft_deleted_hash_blocks_Create
              (snd (Repo.Delete (Example.store_S1 []) 1)) "S1" None None)
    as (_ & (st' & Hrun & _) & _).
  - reflexivity.
  - reflexivity.
  - exists {| Repo.sig := Example.sig_S1; Repo.deleted_at := Some 1 |}.
    split; [left; reflexivity | split; reflexivity].
  - vm_compute. reflexivity.
  - exists st'. exact Hrun.
Defined.

(** ** The hash *)

(** X14.  The hash of every value is 64 characters long, each a lower-case
    hexadecimal digit: it fills the 64 characters of the hash column and is
    never empty. *)
Theorem computeSignatureHash_is_64_hex (value : string) :
  Go.len (Service.computeSignatureHash value) = 64
  /\ forallb is_lower_hex (list_ascii_of_string (Service.computeSignatureHash value)) = true.
Proof.
  unfold Service.computeSignatureHash, Go.len.
  destruct (Sum256_spec value) as [Hl Hf].
  destruct (EncodeToString_spec _ Hf) as [Hl' Hf'].
  rewrite Hl', Hl. split; [reflexivity | exact Hf'].
Qed.

(** ** Importing with an account *)

Lemma In_newSigsOf (mk : string -> string -> Signature) (existing : gmap string bool)
    (values : list string) (s : Signature) :
  In s (newSigsOf mk existing values) ->
  exists v, In v values /\ known existing v = false
            /\ s = mk v (Service.computeSignatureHash v).
Proof.
  unfold newSigsOf. intros Hin. apply in_map_iff in Hin as (v & <- & Hv).
  apply List.filter_In in Hv as [Hv Hk]. exists v. split; [exact Hv |].
  split; [| reflexivity]. now destruct (known existing v).
Qed.

(** X15.  [BatchImportWithAccountID] hands the repository at most one batch.
    Every signature in it carries the account, the source of the request or
    collected when that is empty, status active, use count 0, the model of
    the request, no notes, one of the values and the hash of that value.
    The result counts every value: total is the number of values; with a nil
    error nothing failed; with an error of [BatchCreate] nothing was imported
    and every value not counted as duplicated failed.  A nil result comes
    only with an error. *)
Theorem BatchImportWithAccountID_tags_and_counts {W} (h : handler RepoE W) (w : W)
    (values : list string) (model : option string) (source : string) (accountID : Z) :
  let p := Service.BatchImportWithAccountID values model source accountID in
  (length (batchcreate_calls (trace h p w)) <= 1)%nat
  /\ (forall sigs s,
        In sigs (batchcreate_calls (trace h p w)) -> In s sigs ->
        CollectedFromAccountID s = Some accountID
        /\ Source s = (if String.eqb source EmptyString then "collected" else source)
        /\ Status s = "active" /\ UseCount s = 0
        /\ Model s = model /\ Notes s = None
        /\ In (Value s) values
        /\ Hash s = Service.computeSignatureHash (Value s))
  /\ (forall err, fst (run h p w) = (None, err) -> err <> None)
  /\ (forall res err,
        fst (run h p w) = (Some res, err) ->
        Total res = Go.len' values
        /\ 0 <= Duplicated res <= Total res
        /\ (err = None -> Failed res = 0)
        /\ (err <> None ->
            Imported res = 0 /\ Failed res = Total res - Duplicated res /\ 0 < Failed res)).
Proof.
  cbv zeta. unfold Service.BatchImportWithAccountID.
  destruct values as [| v0 values'].
  { change (Service.batchImport "collected" (Some accountID) [] model source)
      with (Ret (E := RepoE) (Some Service.emptyResult, @None error)).
    cbn. split; [lia |]. split; [intros ? ? [] |]. split; [discriminate |].
    intros res err Heq. injection Heq as <- <-. cbn. repeat split; try lia; congruence. }
  assert (Hne : v0 :: values' <> []) by discriminate.
  generalize dependent (v0 :: values'). clear v0 values'. intros values Hne.
  destruct (run_batchImport h w "collected" (Some accountID) values model source Hne)
    as [Hrun Htr].
  cbv zeta in Hrun, Htr. rewrite Hrun, Htr. clear Hrun Htr.
  destruct (h _ (repo_ExistsByHashes (Service.hashesOf values)) w) as [[existing err0] w1].
  cbn [fst snd].
  set (newSigs := newSigsOf _ existing values).
  pose proof (filter_partition_length (known existing) values) as Hpart.
  assert (Hlen : Go.len' newSigs
                 = Go.len' (List.filter (fun v => negb (known existing v)) values)).
  { unfold newSigs, newSigsOf, Go.len'. now rewrite length_map. }
  assert (Hd : 0 <= Go.len' (List.filter (known existing) values)) by (unfold Go.len'; lia).
  assert (Hn : 0 <= Go.len' newSigs) by (unfold Go.len'; lia).
  destruct err0 as [e0 |]; cbn [notnil].
  { cbn. split; [lia |]. split; [intros ? ? [] |]. split; [intros ? [= <-]; discriminate |].
    intros res err [=]. }
  destruct (0 <? Go.len' newSigs)%Z eqn:Hpos.
  - apply Z.ltb_lt in Hpos.
    destruct (h _ (repo_BatchCreate newSigs) w1) as [[imported err1] w2]. cbn [fst snd].
    split; [cbn; lia |]. split; [| split].
    + intros sigs s [<- | []] Hs. apply In_newSigsOf in Hs as (v & Hv & _ & ->).
      unfold mkSig, effective_source. cbn. repeat split; try reflexivity. exact Hv.
    + destruct err1; cbn [notnil fst]; intros err [=].
    + destruct err1 as [e1 |]; cbn [notnil fst]; intros res err Heq;
        injection Heq as <- <-; cbn [result Total Duplicated Failed Imported].
      * repeat split; try lia; congruence.
      * repeat split; try lia; congruence.
  - apply Z.ltb_ge in Hpos. cbn [fst].
    split; [cbn; lia |]. split; [intros ? ? [] |]. split; [intros err [=] |].
    intros res err Heq. injection Heq as <- <-.
    cbn [result Total Duplicated Failed Imported].
    repeat split; try lia; congruence.
Qed.

Lemma ExistsByHashes_fault (st : Repo.Store) (hashes : list string) (e : error) :
  hashes <> [] ->
  fst (Repo.roundtrip st) = Some e ->
  Repo.ExistsByHashes st hashes = ((∅, Some e), snd (Repo.roundtrip st)).
Proof.
  intros Hne Hrt. unfold Repo.ExistsByHashes.
  destruct (Go.len' hashes =? 0)%Z eqn:Hl; [apply len'_zero in Hl; contradiction |].
  destruct (Repo.roundtrip st) as [f st1]. cbn [fst snd] in *. now subst f.
Qed.

Lemma createBulk_rows (st : Repo.Store) (id : Z) (sigs : list Signature) (r : Repo.row) :
  In r (Repo.createBulk st id sigs) ->
  Repo.deleted_at r = None
  /\ exists s, In s sigs
               /\ Value (Repo.sig r) = Value s /\ Hash (Repo.sig r) = Hash s
               /\ Model (Repo.sig r) = Model s /\ Source (Repo.sig r) = Source s
               /\ Status (Repo.sig r) = Status s /\ UseCount (Repo.sig r) = UseCount s
               /\ Notes (Repo.sig r) = Notes s
               /\ CollectedFromAccountID (Repo.sig r) = CollectedFromAccountID s.
Proof.
  revert id. induction sigs as [| s sigs IH]; intros id; cbn [Repo.createBulk]; [intros [] |].
  intros [<- | Hin].
  - split; [reflexivity |]. exists s. split; [now left |]. cbn. repeat split.
  - destruct (IH _ Hin) as (Hd & s' & Hs' & Hrest). split; [exact Hd |].
    exists s'. split; [now right | exact Hrest].
Qed.

(** What [BatchCreate] does to the table: all the rows or none. *)
Lemma BatchCreate_cases (st : Repo.Store) (sigs : list Signature) :
  (snd (fst (Repo.BatchCreate st sigs)) <> None
   /\ fst (fst (Repo.BatchCreate st sigs)) = 0
   /\ Repo.rows (snd (Repo.BatchCreate st sigs)) = Repo.rows st)
  \/ (snd (fst (Repo.BatchCreate st sigs)) = None
      /\ fst (fst (Repo.BatchCreate st sigs)) = Go.len' sigs
      /\ exists st0 id,
           Repo.rows (snd (Repo.BatchCreate st sigs))
           = (Repo.rows st ++ Repo.createBulk st0 id sigs)%list).
Proof.
  unfold Repo.BatchCreate. destruct (Go.len' sigs =? 0)%Z eqn:Hl.
  { apply len'_zero in Hl. subst sigs. right. cbn. split; [reflexivity |].
    split; [reflexivity |]. exists st, 0. now rewrite app_nil_r. }
  pose proof (roundtrip_rows st) as [Hr _].
  destruct (Repo.roundtrip st) as [[e |] st1]; cbn [fst snd] in *.
  { left. split; [discriminate |]. split; [reflexivity | exact Hr]. }
  destruct (Repo.insertable _ sigs); cbn [fst snd].
  - right. split; [reflexivity |]. split.
    + unfold Go.len'. now rewrite (proj2 (proj2 (createBulk_hashes _ _ _))).
    + exists st1, (Repo.next_id st1). cbn [Repo.rows Repo.with_rows]. now rewrite Hr.
  - left. split; [discriminate |]. split; [reflexivity | exact Hr].
Qed.

(** X16.  On the table, [BatchImportWithAccountID] imports all the new
    values or none.  When it returns an error no row is added.  When it
    returns a nil error, total = imported + duplicated, the duplicated are
    the values whose hash a live row had, and the table has grown by
    imported rows at its end: each is live and active, carries the account,
    one of the values and its hash, and no live row had that hash before. *)
Theorem BatchImportWithAccountID_all_or_nothing (st st' : Repo.Store)
    (values : list string) (model : option string) (source : string) (accountID : Z)
    (res : BatchImportResult) (err : option error) :
  run Repo.handle (Service.BatchImportWithAccountID values model source accountID) st
  = ((Some res, err), st') ->
  (err <> None -> Repo.rows st' = Repo.rows st)
  /\ (err = None ->
      Total res = Imported res + Duplicated res
      /\ Duplicated res
         = Go.len' (List.filter
                      (fun v => live_hash st (Service.computeSignatureHash v)) values)
      /\ exists rs,
           Repo.rows st' = (Repo.rows st ++ rs)%list
           /\ Go.len' rs = Imported res
           /\ Forall (fun r =>
                        Repo.deleted_at r = None
                        /\ Status (Repo.sig r) = "active"
                        /\ CollectedFromAccountID (Repo.sig r) = Some accountID
                        /\ In (Value (Repo.sig r)) values
                        /\ Hash (Repo.sig r)
                           = Service.computeSignatureHash (Value (Repo.sig r))
                        /\ live_hash st (Hash (Repo.sig r)) = false) rs).
Proof.
  unfold Service.BatchImportWithAccountID.
  destruct values as [| v0 values'].
  { change (Service.batchImport "collected" (Some accountID) [] model source)
      with (Ret (E := RepoE) (Some Service.emptyResult, @None error)).
    cbn [run]. intros [= <- <- <-]. split; [congruence |]. intros _.
    split; [reflexivity |]. split; [reflexivity |].
    exists []. rewrite app_nil_r. repeat split. constructor. }
  assert (Hne : v0 :: values' <> []) by discriminate.
  generalize dependent (v0 :: values'). clear v0 values'. intros values Hne.
  destruct (run_batchImport Repo.handle st "collected" (Some accountID) values model
              source Hne) as [Hrun _].
  cbv zeta in Hrun. rewrite Hrun. clear Hrun. cbn [Repo.handle].
  assert (Hhne : Service.hashesOf values <> []).
  { destruct values; [contradiction | discriminate]. }
  pose proof (roundtrip_rows st) as [Hr1 _].
  destruct (fst (Repo.roundtrip st)) as [e |] eqn:Hrt.
  { rewrite (ExistsByHashes_fault st _ e Hhne Hrt). cbn [fst snd notnil]. intros [=]. }
  destruct (ExistsByHashes_answer st _ Hhne Hrt) as (existing & Hans & Hex).
  rewrite Hans. cbn [fst snd notnil].
  set (st1 := snd (Repo.roundtrip st)) in *.
  set (newSigs := newSigsOf _ existing values).
  pose proof (known_live st existing values Hex) as Hkl.
  assert (Hdup : List.filter (known existing) values
                 = List.filter (fun v => live_hash st (Service.computeSignatureHash v))
                               values).
  { apply List.filter_ext_in. exact Hkl. }
  pose proof (filter_partition_length (known existing) values) as Hpart.
  assert (Hlen : Go.len' newSigs
                 = Go.len' (List.filter (fun v => negb (known existing v)) values)).
  { unfold newSigs, newSigsOf, Go.len'. now rewrite length_map. }
  destruct (0 <? Go.len' newSigs)%Z eqn:Hpos.
  - apply Z.ltb_lt in Hpos.
    destruct (BatchCreate_cases st1 newSigs) as [(He & Hn & Hrows) | (He & Hn & Hrows)].
    + destruct (Repo.BatchCreate st1 newSigs) as [[imported err1] st2].
      cbn [fst snd] in *. destruct err1 as [e1 |]; [| contradiction]. cbn [notnil].
      intros [= <- <- <-]. split; [intros _; now rewrite Hrows | intros [=]].
    + destruct Hrows as (st0 & id & Hrows).
      destruct (Repo.BatchCreate st1 newSigs) as [[imported err1] st2].
      cbn [fst snd] in *. subst err1 imported. cbn [notnil].
      intros [= <- <- <-]. split; [congruence |]. intros _.
      cbn [result Total Imported Duplicated]. split; [lia |].
      split; [now rewrite Hdup |].
      exists (Repo.createBulk st0 id newSigs). rewrite Hrows, Hr1.
      split; [reflexivity |]. split.
      * unfold Go.len'. now rewrite (proj2 (proj2 (createBulk_hashes _ _ _))).
      * apply List.Forall_forall. intros r Hin.
        apply createBulk_rows in Hin
          as (Hd & s & Hs & Hv & Hh & _ & _ & Hst & _ & _ & Hacc).
        apply In_newSigsOf in Hs as (v & Hvin & Hk & ->).
        rewrite Hv, Hh, Hst, Hacc. cbn. rewrite <- (Hkl v Hvin).
        repeat split; assumption.
  - apply Z.ltb_ge in Hpos. intros [= <- <- <-]. split; [congruence |]. intros _.
    cbn [result Total Imported Duplicated].
    assert (Hz : Go.len' newSigs = 0) by (unfold Go.len' in *; lia).
    split; [lia |]. split; [now rewrite Hdup |].
    exists []. rewrite app_nil_r. split; [exact Hr1 |]. split; [reflexivity | constructor].
Qed.

(** S1 and Y are imported for account 7 into the store that holds S1. *)
Lemma BatchImportWithAccountID_all_or_nothing_witness :
  exists rs,
    Repo.rows (snd (run Repo.handle
                        (Service.BatchImportWithAccountID ["S1"; "Y"] None EmptyString 7)
                        (Example.store_S1 [])))
    = (Repo.rows (Example.store_S1 []) ++ rs)%list
    /\ Go.len' rs = 1.
Proof.
  destruct (BatchImportWithAccountID_all_or_nothing
              (Example.store_S1 [])
              (snd (run Repo.handle
                        (Service.BatchImportWithAccountID ["S1"; "Y"] None EmptyString 7)
                        (Example.store_S1 [])))
              ["S1"; "Y"] None EmptyString 7 (result 2 1 1 0) None)
    as [_ Hok].
  - vm_compute. reflexivity.
  - destruct (Hok eq_refl) as (_ & _ & rs & Hrows & Hlen & _).
    exists rs. split; [exact Hrows | exact Hlen].
Defined.

(** ** The collector over a whole response *)

(** X17.  A collector that is handed signatures one after the other holds
    what it held before followed by those longer than its minimum length, in
    the order they came; [Count] is the number of signatures held and grows
    by the number kept; [GetCollected] returns them all; the account and the
    model do not change. *)
Theorem collector_keeps_long_signatures (growslice_cap : nat -> nat -> nat)
    (vs : list string) (c : Collector.SignatureCollector) (h : Collector.heap) :
  Collector.slice_ok h (Collector.signatures c) ->
  let c' := fst (collect_all growslice_cap c h vs) in
  let h' := snd (collect_all growslice_cap c h vs) in
  let kept := List.filter (fun v => (Collector.minLength c <? Go.len v)%Z) vs in
  Collector.contents h' (Collector.signatures c')
  = (Collector.contents h (Collector.signatures c) ++ kept)%list
  /\ Collector.Count c' = Collector.Count c + Go.len' kept
  /\ Collector.Count c' = Go.len' (Collector.contents h' (Collector.signatures c'))
  /\ (let '(r, h'') := Collector.GetCollected c' h' in
      Collector.contents h'' r
      = (Collector.contents h (Collector.signatures c) ++ kept)%list)
  /\ Collector.GetAccountID c' = Collector.GetAccountID c
  /\ Collector.GetModel c' = Collector.GetModel c
  /\ Collector.slice_ok h' (Collector.signatures c').
Proof.
  intros Hok. cbv zeta.
  assert (Hmain :
    Collector.contents (snd (collect_all growslice_cap c h vs))
      (Collector.signatures (fst (collect_all growslice_cap c h vs)))
    = (Collector.contents h (Collector.signatures c)
       ++ List.filter (fun v => (Collector.minLength c <? Go.len v)%Z) vs)%list
    /\ Collector.slice_ok (snd (collect_all growslice_cap c h vs))
         (Collector.signatures (fst (collect_all growslice_cap c h vs)))
    /\ Collector.accountID (fst (collect_all growslice_cap c h vs)) = Collector.accountID c
    /\ Collector.model (fst (collect_all growslice_cap c h vs)) = Collector.model c).
  { revert c h Hok. unfold collect_all.
    induction vs as [| v vs IH]; intros c h Hok; cbn [foldl List.filter fst snd].
    - rewrite app_nil_r. repeat split. exact Hok.
    - destruct (Collector.minLength c <? Go.len v)%Z eqn:Hlt.
      + apply Z.ltb_lt in Hlt.
        pose proof (Collect_long growslice_cap c h v Hok Hlt) as Hc.
        destruct (Collector.Collect growslice_cap c h v) as [c1 h1].
        destruct Hc as (Hcont & Hok1 & Hmin & Hacc & Hmod & _).
        destruct (IH c1 h1 Hok1) as (IHc & IHok & IHacc & IHmod).
        rewrite Hmin in IHc. rewrite IHc, Hcont, <- app_assoc.
        split; [reflexivity |]. split; [exact IHok |]. split; congruence.
      + apply Z.ltb_ge in Hlt. rewrite (Collect_short growslice_cap c h v Hlt).
        apply IH. exact Hok. }
  destruct Hmain as (Hcont & Hok' & Hacc & Hmod).
  pose proof (contents_length _ _ Hok') as Hcl.
  pose proof (contents_length _ _ Hok) as Hcl0.
  assert (Hcount : Collector.Count (fst (collect_all growslice_cap c h vs))
                   = Go.len' (Collector.contents (snd (collect_all growslice_cap c h vs))
                                (Collector.signatures
                                   (fst (collect_all growslice_cap c h vs))))).
  { unfold Collector.Count, Go.len'. now rewrite Hcl. }
  split; [exact Hcont |]. split; [| split; [exact Hcount |]].
  - rewrite Hcount, Hcont. unfold Collector.Count, Go.len'.
    rewrite length_app, Hcl0. lia.
  - split; [| split; [exact Hacc | split; [exact Hmod | exact Hok']]].
    pose proof (GetCollected_copy _ _ Hok') as Hg.
    destruct (Collector.GetCollected _ _) as [r h''].
    destruct Hg as (Hg & _). now rewrite Hg.
Qed.

(** A new collector of minimum length 5 is handed three signatures. *)
Lemma collector_keeps_long_signatures_witness :
  Collector.Count
    (fst (collect_all Collector.double_cap (fst Example.collector0)
            (snd Example.collector0) ["abcdef"; "abc"; "ghijklm"]))
  = 2.
Proof.
  assert (Hok : Collector.slice_ok (snd Example.collector0)
                  (Collector.signatures (fst Example.collector0))).
  { exists []. vm_compute. repeat split. apply le_n. }
  destruct (collector_keeps_long_signatures Collector.double_cap
              ["abcdef"; "abc"; "ghijklm"] _ _ Hok) as (_ & Hcount & _).
  rewrite Hcount. reflexivity.
Defined.

(** ** The pool over the table *)

Lemma ListActive_answer (st : Repo.Store) (limit : Z) :
  fst (Repo.roundtrip st) = None ->
  Repo.ListActive st limit
  = ((map Repo.sig
          (let ordered :=
             foldr Repo.insert_desc []
               (List.filter (fun r => String.eqb (Status (Repo.sig r)) "active"
                                      && Repo.live r) (Repo.rows st)) in
           if (0 <? limit)%Z then take (Z.to_nat limit) ordered else ordered), None),
     snd (Repo.roundtrip st)).
Proof.
  intros Hrt. pose proof (roundtrip_rows st) as [Hr _]. unfold Repo.ListActive.
  destruct (Repo.roundtrip st) as [f st1]. cbn [fst snd] in *. subst f.
  now rewrite Hr.
Qed.

(** X18.  A pool with an empty snapshot, over the table: when the backend
    answers, the snapshot it loads holds an entry for the active rows that
    are not deleted, for all of them up to 1000, each with the ID, the value
    and the model of its row; [GetPoolSize] is then the number of those rows
    or 1000; and the snapshot expires one TTL after the clock was read. *)
Theorem reload_caches_active_rows (s : Pool.signaturePoolService)
    (w : Example.PoolWorld) :
  Pool.cachedSigs s = [] ->
  fst (Repo.roundtrip (Example.pw_store w)) = None ->
  let active :=
    List.filter (fun r => String.eqb (Status (Repo.sig r)) "active" && Repo.live r)
                (Repo.rows (Example.pw_store w)) in
  let s' := acquired Example.pool_handler s w in
  Pool.cachedSigs s' = snapshot Example.pool_handler s w
  /\ Pool.GetPoolSize s' = Z.min 1000 (Go.len' active)
  /\ (forall c, In c (Pool.cachedSigs s') ->
      exists r, In r active
                /\ Pool.cs_ID c = ID (Repo.sig r)
                /\ Pool.cs_Value c = Value (Repo.sig r)
                /\ Pool.cs_Model c = Model (Repo.sig r))
  /\ Pool.cacheExpiry s' = Example.pw_now w + Pool.cacheTTL s.
Proof.
  intros Hempty Hrt. cbv zeta.
  unfold acquired, snapshot, Pool.getCachedSignatures, Pool.reloadCache, Pool.cacheFresh.
  rewrite Hempty. change (0 <? Go.len' (@nil Pool.CachedSignature))%Z with false.
  cbn [bind mbind prog_bind call run fst snd Example.pool_handler Repo.handle].
  rewrite (ListActive_answer _ 1000 Hrt).
  cbn [bind mbind prog_bind call run fst snd notnil Example.pool_handler
       Pool.cachedSigs Pool.cacheExpiry Example.pw_now].
  set (active := List.filter _ (Repo.rows (Example.pw_store w))).
  destruct (foldr_insert_desc active) as [Hp _].
  change (0 <? 1000)%Z with true. cbv iota zeta.
  split; [reflexivity |]. split; [| split; [| reflexivity]].
  - unfold Pool.GetPoolSize, Go.len'. cbn [Pool.cachedSigs].
    rewrite !length_map, length_take, (Permutation_length Hp). lia.
  - intros c Hin. apply in_map_iff in Hin as (sg & <- & Hin).
    apply in_map_iff in Hin as (r & <- & Hin).
    exists r. split; [| repeat split].
    apply (Permutation_in _ Hp). apply list_elem_of_In. apply list_elem_of_In in Hin.
    apply elem_of_take in Hin as (i & Hi & _). eapply list_elem_of_lookup_2. exact Hi.
Qed.

Lemma reload_caches_active_rows_witness :
  Pool.GetPoolSize (acquired Example.pool_handler Pool.NewSignaturePoolService
                             (Example.world_S1 [])) = 1.
Proof.
  destruct (reload_caches_active_rows Pool.NewSignaturePoolService (Example.world_S1 [])
              eq_refl eq_refl) as (_ & Hsize & _).
  rewrite Hsize. reflexivity.
Defined.

(** ** Updating a signature *)

Lemma roundtrip_nofault (st : Repo.Store) :
  Repo.faults st = [] -> Repo.roundtrip st = (None, st).
Proof. unfold Repo.roundtrip. now intros ->. Qed.




Lemma Forall2_map_r_in {A B} (P : A -> B -> Prop) (g : A -> B) (l : list A) :
  (forall x, In x l -> P x (g x)) -> Forall2 P l (map g l).
Proof.
  induction l as [| x l IH]; intros H; cbn [map]; constructor.
  - apply H. now left.
  - apply IH. intros y Hy. apply H. now right.
Qed.







(** ** The bulk soft deletions *)

Lemma soft_delete_map (touch : Time -> Time -> Time) (now : Time)
    (p : Repo.row -> bool) (rows : list Repo.row) :
  let rows' :=
    map (fun r => if p r && Repo.live r then RepoAdmin.soft_deleted touch now r else r)
        rows in
  Forall2 (fun r r' =>
             if p r && Repo.live r then
               Repo.deleted_at r' = Some now
               /\ ID (Repo.sig r') = ID (Repo.sig r)
               /\ Value (Repo.sig r') = Value (Repo.sig r)
               /\ Hash (Repo.sig r') = Hash (Repo.sig r)
               /\ Status (Repo.sig r') = Status (Repo.sig r)
               /\ UseCount (Repo.sig r') = UseCount (Repo.sig r)
               /\ CollectedFromAccountID (Repo.sig r')
                  = CollectedFromAccountID (Repo.sig r)
             else r' = r) rows rows'
  /\ List.filter (fun r => p r && Repo.live r) rows' = [].
Proof.
  cbv zeta. split.
  - apply Forall2_map_r_in. intros r _.
    destruct (p r && Repo.live r); [cbn; repeat split | reflexivity].
  - induction rows as [| r rows IH]; [reflexivity |]. cbn [map List.filter].
    destruct (p r && Repo.live r) eqn:Hhit.
    + change (Repo.live (RepoAdmin.soft_deleted touch now r)) with false.
      rewrite andb_false_r. exact IH.
    + rewrite Hhit. exact IH.
Qed.

Lemma roundtrip_clock (st : Repo.Store) :
  Repo.clock (snd (Repo.roundtrip st)) = Repo.clock st.
Proof. unfold Repo.roundtrip. now destruct (Repo.faults st). Qed.

Lemma filter_none {A} (p : A -> bool) (l : list A) :
  (forall x, In x l -> p x = false) -> List.filter p l = [].
Proof.
  induction l as [| x l IH]; intros H; [reflexivity |]. cbn [List.filter].
  rewrite (H x (or_introl eq_refl)). apply IH. intros y Hy. apply H. now right.
Qed.

Lemma BatchDelete_answer (touch : Time -> Time -> Time) (st : Repo.Store) (ids : list Z) :
  fst (Repo.roundtrip st) = None ->
  let hit := fun r => existsb (Z.eqb (ID (Repo.sig r))) ids && Repo.live r in
  fst (RepoAdmin.BatchDelete touch st ids)
  = (Go.len' (List.filter hit (Repo.rows st)), None)
  /\ Repo.rows (snd (RepoAdmin.BatchDelete touch st ids))
     = map (fun r => if hit r then RepoAdmin.soft_deleted touch (Repo.clock st) r else r)
           (Repo.rows st).
Proof.
  intros Hrt. cbv zeta.
  pose proof (roundtrip_rows st) as [Hr _]. pose proof (roundtrip_clock st) as Hc.
  unfold RepoAdmin.BatchDelete.
  destruct (Go.len' ids =? 0)%Z eqn:Hl.
  { apply len'_zero in Hl. subst ids. cbn [fst snd existsb andb].
    rewrite filter_none by reflexivity. split; [reflexivity |].
    symmetry. apply map_id. }
  destruct (Repo.roundtrip st) as [f st1]. cbn [fst snd] in *. subst f.
  cbn [fst snd Repo.rows Repo.with_rows]. rewrite Hr, Hc. split; reflexivity.
Qed.

Lemma DeleteByAccountID_answer (touch : Time -> Time -> Time) (st : Repo.Store)
    (accountID : Z) :
  fst (Repo.roundtrip st) = None ->
  let hit := fun r =>
    match CollectedFromAccountID (Repo.sig r) with
    | Some a => (a =? accountID)%Z
    | None => false
    end && Repo.live r in
  fst (RepoAdmin.DeleteByAccountID touch st accountID)
  = (Go.len' (List.filter hit (Repo.rows st)), None)
  /\ Repo.rows (snd (RepoAdmin.DeleteByAccountID touch st accountID))
     = map (fun r => if hit r then RepoAdmin.soft_deleted touch (Repo.clock st) r else r)
           (Repo.rows st).
Proof.
  intros Hrt. cbv zeta.
  pose proof (roundtrip_rows st) as [Hr _]. pose proof (roundtrip_clock st) as Hc.
  unfold RepoAdmin.DeleteByAccountID.
  destruct (Repo.roundtrip st) as [f st1]. cbn [fst snd] in *. subst f.
  cbn [fst snd Repo.rows Repo.with_rows]. rewrite Hr, Hc. split; reflexivity.
Qed.

(** X21.  [BatchDelete], when the backend answers: it counts the rows with
    one of the IDs that are not deleted, marks exactly those as deleted at
    the time of the call and leaves every other row as it is, a row deleted
    earlier included; no row is removed and a deleted row keeps its value
    and hash.  Afterwards [GetByID] finds none of the IDs, and a second
    [BatchDelete] of the same IDs counts 0. *)
Theorem BatchDelete_marks_live_rows (touch : Time -> Time -> Time)
    (st : Repo.Store) (ids : list Z) :
  fst (Repo.roundtrip st) = None ->
  let hit := fun r => existsb (Z.eqb (ID (Repo.sig r))) ids && Repo.live r in
  let ans := RepoAdmin.BatchDelete touch st ids in
  fst ans = (Go.len' (List.filter hit (Repo.rows st)), None)
  /\ Forall2 (fun r r' =>
                if hit r then
                  Repo.deleted_at r' = Some (Repo.clock st)
                  /\ ID (Repo.sig r') = ID (Repo.sig r)
                  /\ Value (Repo.sig r') = Value (Repo.sig r)
                  /\ Hash (Repo.sig r') = Hash (Repo.sig r)
                  /\ Status (Repo.sig r') = Status (Repo.sig r)
                  /\ UseCount (Repo.sig r') = UseCount (Repo.sig r)
                  /\ CollectedFromAccountID (Repo.sig r')
                     = CollectedFromAccountID (Repo.sig r)
                else r' = r)
             (Repo.rows st) (Repo.rows (snd ans))
  /\ (fst (Repo.roundtrip (snd ans)) = None ->
      fst (RepoAdmin.BatchDelete touch (snd ans) ids) = (0, None)
      /\ forall id, In id ids ->
                    fst (RepoAdmin.GetByID (snd ans) id)
                    = (None, Some ErrSignatureNotFound)).
Proof.
  intros Hrt. cbv zeta.
  destruct (BatchDelete_answer touch st ids Hrt) as [Hans Hrows].
  destruct (soft_delete_map touch (Repo.clock st)
              (fun r => existsb (Z.eqb (ID (Repo.sig r))) ids) (Repo.rows st))
    as [Hall Hnone].
  cbv zeta in Hans, Hrows, Hall, Hnone. rewrite <- Hrows in Hall, Hnone.
  set (st' := snd (RepoAdmin.BatchDelete touch st ids)) in *.
  split; [exact Hans |]. split; [exact Hall |]. intros Hrt2. split.
  - destruct (BatchDelete_answer touch st' ids Hrt2) as [Hans2 _].
    cbv zeta in Hans2. rewrite Hans2, Hnone. reflexivity.
  - intros id Hid. unfold RepoAdmin.GetByID.
    pose proof (roundtrip_rows st') as [Hr2 _].
    destruct (Repo.roundtrip st') as [f st2]. cbn [fst snd] in *. subst f. rewrite Hr2.
    rewrite filter_none; [reflexivity |].
    intros r Hin. destruct (ID (Repo.sig r) =? id)%Z eqn:Heq; [| reflexivity].
    apply Z.eqb_eq in Heq. cbn [andb].
    destruct (Repo.live r) eqn:Hlv; [| reflexivity]. exfalso.
    assert (Hmem : existsb (Z.eqb (ID (Repo.sig r))) ids = true).
    { apply existsb_exists. exists id. split; [exact Hid | now apply Z.eqb_eq]. }
    assert (Hin' : In r (List.filter
                           (fun r => existsb (Z.eqb (ID (Repo.sig r))) ids && Repo.live r)
                           (Repo.rows st'))).
    { apply List.filter_In. split; [exact Hin | now rewrite Hmem, Hlv]. }
    rewrite Hnone in Hin'. destruct Hin'.
Qed.

(** S1 is deleted in a batch with an ID that does not exist. *)
Lemma BatchDelete_marks_live_rows_witness :
  fst (RepoAdmin.BatchDelete (fun _ now => now) (Example.store_S1 []) [1; 5]) = (1, None)
  /\ fst (RepoAdmin.GetByID
            (snd (RepoAdmin.BatchDelete (fun _ now => now) (Example.store_S1 []) [1; 5])) 1)
     = (None, Some ErrSignatureNotFound).
Proof.
  destruct (BatchDelete_marks_live_rows (fun _ now => now) (Example.store_S1 []) [1; 5]
              eq_refl) as (Hn & _ & Hafter).
  split; [exact Hn |]. destruct (Hafter eq_refl) as [_ Hget].
  apply Hget. left. reflexivity.
Defined.

(** X22.  [DeleteByAccountID], when the backend answers: it counts the rows
    collected from the account that are not deleted, marks exactly those as
    deleted and leaves the rows of other accounts and the rows without an
    account as they are; afterwards no row of the account is left that is
    not deleted, and a second call for the account counts 0. *)
Theorem DeleteByAccountID_marks_rows_of_account (touch : Time -> Time -> Time)
    (st : Repo.Store) (accountID : Z) :
  fst (Repo.roundtrip st) = None ->
  let hit := fun r =>
    bool_decide (CollectedFromAccountID (Repo.sig r) = Some accountID) && Repo.live r in
  let ans := RepoAdmin.DeleteByAccountID touch st accountID in
  fst ans = (Go.len' (List.filter hit (Repo.rows st)), None)
  /\ Forall2 (fun r r' =>
                if hit r then
                  Repo.deleted_at r' = Some (Repo.clock st)
                  /\ ID (Repo.sig r') = ID (Repo.sig r)
                  /\ Value (Repo.sig r') = Value (Repo.sig r)
                  /\ Hash (Repo.sig r') = Hash (Repo.sig r)
                  /\ Status (Repo.sig r') = Status (Repo.sig r)
                  /\ UseCount (Repo.sig r') = UseCount (Repo.sig r)
                  /\ CollectedFromAccountID (Repo.sig r')
                     = CollectedFromAccountID (Repo.sig r)
                else r' = r)
             (Repo.rows st) (Repo.rows (snd ans))
  /\ (forall r', In r' (Repo.rows (snd ans)) ->
                 CollectedFromAccountID (Repo.sig r') = Some accountID ->
                 Repo.live r' = false)
  /\ (fst (Repo.roundtrip (snd ans)) = None ->
      fst (RepoAdmin.DeleteByAccountID touch (snd ans) accountID) = (0, None)).
Proof.
  intros Hrt. cbv zeta.
  set (p := fun r : Repo.row =>
              match CollectedFromAccountID (Repo.sig r) with
              | Some a => (a =? accountID)%Z
              | None => false
              end).
  assert (Hp : forall r, bool_decide (CollectedFromAccountID (Repo.sig r) = Some accountID)
                         = p r).
  { intros r. unfold p. destruct (CollectedFromAccountID (Repo.sig r)) as [a |].
    - destruct (a =? accountID)%Z eqn:Heq.
      + apply Z.eqb_eq in Heq. subst a. now apply bool_decide_eq_true.
      + apply Z.eqb_neq in Heq. apply bool_decide_eq_false. congruence.
    - now apply bool_decide_eq_false. }
  assert (Hfilter : forall l, List.filter
                      (fun r => bool_decide (CollectedFromAccountID (Repo.sig r)
                                             = Some accountID) && Repo.live r) l
                    = List.filter (fun r => p r && Repo.live r) l).
  { intros l. apply List.filter_ext. intros r. now rewrite Hp. }
  rewrite Hfilter.
  destruct (DeleteByAccountID_answer touch st accountID Hrt) as [Hans Hrows].
  destruct (soft_delete_map touch (Repo.clock st) p (Repo.rows st)) as [Hall Hnone].
  cbv zeta in Hans, Hrows, Hall, Hnone.
  assert (Hrows' : Repo.rows (snd (RepoAdmin.DeleteByAccountID touch st accountID))
                   = map (fun r => if p r && Repo.live r
                                   then RepoAdmin.soft_deleted touch (Repo.clock st) r
                                   else r) (Repo.rows st)) by exact Hrows.
  assert (Hans' : fst (RepoAdmin.DeleteByAccountID touch st accountID)
                  = (Go.len' (List.filter (fun r => p r && Repo.live r) (Repo.rows st)),
                     None)) by exact Hans.
  clear Hrows Hans. rewrite <- Hrows' in Hall, Hnone.
  set (st' := snd (RepoAdmin.DeleteByAccountID touch st accountID)) in *.
  split; [exact Hans' |]. split; [| split].
  - eapply Forall2_impl; [exact Hall |]. intros r r'. cbv beta. now rewrite Hp.
  - intros r' Hin Hacc. destruct (Repo.live r') eqn:Hlv; [| reflexivity]. exfalso.
    assert (Hin' : In r' (List.filter (fun r => p r && Repo.live r) (Repo.rows st'))).
    { apply List.filter_In. split; [exact Hin |]. rewrite Hlv, andb_true_r.
      rewrite <- Hp. now apply bool_decide_eq_true. }
    rewrite Hnone in Hin'. destruct Hin'.
  - intros Hrt2.
    destruct (DeleteByAccountID_answer touch st' accountID Hrt2) as [Hans2 _].
    cbv zeta in Hans2.
    assert (Hans2' : fst (RepoAdmin.DeleteByAccountID touch st' accountID)
                     = (Go.len' (List.filter (fun r => p r && Repo.live r)
                                             (Repo.rows st')), None)) by exact Hans2.
    rewrite Hans2', Hnone. reflexivity.
Qed.

(** The row imported for account 7 is deleted; S1 stays. *)
Lemma DeleteByAccountID_marks_rows_of_account_witness :
  fst (RepoAdmin.DeleteByAccountID (fun _ now => now)
         (snd (run Repo.handle
                   (Service.BatchImportWithAccountID ["S1"; "Y"] None EmptyString 7)
                   (Example.store_S1 []))) 7)
  = (1, None).
Proof.
  destruct (DeleteByAccountID_marks_rows_of_account (fun _ now => now)
              (snd (run Repo.handle
                        (Service.BatchImportWithAccountID ["S1"; "Y"] None EmptyString 7)
                        (Example.store_S1 []))) 7) as (Hn & _).
  - vm_compute. reflexivity.
  - rewrite Hn. vm_compute. reflexivity.
Defined.

(** ** The admin handlers *)

Ltac handler_step h :=
  cbn [bind mbind prog_bind call run trace fst snd];
  match goal with
  | |- context [h ?X ?e ?w] =>
    let x := fresh "x" in let w' := fresh "w" in
    destruct (h X e w) as [x w']
  | |- context [match ?x with _ => _ end] => destruct x
  end.

Ltac handler_call h x w' :=
  cbn [bind mbind prog_bind call run trace fst snd];
  match goal with
  | |- context [h ?X ?e ?w] => destruct (h X e w) as [x w']
  end.

(** X23.  A handler that changes the table invalidates the cache of the
    pool exactly when its service call returned a nil error, after that call
    and before the response, which then reports success; when the request
    is rejected before the call or the call returns an error, the cache is
    left alone and the response reports a failure.  The handlers that only
    read never invalidate.  Every handler writes exactly one response, but
    for [GetStats] when the service returns nil statistics with a nil
    error: it then reads the pool size and panics. *)
Theorem mutations_invalidate_after_success {W} (Error_ : error -> string)
    (h : handler Handler.HandlerE W) (w : W) (idParam : string) :
  Forall (fun p =>
            let s := steps (trace h p w) in
            s = [did_respond false]
            \/ (exists e, s = [did_mutate (Some e); did_respond false])
            \/ s = [did_mutate None; did_invalidate; did_respond true])
         [Handler.Create Error_; Handler.BatchImport Error_;
          Handler.Update Error_ idParam; Handler.Delete Error_ idParam;
          Handler.BatchDelete Error_; Handler.DeleteByAccountID Error_ idParam]
  /\ Forall (fun p =>
               let s := steps (trace h p w) in
               s = [did_respond false]
               \/ s = [did_read; did_respond false]
               \/ s = [did_read; did_respond true])
            [Handler.List Error_; Handler.GetByID Error_ idParam;
             Handler.GetRandom Error_]
  /\ (let s := steps (trace h (Handler.GetStats Error_) w) in
      let answer := fst (h _ Handler.svc_GetStats w) in
      (snd answer <> None -> s = [did_read; did_respond false])
      /\ (snd answer = None -> fst answer <> None ->
          s = [did_read; did_read; did_respond true])
      /\ (snd answer = None -> fst answer = None -> s = [did_read; did_read; did_panic])).
Proof.
  split; [| split]; repeat apply List.Forall_cons; try apply List.Forall_nil; cbv zeta;
    unfold Handler.Create, Handler.BatchImport, Handler.Update, Handler.Delete,
      Handler.BatchDelete, Handler.DeleteByAccountID, Handler.List, Handler.GetByID,
      Handler.GetRandom, Handler.GetStats;
    repeat handler_step h;
    unfold steps;
    cbn [bind mbind prog_bind call run trace fst snd omap list_omap ans_call ans_value
         is_success];
    first [ left; reflexivity
          | right; left; eexists; reflexivity
          | right; left; reflexivity
          | right; right; reflexivity
          | repeat split; intros; first [reflexivity | congruence] ].
Qed.

(** The statistics of three active signatures and a pool of three. *)
Lemma mutations_invalidate_after_success_witness :
  steps (trace demo (Handler.GetStats (fun _ => "error")) tt)
  = [did_read; did_read; did_respond true].
Proof.
  destruct (mutations_invalidate_after_success (fun _ => "error") demo tt "1")
    as (_ & _ & _ & Hok & _).
  apply Hok; [reflexivity | discriminate].
Defined.

(** X24.  The handlers that take an ID from the path parse it first.  A
    parameter that is not a decimal 64-bit integer is answered with
    BadRequest and nothing else happens: no service is called and the body
    is not read.  Otherwise a service is called with no other ID than the
    parsed one, which lies in the range of int64. *)
Theorem id_is_parsed_before_the_service {W} (Error_ : error -> string)
    (h : handler Handler.HandlerE W) (w : W) (idParam : string) :
  (Handler.ParseInt idParam = None ->
   Forall (fun p => exists msg,
               map (fun a => existT _ (ans_call _ a)) (trace h p w)
               = [existT _ (Handler.respond (Handler.BadRequest msg))])
          [Handler.GetByID Error_ idParam; Handler.Update Error_ idParam;
           Handler.Delete Error_ idParam; Handler.DeleteByAccountID Error_ idParam])
  /\ (forall id,
        Handler.ParseInt idParam = Some id ->
        - 9223372036854775808 <= id <= 9223372036854775807
        /\ Forall (fun p => forall id', In id' (ids_served (trace h p w)) -> id' = id)
                  [Handler.GetByID Error_ idParam; Handler.Update Error_ idParam;
                   Handler.Delete Error_ idParam; Handler.DeleteByAccountID Error_ idParam]).
Proof.
  split.
  - intros Hnone. repeat apply List.Forall_cons; try apply List.Forall_nil;
      unfold Handler.GetByID, Handler.Update, Handler.Delete, Handler.DeleteByAccountID;
      rewrite Hnone; handler_step h; cbn; eexists; reflexivity.
  - intros id Hsome. split.
    + unfold Handler.ParseInt in Hsome. destruct idParam as [| c r]; [discriminate |].
      destruct (if Ascii.eqb c "+" then (false, r)
                else if Ascii.eqb c "-" then (true, r) else (false, String c r))
        as [neg body].
      destruct body as [| c' body']; [discriminate |].
      destruct (Handler.digits (String c' body') 0) as [n |]; [| discriminate].
      cbv zeta in Hsome.
      destruct ((- 9223372036854775808 <=? (if neg then - n else n))%Z
                && ((if neg then - n else n) <=? 9223372036854775807)%Z) eqn:Hr;
        [| discriminate].
      injection Hsome as <-. apply andb_prop in Hr as [Hlo Hhi].
      apply Z.leb_le in Hlo, Hhi. split; assumption.
    + repeat apply List.Forall_cons; try apply List.Forall_nil;
        unfold Handler.GetByID, Handler.Update, Handler.Delete, Handler.DeleteByAccountID;
        rewrite Hsome; repeat handler_step h;
        unfold ids_served;
        cbn [bind mbind prog_bind call run trace fst snd omap list_omap ans_call ans_value];
        intros id' Hin; repeat (destruct Hin as [Hin | Hin]; [now symmetry |]);
        destruct Hin.
Qed.

Lemma id_is_parsed_before_the_service_witness :
  (exists msg,
     map (fun a => existT _ (ans_call _ a))
         (trace demo (Handler.Delete (fun _ => "error") "12a") tt)
     = [existT _ (Handler.respond (Handler.BadRequest msg))])
  /\ (forall id',
        In id' (ids_served (trace demo (Handler.Delete (fun _ => "error") "-12") tt)) ->
        id' = -12).
Proof.
  destruct (id_is_parsed_before_the_service (fun _ => "error") demo tt "12a") as [Hbad _].
  destruct (id_is_parsed_before_the_service (fun _ => "error") demo tt "-12") as [_ Hok].
  split.
  - specialize (Hbad eq_refl).
    apply Forall_inv_tail, Forall_inv_tail, Forall_inv in Hbad. exact Hbad.
  - destruct (Hok (-12) eq_refl) as [_ Hall].
    apply Forall_inv_tail, Forall_inv_tail, Forall_inv in Hall. exact Hall.
Defined.

Lemma accountIDsOf_spec (signatures : list Signature) :
  forall (accountIDs : list Z) (accountIDSet : gmap Z bool),
    NoDup accountIDs ->
    (forall a, default false (accountIDSet !! a) = true <-> In a accountIDs) ->
    exists rest,
      Handler.accountIDsOf signatures accountIDs accountIDSet = (accountIDs ++ rest)%list
      /\ NoDup (accountIDs ++ rest)
      /\ (forall a, In a rest <->
                    ~ In a accountIDs
                    /\ exists s, In s signatures /\ CollectedFromAccountID s = Some a)
      /\ sublist rest (omap CollectedFromAccountID signatures).
Proof.
  induction signatures as [| s sigs IH]; intros acc set Hnd Hset;
    cbn [Handler.accountIDsOf].
  - exists []. rewrite app_nil_r. split; [reflexivity |]. split; [exact Hnd |].
    split; [| constructor].
    intros a. split; [intros [] | intros (_ & s & [] & _)].
  - cbn [omap list_omap]. destruct (CollectedFromAccountID s) as [a |] eqn:Hacc.
    + destruct (default false (set !! a)) eqn:Hseen.
      * apply Hset in Hseen.
        destruct (IH acc set Hnd Hset) as (rest & Heq & Hnd' & Hmem & Hsub).
        exists rest. split; [exact Heq |]. split; [exact Hnd' |]. split.
        -- intros a0. rewrite Hmem. split.
           ++ intros (Hn & s' & Hs' & Ha). split; [exact Hn |].
              exists s'. split; [now right | exact Ha].
           ++ intros (Hn & s' & [<- | Hs'] & Ha).
              ** rewrite Hacc in Ha. injection Ha as <-. contradiction.
              ** split; [exact Hn |]. exists s'. now split.
        -- now apply sublist_cons.
      * assert (Hnin : ~ In a acc).
        { intros Hin. apply Hset in Hin. congruence. }
        destruct (IH (acc ++ [a])%list (<[a := true]> set)) as (rest & Heq & Hnd' & Hmem & Hsub).
        { apply NoDup_app. split; [exact Hnd |]. split; [| apply NoDup_singleton].
          intros x Hx Hx'. apply list_elem_of_singleton in Hx'. subst x.
          apply Hnin. now apply list_elem_of_In. }
        { intros a0. rewrite in_app_iff. destruct (decide (a0 = a)) as [-> | Hne].
          - rewrite lookup_insert_eq. cbn. split; [intros _; right; now left | reflexivity].
          - rewrite lookup_insert_ne by congruence. rewrite Hset.
            split; [now left | intros [H | [H | []]]; [exact H | congruence]]. }
        exists (a :: rest). rewrite <- app_assoc in Heq, Hnd'. cbn [app] in Heq, Hnd'.
        split; [exact Heq |]. split; [exact Hnd' |]. split.
        -- intros a0. cbn [In]. rewrite Hmem, in_app_iff. split.
           ++ intros [<- | (Hn & s' & Hs' & Ha)].
              ** split; [exact Hnin |]. exists s. split; [now left | exact Hacc].
              ** split; [tauto |]. exists s'. split; [now right | exact Ha].
           ++ intros (Hn & s' & [<- | Hs'] & Ha).
              ** rewrite Hacc in Ha. injection Ha as <-. now left.
              ** destruct (decide (a = a0)) as [-> | Hne]; [now left | right].
                 split; [intros [H | [H | []]]; [contradiction | congruence] |].
                 exists s'. now split.
        -- now apply sublist_skip.
    + destruct (IH acc set Hnd Hset) as (rest & Heq & Hnd' & Hmem & Hsub).
      exists rest. split; [exact Heq |]. split; [exact Hnd' |]. split; [| exact Hsub].
      intros a0. rewrite Hmem. split.
      * intros (Hn & s' & Hs' & Ha). split; [exact Hn |].
        exists s'. split; [now right | exact Ha].
      * intros (Hn & s' & [<- | Hs'] & Ha); [congruence |].
        split; [exact Hn |]. exists s'. now split.
Qed.

Lemma filter_filter_and {A} (p q : A -> bool) (l : list A) :
  List.filter p (List.filter q l) = List.filter (fun x => q x && p x) l.
Proof.
  induction l as [| x l IH]; [reflexivity |]. cbn [List.filter].
  destruct (q x); cbn [andb List.filter]; [destruct (p x) |]; now rewrite IH.
Qed.

(** The loop of [List] collects the accounts in the order of their first
    occurrence, leaving out those it has already. *)
Lemma accountIDsOf_first_occurrences (signatures : list Signature) :
  forall (accountIDs : list Z) (accountIDSet : gmap Z bool),
    (forall a, default false (accountIDSet !! a) = existsb (Z.eqb a) accountIDs) ->
    Handler.accountIDsOf signatures accountIDs accountIDSet
    = (accountIDs
       ++ List.filter (fun b => negb (existsb (Z.eqb b) accountIDs))
                      (first_occurrences (omap CollectedFromAccountID signatures)))%list.
Proof.
  induction signatures as [| s sigs IH]; intros acc set Hset;
    cbn [Handler.accountIDsOf omap list_omap].
  - cbn. now rewrite app_nil_r.
  - destruct (CollectedFromAccountID s) as [a |]; [| now apply IH].
    cbn [first_occurrences List.filter]. rewrite Hset.
    destruct (existsb (Z.eqb a) acc) eqn:Hseen; cbn [negb].
    + rewrite (IH acc set Hset). f_equal. rewrite filter_filter_and.
      apply List.filter_ext. intros b.
      destruct (Z.eqb_spec b a) as [-> | Hne]; cbn [negb andb]; [| reflexivity].
      now rewrite Hseen.
    + rewrite (IH (acc ++ [a])%list (<[a := true]> set)).
      * rewrite <- app_assoc. cbn [app]. do 2 f_equal. rewrite filter_filter_and.
        apply List.filter_ext. intros b. rewrite existsb_app. cbn [existsb].
        rewrite orb_false_r, negb_orb. apply andb_comm.
      * intros b. rewrite existsb_app. cbn [existsb]. rewrite orb_false_r.
        destruct (Z.eqb_spec b a) as [-> | Hne].
        -- rewrite lookup_insert_eq. cbn. now rewrite orb_true_r.
        -- rewrite lookup_insert_ne by congruence. rewrite Hset. now rewrite orb_false_r.
Qed.

(** X25.  [List], when the signature service answers with a nil error,
    writes one page with an item for each signature, in order, and asks the
    account repository at most once: not at all when no signature was
    collected from an account, and otherwise for the accounts of the
    signatures, each once, in the order of their first signature.  An error
    of the account repository does not fail the page. *)
Theorem List_asks_each_account_once {W} (Error_ : error -> string)
    (h : handler Handler.HandlerE W) (w : W)
    (signatures : list Signature) (total : Z) :
  let t := trace h (Handler.List Error_) w in
  list_answers t = [(signatures, total, None)] ->
  (exists items page pageSize,
     responses t = [Handler.Paginated items total page pageSize]
     /\ map Handler.it_Signature items = signatures)
  /\ ((forall s, In s signatures -> CollectedFromAccountID s = None) ->
      getbyids_calls t = [])
  /\ ((exists s, In s signatures /\ CollectedFromAccountID s <> None) ->
      exists ids,
        getbyids_calls t = [ids]
        /\ NoDup ids
        /\ (forall a, In a ids <->
                      exists s, In s signatures /\ CollectedFromAccountID s = Some a)
        /\ sublist ids (omap CollectedFromAccountID signatures)
        /\ ids = first_occurrences (omap CollectedFromAccountID signatures)).
Proof.
  cbv zeta. unfold Handler.List.
  do 8 handler_step h. handler_call h listed w7.
  destruct listed as [[sigs tot] [e |]].
  { unfold list_answers.
    cbn [bind mbind prog_bind call run trace fst snd omap list_omap ans_call ans_value].
    handler_step h. cbn. intros [=]. }
  destruct (accountIDsOf_spec sigs [] ∅ (NoDup_nil_2 (A := Z)))
    as (ids & Hids & Hnd & Hmem & Hsub).
  { intros a. rewrite lookup_empty. cbn. split; [discriminate | intros []]. }
  cbn [app] in Hids, Hnd.
  assert (Hfirst : ids = first_occurrences (omap CollectedFromAccountID sigs)).
  { rewrite <- Hids. rewrite (accountIDsOf_first_occurrences sigs [] ∅).
    - cbn [app existsb negb]. clear.
      induction (first_occurrences (omap CollectedFromAccountID sigs)) as [| x l IH];
        [reflexivity |]. cbn [List.filter]. now rewrite IH.
    - intros a. now rewrite lookup_empty. }
  assert (Hitems : forall m, map Handler.it_Signature (map (Handler.toItem m) sigs) = sigs).
  { intros m. rewrite map_map. cbn. apply map_id. }
  cbn [bind mbind prog_bind call run trace fst snd]. rewrite Hids.
  destruct (0 <? Go.len' ids)%Z eqn:Hpos.
  - handler_call h answer w8. destruct answer as [accounts [e |]];
      handler_step h;
      unfold list_answers, responses, getbyids_calls;
      cbn [bind mbind prog_bind call run trace fst snd omap list_omap ans_call ans_value];
      intros [= <- <-];
      (split; [eexists _, _, _; split; [reflexivity | apply Hitems] |]);
      (split;
       [ intros Hno; exfalso; destruct ids as [| a ids']; [discriminate |];
         destruct (proj1 (Hmem a) (or_introl eq_refl)) as (_ & s & Hs & Ha);
         rewrite (Hno s Hs) in Ha; discriminate
       | intros _; exists ids; split; [reflexivity |]; split; [exact Hnd |];
         split; [| split; [exact Hsub | exact Hfirst]];
         intros a; rewrite Hmem; split; [intros [_ H]; exact H | intros H; split; [intros [] | exact H]] ]).
  - apply Z.ltb_ge in Hpos.
    assert (Hnil : ids = []) by (destruct ids; [reflexivity | unfold Go.len' in Hpos; cbn in Hpos; lia]).
    rewrite Hnil in *. handler_step h.
    unfold list_answers, responses, getbyids_calls.
    cbn [bind mbind prog_bind call run trace fst snd omap list_omap ans_call ans_value].
    intros [= <- <-].
    split; [eexists _, _, _; split; [reflexivity | apply Hitems] |].
    split; [reflexivity |].
    intros (s & Hs & Hacc). exfalso.
    destruct (CollectedFromAccountID s) as [a |] eqn:Ha; [| contradiction].
    apply (proj2 (Hmem a)). split; [intros [] |]. exists s. now split.
Qed.

Lemma List_asks_each_account_once_witness :
  getbyids_calls (trace demo (Handler.List (fun _ => "error")) tt) = [[7; 8]].
Proof.
  destruct (List_asks_each_account_once (fun _ => "error") demo tt
              [demo_signature 1 (Some 7); demo_signature 2 None; demo_signature 3 (Some 8);
               demo_signature 4 (Some 7)]
              4 eq_refl) as (_ & _ & Hcall).
  destruct Hcall as (ids & Hids & _ & _ & _ & Hfirst).
  - exists (demo_signature 1 (Some 7)). split; [left; reflexivity | discriminate].
  - rewrite Hids, Hfirst. reflexivity.
Defined.

(** ** The statistics *)

Lemma Count_nofault (p : Repo.row -> bool) (st : Repo.Store) :
  Repo.faults st = [] ->
  Stats.Count p st
  = ((Go.len' (List.filter (fun r => p r && Repo.live r) (Repo.rows st)), None), st).
Proof. intros Hf. unfold Stats.Count. now rewrite (roundtrip_nofault st Hf). Qed.

Lemma filter_length_le {A} (p q : A -> bool) (l : list A) :
  (forall x, p x = true -> q x = true) ->
  Go.len' (List.filter p l) <= Go.len' (List.filter q l).
Proof.
  intros Hpq. unfold Go.len'. induction l as [| x l IH]; cbn [List.filter]; [lia |].
  destruct (p x) eqn:Hp.
  - rewrite (Hpq x Hp). cbn [length]. lia.
  - destruct (q x); cbn [length]; lia.
Qed.

(** X26.  [GetStats] on a table that does not change meanwhile and whose
    backend answers.  Every row has one of the three statuses, which the
    table checks; so the total is the sum of the active, the disabled and
    the expired.  The total counts the rows that are not deleted, the
    recently used are among them, and the total usage is the sum of their
    use counts.  The table is left as it is. *)
Theorem GetStats_counts_add_up (st : Repo.Store) :
  Repo.faults st = [] ->
  Forall (fun r => Repo.status_ok (Status (Repo.sig r)) = true) (Repo.rows st) ->
  exists s,
    Stats.GetStats st = ((Some s, None), st)
    /\ Stats.Total s = Stats.Active s + Stats.Disabled s + Stats.Expired s
    /\ Stats.Total s = Go.len' (List.filter Repo.live (Repo.rows st))
    /\ 0 <= Stats.RecentlyUsed s <= Stats.Total s
    /\ Stats.TotalUsage s
       = foldr Z.add 0 (map (fun r => UseCount (Repo.sig r))
                            (List.filter Repo.live (Repo.rows st))).
Proof.
  intros Hf Hst. unfold Stats.GetStats.
  rewrite !(Count_nofault _ st Hf). cbn [notnil].
  unfold Stats.SumUseCount. rewrite (roundtrip_nofault st Hf). cbn [notnil].
  rewrite (Count_nofault _ st Hf). cbn [notnil].
  eexists. split; [reflexivity |].
  cbn [Stats.Total Stats.Active Stats.Disabled Stats.Expired Stats.TotalUsage
       Stats.RecentlyUsed].
  assert (Hlive : List.filter (fun r => true && Repo.live r) (Repo.rows st)
                  = List.filter Repo.live (Repo.rows st)).
  { apply List.filter_ext. reflexivity. }
  rewrite Hlive. split; [| split; [reflexivity | split; [| reflexivity]]].
  - clear Hlive Hf. unfold Go.len'.
    induction Hst as [| r rows Hr _ IH]; cbn [List.filter]; [reflexivity |].
    assert (Hone :
      (Stats.has_status "active" r = true /\ Stats.has_status "disabled" r = false
       /\ Stats.has_status "expired" r = false)
      \/ (Stats.has_status "active" r = false /\ Stats.has_status "disabled" r = true
          /\ Stats.has_status "expired" r = false)
      \/ (Stats.has_status "active" r = false /\ Stats.has_status "disabled" r = false
          /\ Stats.has_status "expired" r = true)).
    { unfold Stats.has_status. unfold Repo.status_ok, Repo.mem in Hr. cbn [existsb] in Hr.
      destruct (String.eqb (Status (Repo.sig r)) "active") eqn:Ha.
      { apply String.eqb_eq in Ha. rewrite Ha. left. repeat split. }
      destruct (String.eqb (Status (Repo.sig r)) "disabled") eqn:Hd.
      { apply String.eqb_eq in Hd. rewrite Hd. right. left. repeat split. }
      destruct (String.eqb (Status (Repo.sig r)) "expired") eqn:He; [| discriminate].
      right. right. repeat split. }
    destruct (Repo.live r); [| rewrite !andb_false_r; exact IH].
    rewrite !andb_true_r.
    destruct Hone as [(-> & -> & ->) | [(-> & -> & ->) | (-> & -> & ->)]];
      cbn [length]; lia.
  - split; [unfold Go.len'; lia |].
    apply filter_length_le. intros x Hx. now apply andb_prop in Hx as [_ Hx].
Qed.

Lemma GetStats_counts_add_up_witness :
  exists s,
    Stats.GetStats (Example.store_S1 []) = ((Some s, None), Example.store_S1 [])
    /\ Stats.Total s = 1.
Proof.
  destruct (GetStats_counts_add_up (Example.store_S1 []) eq_refl) as (s & Hrun & _ & Htot & _).
  - constructor; [reflexivity | constructor].
  - exists s. split; [exact Hrun | exact Htot].
Defined.
